(** * mini-notes: the worker's router, authentication and notes controllers

    A shallow embedding of the TypeScript worker
    ([router.ts], [controllers/auth.ts], [controllers/notes.ts], [index.ts])
    and the properties its specification states about it.

    Conventions of the model.
    - A JavaScript string is a Rocq [string]; its characters are the code
      units 0..255, the range on which [btoa] is defined.
    - [undefined] is [None]; a value a request body can hold is a [Value]
      (what [JSON.parse] returns: [null], a boolean, a number, a string, an
      array, an object), so a present value is [Some v].
    - A function that may throw returns a [Completion]: [Normal v] or
      [Throw e]; [try { } catch { }] is [try_catch].
    - The two KV namespaces are finite maps from keys to the records whose
      JSON text the worker stores ([JSON.stringify] on write, [get(_, 'json')]
      on read).  The binding refuses a key that is empty, ["."], [".."] or
      longer than 512 bytes, and a value over its size limit; a call it
      accepts does not fail, and a write is seen by the next read.  A
      request is served on its own: no other request writes between two of
      its KV calls.
    - An instant is a number of milliseconds ([N]); [toISOString] renders it
      and [new Date(iso).getTime()] reads it back.  What [new Date()] and
      [Date.now()] read is an input of the handler, one per read.
    - [crypto.randomUUID()] and the bcrypt salt are inputs of the handler
      that draws them. *)

From Stdlib Require Import Ascii String NArith ZArith List Lia Floats.
From stdpp Require Import base option list strings gmap fin_maps sorting pretty.

Set Warnings "-register-all".
Local Open Scope string_scope.
Local Open Scope list_scope.

(** ** JavaScript values and strings *)

Module JS.

(** The errors the modelled code can raise. *)
Inductive JsError : Type :=
| InvalidCharacterError        (* atob / btoa *)
| SyntaxError                  (* request.json() on a malformed body *)
| TypeError                    (* property access on null/undefined *)
| KvError                      (* a call the KV binding refuses *)
| OtherError (msg : string).   (* anything a handler may throw *)

Inductive Completion (A : Type) : Type :=
| Normal (a : A)
| Throw (e : JsError).
Arguments Normal {A} a.
Arguments Throw {A} e.

Definition bind {A B} (c : Completion A) (k : A -> Completion B) : Completion B :=
  match c with
  | Normal a => k a
  | Throw e => Throw e
  end.

(** [try { body } catch { handler }] *)
Definition try_catch {A} (body : Completion A) (handler : JsError -> Completion A)
  : Completion A :=
  match body with
  | Normal a => Normal a
  | Throw e => handler e
  end.

(** What [JSON.parse] returns; a number is an IEEE double. *)
Inductive Value : Type :=
| VNull
| VBool (b : bool)
| VNum (x : float)
| VStr (s : string)
| VArr (items : list Value)
| VObj (members : gmap string Value).

(** [!v] for a parsed value or [undefined] *)
Definition falsy_value (v : option Value) : bool :=
  match v with
  | None => true
  | Some VNull => true
  | Some (VBool b) => negb b
  | Some (VNum x) => PrimFloat.is_zero x || PrimFloat.is_nan x
  | Some (VStr s) => String.eqb s ""
  | Some (VArr _) => false
  | Some (VObj _) => false
  end.

(** [v ?? w]: [w] when [v] is [null] or [undefined] *)
Definition nullish_or (v : option Value) (w : Value) : Value :=
  match v with
  | None => w
  | Some VNull => w
  | Some v => v
  end.

(** [v.name] for a name that no built-in prototype defines (here
    [username], [password], [title], [content]): a [TypeError] on [null],
    the member of that name on an object, [undefined] on any other value. *)
Definition member (name : string) (v : Value) : Completion (option Value) :=
  match v with
  | VNull => Throw TypeError
  | VObj members => Normal (members !! name)
  | _ => Normal None
  end.

(** [JSON.parse(JSON.stringify(v))]: a number that is not finite comes back
    as [null], and a negative zero as zero. *)
Fixpoint reparsed (v : Value) : Value :=
  match v with
  | VNum x =>
      if PrimFloat.is_nan x || PrimFloat.is_infinity x then VNull
      else if PrimFloat.is_zero x then VNum PrimFloat.zero
      else VNum x
  | VArr items => VArr (List.map reparsed items)
  | VObj members => VObj (reparsed <$> members)
  | _ => v
  end.

(** [!s] for a value that is a string, [null] or [undefined]. *)
Definition falsy (v : option string) : bool :=
  match v with
  | None => true
  | Some s => String.eqb s ""
  end.

(** [s.startsWith(p)] *)
Fixpoint startsWith (s p : string) {struct p} : bool :=
  match p, s with
  | EmptyString, _ => true
  | String a p', String b s' => Ascii.eqb a b && startsWith s' p'
  | String _ _, EmptyString => false
  end.

(** [s.slice(n)] for [0 <= n] *)
Fixpoint slice (n : nat) (s : string) : string :=
  match n, s with
  | O, _ => s
  | S n', String _ s' => slice n' s'
  | S _, EmptyString => EmptyString
  end.

(** [s.split(sep)] for a one-character separator: never empty. *)
Fixpoint split (sep : ascii) (s : string) : list string :=
  match s with
  | EmptyString => [EmptyString]
  | String c s' =>
      if Ascii.eqb c sep then EmptyString :: split sep s'
      else match split sep s' with
           | seg :: segs => String c seg :: segs
           | [] => [String c EmptyString]
           end
  end.

(** [parts.filter(Boolean)] on an array of strings *)
Definition filter_Boolean (parts : list string) : list string :=
  List.filter (fun p => negb (String.eqb p "")) parts.

(** [parts.pop()]: the last element, [undefined] on an empty array. *)
Definition pop (parts : list string) : option string := last parts.

(** [const [x] = parts]: the first element, [undefined] if there is none. *)
Definition first (parts : list string) : option string := head parts.

(** The character [c] occurs in [s]. *)
Fixpoint contains (c : ascii) (s : string) : bool :=
  match s with
  | EmptyString => false
  | String d s' => Ascii.eqb d c || contains c s'
  end.

(** Every character of [s] passes [f]. *)
Fixpoint all_chars (f : ascii -> bool) (s : string) : bool :=
  match s with
  | EmptyString => true
  | String c s' => f c && all_chars f s'
  end.

Definition is_hex_or_hyphen (c : ascii) : bool :=
  let k := N_of_ascii c in
  ((48 <=? k) && (k <=? 57) || (97 <=? k) && (k <=? 102) || (k =? 45))%N.

(** The shape of what [crypto.randomUUID()] returns: 36 characters,
    hexadecimal digits and hyphens. *)
Definition uuid_shaped (s : string) : bool :=
  (String.length s =? 36)%nat && all_chars is_hex_or_hyphen s.

End JS.

(** ** Base64: [btoa] and [atob] (forgiving-base64 of the HTML standard) *)

Module Base64.
Import JS.

Local Open Scope N_scope.

(** The sextet [n < 64] as a character of the alphabet [A-Za-z0-9+/]. *)
Definition b64_char (n : N) : ascii :=
  if n <? 26 then ascii_of_N (65 + n)
  else if n <? 52 then ascii_of_N (71 + n)
  else if n <? 62 then ascii_of_N (n - 4)
  else if n =? 62 then "+"%char
  else "/"%char.

(** The sextet a character stands for; [None] outside the alphabet. *)
Definition b64_index (c : ascii) : option N :=
  let k := N_of_ascii c in
  if (65 <=? k) && (k <=? 90) then Some (k - 65)
  else if (97 <=? k) && (k <=? 122) then Some (k - 71)
  else if (48 <=? k) && (k <=? 57) then Some (k + 4)
  else if k =? 43 then Some 62
  else if k =? 47 then Some 63
  else None.

Definition pad : ascii := "="%char.

(** Three bytes give four sextets; a rest of two bytes gives three, a rest
    of one byte gives two. *)
Fixpoint encode_sextets (bytes : list N) : list N :=
  match bytes with
  | b0 :: b1 :: b2 :: rest =>
      let n := b0 * 65536 + b1 * 256 + b2 in
      n / 262144 :: (n / 4096) mod 64 :: (n / 64) mod 64 :: n mod 64
        :: encode_sextets rest
  | [b0; b1] =>
      let n := b0 * 65536 + b1 * 256 in
      [n / 262144; (n / 4096) mod 64; (n / 64) mod 64]
  | [b0] =>
      let n := b0 * 65536 in
      [n / 262144; (n / 4096) mod 64]
  | [] => []
  end.

Definition padding (len : nat) : list ascii :=
  match (len mod 3)%nat with
  | 1%nat => [pad; pad]
  | 2%nat => [pad]
  | _ => []
  end.

(** Every element is a byte. *)
Definition is_bytes (bytes : list N) : Prop := Forall (fun b => b < 256) bytes.

Definition bytes_of (s : string) : list N :=
  List.map N_of_ascii (list_ascii_of_string s).

Definition string_of_bytes (bytes : list N) : string :=
  string_of_list_ascii (List.map ascii_of_N bytes).

(** [btoa(s)]; it throws only on a code unit above 255, which the strings
    of this model do not have. *)
Definition btoa (s : string) : string :=
  let bytes := bytes_of s in
  string_of_list_ascii
    (List.map b64_char (encode_sextets bytes) ++ padding (length bytes)).

Definition is_ascii_whitespace (c : ascii) : bool :=
  let k := N_of_ascii c in
  (k =? 9) || (k =? 10) || (k =? 12) || (k =? 13) || (k =? 32).

(** When the length is a multiple of four, one or two trailing [=] go. *)
Definition strip_padding (cs : list ascii) : list ascii :=
  if (length cs mod 4 =? 0)%nat then
    match rev cs with
    | c1 :: c2 :: r =>
        if Ascii.eqb c1 pad then
          if Ascii.eqb c2 pad then rev r else rev (c2 :: r)
        else cs
    | [c1] => if Ascii.eqb c1 pad then [] else cs
    | [] => cs
    end
  else cs.

(** Four sextets give three bytes; of a rest of 18 bits the last two are
    dropped, of a rest of 12 bits the last four. *)
Fixpoint decode_sextets (ss : list N) : list N :=
  match ss with
  | s0 :: s1 :: s2 :: s3 :: rest =>
      let n := ((s0 * 64 + s1) * 64 + s2) * 64 + s3 in
      n / 65536 :: (n / 256) mod 256 :: n mod 256 :: decode_sextets rest
  | [s0; s1; s2] =>
      let n := ((s0 * 64 + s1) * 64 + s2) / 4 in
      [n / 256; n mod 256]
  | [s0; s1] =>
      let n := (s0 * 64 + s1) / 16 in
      [n]
  | _ => []
  end.

(** [atob(data)]: [InvalidCharacterError] on a length of 4k+1 (after
    white space and padding are removed) or a character outside the
    alphabet. *)
Definition atob (data : string) : Completion string :=
  let cs := List.filter (fun c => negb (is_ascii_whitespace c))
              (list_ascii_of_string data) in
  let cs := strip_padding cs in
  if (length cs mod 4 =? 1)%nat then Throw InvalidCharacterError
  else match mapM b64_index cs with
       | None => Throw InvalidCharacterError
       | Some ss => Normal (string_of_bytes (decode_sextets ss))
       end.

End Base64.

#[global] Instance Completion_ret : MRet JS.Completion := @JS.Normal.
#[global] Instance Completion_bind : MBind JS.Completion :=
  fun A B k c => JS.bind c k.


(** ** Requests and responses *)

Module Http.
Import JS.

(** A JSON value handed to [JSON.stringify]. *)
Inductive Json : Type :=
| JStr (s : string)
| JDate (t : N)               (* the text of [toISOString()] at instant [t] *)
| JVal (v : Value)            (* a value of the request body, handed on *)
| JArr (items : list Json)
| JObj (fields : list (string * Json)).

(** A request: [request.method], [new URL(request.url).pathname],
    [request.headers.get('Authorization')] and the outcome of
    [request.json()]: the parsed value, or a [SyntaxError].  The TypeScript
    interfaces of the bodies are erased at run time, so the value is any
    JSON value. *)
Record Request : Type := mkRequest {
  method : string;
  pathname : string;
  authorization : option string;
  json : Completion Value
}.

Inductive Body : Type :=
| NoBody
| Text (s : string)
| JsonText (data : Json).   (* JSON.stringify(data) *)

Record Response : Type := mkResponse {
  body : Body;
  status : N;
  headers : list (string * string)
}.

Definition cors_origin : string * string := ("Access-Control-Allow-Origin", "*").

(** [jsonResponse] and [errorResponse], the same in both controllers *)
Definition jsonResponse (data : Json) (status : N) : Response :=
  {| body := JsonText data;
     status := status;
     headers := [("Content-Type", "application/json"); cors_origin] |}.

Definition errorResponse (message : string) (status : N) : Response :=
  jsonResponse (JObj [("error", JStr message)]) status.

(** Some key of the value, at any depth, is [k]. *)
Fixpoint value_has_key (k : string) (v : Value) : bool :=
  match v with
  | VArr items => existsb (value_has_key k) items
  | VObj members =>
      bool_decide (is_Some (members !! k))
      || map_fold (fun _ v found => value_has_key k v || found) false members
  | _ => false
  end.

(** Some key of the JSON value, at any depth, is [k]. *)
Fixpoint has_key (k : string) (j : Json) : bool :=
  match j with
  | JStr _ | JDate _ => false
  | JVal v => value_has_key k v
  | JArr items => existsb (has_key k) items
  | JObj fields =>
      existsb (fun f => String.eqb (fst f) k || has_key k (snd f)) fields
  end.

Definition header (name : string) (r : Response) : option string :=
  snd <$> List.find (fun h => String.eqb (fst h) name) (headers r).

End Http.

(** ** Router *)

Module Router.
Import JS Http.

Definition slash : ascii := "/"%char.

(** [path.split('/').filter(Boolean)] *)
Definition parts (path : string) : list string :=
  filter_Boolean (split slash path).

(** The [for] loop of [matchPath] over the two arrays; the request array is
    read at the same index as the route array ([None]: past its end, where
    [===] against a string is false). *)
Fixpoint matchPath_loop (routeParts requestParts : list string) : bool :=
  match routeParts with
  | [] => true
  | r :: routeParts' =>
      if startsWith r ":" || bool_decide (head requestParts = Some r)
      then matchPath_loop routeParts' (tail requestParts)
      else false
  end.

Definition matchPath (routePath requestPath : string) : bool :=
  let routeParts := parts routePath in
  let requestParts := parts requestPath in
  if negb (length routeParts =? length requestParts)%nat then false
  else matchPath_loop routeParts requestParts.

(** [params[paramName] = value] on the plain object [params], for a value
    that is a string or [undefined]: the name [__proto__] reaches the setter
    of [Object.prototype], which ignores such a value, and no key is bound;
    any other name becomes a key of [params]. *)
Definition assign (paramName : string) (value : option string)
    (params : gmap string (option string)) : gmap string (option string) :=
  if String.eqb paramName "__proto__" then params
  else <[paramName := value]> params.

(** The loop of [getPathParams]; [params[name] = requestParts[i]] stores
    [undefined] ([None]) when the request has no segment at [i]. *)
Fixpoint getPathParams_loop (routeParts requestParts : list string)
    (params : gmap string (option string)) : gmap string (option string) :=
  match routeParts with
  | [] => params
  | r :: routeParts' =>
      let params' :=
        if startsWith r ":" then assign (slice 1 r) (head requestParts) params
        else params in
      getPathParams_loop routeParts' (tail requestParts) params'
  end.

Definition getPathParams (routePath requestPath : string)
  : gmap string (option string) :=
  getPathParams_loop (parts routePath) (parts requestPath) ∅.

(** Segment-wise matching in the specification's words.  The segments of a
    path are what is left when the path is cut at every ['/'] and the empty
    pieces are thrown away: the maximal runs of characters other than ['/'],
    collected here character by character. *)
Definition close_segment (current : string) : list string :=
  match current with
  | EmptyString => []
  | _ => [current]
  end.

Fixpoint segments_from (current path : string) : list string :=
  match path with
  | EmptyString => close_segment current
  | String c path' =>
      if Ascii.eqb c "/" then close_segment current ++ segments_from "" path'
      else segments_from (current +:+ String c "") path'
  end.

Definition segments (path : string) : list string := segments_from "" path.

Definition is_param (seg : string) : Prop := exists name, seg = String ":" name.

Definition spec_matches (routePath requestPath : string) : Prop :=
  let ps := segments routePath in
  let qs := segments requestPath in
  length ps = length qs /\
  forall i p q, ps !! i = Some p -> qs !! i = Some q -> is_param p \/ p = q.

(** Handlers run against a store of type [S]; an [async] handler either
    resolves with a response or rejects, which [await] turns into a throw. *)
Section Dispatch.
Context {S : Type}.

Definition Handler : Type := Request -> S -> S * Completion Response.

Record Route : Type := mkRoute {
  route_method : string;
  route_path : string;
  route_handler : Handler
}.

(** [this.routes.push({ method, path, handler })] *)
Definition get (routes : list Route) (path : string) (h : Handler) : list Route :=
  routes ++ [mkRoute "GET" path h].
Definition post (routes : list Route) (path : string) (h : Handler) : list Route :=
  routes ++ [mkRoute "POST" path h].
Definition put (routes : list Route) (path : string) (h : Handler) : list Route :=
  routes ++ [mkRoute "PUT" path h].
Definition delete (routes : list Route) (path : string) (h : Handler) : list Route :=
  routes ++ [mkRoute "DELETE" path h].

Definition preflight_response : Response :=
  {| body := NoBody;
     status := 200;
     headers := [cors_origin;
                 ("Access-Control-Allow-Methods", "GET, POST, PUT, DELETE, OPTIONS");
                 ("Access-Control-Allow-Headers", "Content-Type, Authorization")] |}.

Definition handler_error_response : Response :=
  {| body := JsonText (JObj [("error", JStr "Route handler error")]);
     status := 500;
     headers := [("Content-Type", "application/json"); cors_origin] |}.

Definition not_found_response : Response :=
  {| body := Text "Not found";
     status := 404;
     headers := [cors_origin] |}.

(** The predicate given to [this.routes.find] *)
Definition route_matches (request : Request) (r : Route) : bool :=
  String.eqb (route_method r) (method request)
  && matchPath (route_path r) (pathname request).

Definition handle (routes : list Route) (request : Request) (st : S)
  : S * Response :=
  if String.eqb (method request) "OPTIONS" then (st, preflight_response)
  else
    match List.find (route_matches request) routes with
    | Some route =>
        match route_handler route request st with
        | (st', Normal response) => (st', response)
        | (st', Throw _) => (st', handler_error_response)
        end
    | None => (st, not_found_response)
    end.
End Dispatch.
Arguments Handler : clear implicits.
Arguments Route : clear implicits.

End Router.

(** ** The worker's world: the two KV namespaces *)

Module Worker.
Import JS Http.

(** A note as [createNote] and [updateNote] build it.  [title] and
    [content] are what the request body held, of whatever type. *)
Record Note : Type := mkNote {
  note_id : string;
  note_userId : string;
  note_title : Value;
  note_content : Value;
  note_createdAt : N;
  note_updatedAt : N
}.

(** A user as [register] builds it; [username] is what the body held. *)
Record User : Type := mkUser {
  user_id : string;
  user_username : Value;
  user_passwordHash : string;
  user_createdAt : N
}.

Record World : Type := mkWorld {
  NOTES : gmap string Note;
  USERS : gmap string User
}.

Definition empty_world : World := {| NOTES := ∅; USERS := ∅ |}.

(** What the runtime does where the worker's code does not decide it: the
    text the KV binding takes for a key argument that is not a string,
    JavaScript's [v < n] for a value [v] of any type, and whether the JSON
    text of a record is within the size a KV value may have. *)
Record Runtime : Type := mkRuntime {
  key_of : Value -> Completion string;
  less_than : Value -> N -> bool;
  note_fits : Note -> bool;
  user_fits : User -> bool
}.

(** Code that reads and writes the world and may throw. *)
Definition Eff (A : Type) : Type := World -> World * Completion A.

Definition eff_ret {A} (a : A) : Eff A := fun w => (w, Normal a).

Definition eff_bind {A B} (k : A -> Eff B) (c : Eff A) : Eff B :=
  fun w =>
    match c w with
    | (w', Normal a) => k a w'
    | (w', Throw e) => (w', Throw e)
    end.

(** A computation that does not touch the world. *)
Definition lift {A} (c : Completion A) : Eff A := fun w => (w, c).

(** [try { body } catch (error) { handler }] *)
Definition try_catch_eff {A} (body : Eff A) (handler : JsError -> Eff A) : Eff A :=
  fun w =>
    match body w with
    | (w', Normal a) => (w', Normal a)
    | (w', Throw e) => handler e w'
    end.

(** [new Date()] / [Date.now()]: the instant the clock shows at this read *)
Definition Date_now (reading : N) : Eff N := fun w => (w, Normal reading).

(** The length of the UTF-8 text of a string: a code unit below 128 takes
    one byte, one from 128 to 255 takes two. *)
Fixpoint utf8_length (s : string) : N :=
  match s with
  | EmptyString => 0
  | String c s' => (if (N_of_ascii c <? 128)%N then 1 else 2) + utf8_length s'
  end.

(** The keys the KV binding accepts in [get], [put] and [delete] *)
Definition valid_key (key : string) : bool :=
  negb (String.eqb key "") && negb (String.eqb key ".") && negb (String.eqb key "..")
  && (utf8_length key <=? 512)%N.

(** The key argument of a KV call as text *)
Definition kv_key (rt : Runtime) (key : Value) : Completion string :=
  match key with
  | VStr s => Normal s
  | _ => key_of rt key
  end.

(** What [get(key, 'json')] returns of a note or a user that was written as
    [JSON.stringify] of it *)
Definition stored_note (note : Note) : Note :=
  {| note_id := note_id note;
     note_userId := note_userId note;
     note_title := reparsed (note_title note);
     note_content := reparsed (note_content note);
     note_createdAt := note_createdAt note;
     note_updatedAt := note_updatedAt note |}.

Definition stored_user (user : User) : User :=
  {| user_id := user_id user;
     user_username := reparsed (user_username user);
     user_passwordHash := user_passwordHash user;
     user_createdAt := user_createdAt user |}.

(** The default page size of [KVNamespace.list] *)
Definition list_limit : nat := 1000.

(** The lexicographic order of keys *)
Definition key_le (a b : string) : Prop := Is_true (String.leb a b).

(** The keys of [m] that start with [prefix], before they are put in order *)
Definition matching_keys {V} (prefix : string) (m : gmap string V) : list string :=
  List.filter (fun k => startsWith k prefix) (map_to_list m).*1.

(** [list({ prefix })]: the keys that start with [prefix], in
    lexicographic order, one page of them. *)
Definition keys_with_prefix {V} (prefix : string) (m : gmap string V) : list string :=
  take list_limit (merge_sort key_le (matching_keys prefix m)).

Definition NOTES_get (key : string) : Eff (option Note) :=
  fun w =>
    if valid_key key then (w, Normal (NOTES w !! key)) else (w, Throw KvError).
Definition NOTES_put (rt : Runtime) (key : string) (note : Note) : Eff unit :=
  fun w =>
    if valid_key key && note_fits rt note
    then ({| NOTES := <[key := stored_note note]> (NOTES w); USERS := USERS w |},
          Normal tt)
    else (w, Throw KvError).
Definition NOTES_delete (key : string) : Eff unit :=
  fun w =>
    if valid_key key
    then ({| NOTES := base.delete key (NOTES w); USERS := USERS w |}, Normal tt)
    else (w, Throw KvError).
Definition NOTES_list (prefix : string) : Eff (list string) :=
  fun w => (w, Normal (keys_with_prefix prefix (NOTES w))).

Definition USERS_get (rt : Runtime) (key : Value) : Eff (option User) :=
  fun w =>
    match kv_key rt key with
    | Normal key =>
        if valid_key key then (w, Normal (USERS w !! key)) else (w, Throw KvError)
    | Throw e => (w, Throw e)
    end.
Definition USERS_put (rt : Runtime) (key : Value) (user : User) : Eff unit :=
  fun w =>
    match kv_key rt key with
    | Normal key =>
        if valid_key key && user_fits rt user
        then ({| NOTES := NOTES w; USERS := <[key := stored_user user]> (USERS w) |},
              Normal tt)
        else (w, Throw KvError)
    | Throw e => (w, Throw e)
    end.

End Worker.

#[global] Instance Eff_ret : MRet Worker.Eff := @Worker.eff_ret.
#[global] Instance Eff_bind : MBind Worker.Eff := @Worker.eff_bind.

(** ** controllers/notes.ts *)

Module NotesController.
Import JS Http Base64 Worker.

Definition colon : ascii := ":"%char.

Definition authenticateRequest (request : Request) : Completion (option string) :=
  try_catch
    (let authHeader := authorization request in
     match authHeader with
     | None => Normal None
     | Some authHeader =>
         if String.eqb authHeader "" || negb (startsWith authHeader "Bearer ")
         then Normal None
         else
           let token := slice 7 authHeader in
           try_catch
             (decoded ← atob token;
              let userId := first (split colon decoded) in
              Normal (if falsy userId then None else userId))
             (fun _ => Normal None)
     end)
    (fun _ => Normal None).

Definition note_json (n : Note) : Json :=
  JObj [("id", JStr (note_id n));
        ("userId", JStr (note_userId n));
        ("title", JVal (note_title n));
        ("content", JVal (note_content n));
        ("createdAt", JDate (note_createdAt n));
        ("updatedAt", JDate (note_updatedAt n))].

(** [`user:${userId}:notes`] and [`user:${userId}:notes:${noteId}`] *)
Definition userNotesKey (userId : string) : string :=
  "user:" +:+ userId +:+ ":notes".
Definition noteKey (userId noteId : string) : string :=
  "user:" +:+ userId +:+ ":notes:" +:+ noteId.

(** The loop of [getNotes] over the listed keys *)
Fixpoint read_notes (keys : list string) (notes : list Note) : Eff (list Note) :=
  match keys with
  | [] => mret notes
  | key :: keys' =>
      note ← NOTES_get key;
      read_notes keys'
        (match note with Some note => notes ++ [note] | None => notes end)
  end.

(** [notes.sort((a, b) => time(b.updatedAt) - time(a.updatedAt))]: newest
    first, notes of equal date in their order of arrival. *)
Fixpoint insert_newest_first (a : Note) (sorted : list Note) : list Note :=
  match sorted with
  | [] => [a]
  | b :: sorted' =>
      if (note_updatedAt b <=? note_updatedAt a)%N then a :: b :: sorted'
      else b :: insert_newest_first a sorted'
  end.

Definition sort_newest_first (notes : list Note) : list Note :=
  foldr insert_newest_first [] notes.

(** The array the loop of [getNotes] builds for [userId] in the world [w] *)
Definition listed_notes (userId : string) (w : World) : list Note :=
  omap (fun key => NOTES w !! key) (keys_with_prefix (userNotesKey userId) (NOTES w)).

Definition getNotes (request : Request) : Eff Response :=
  try_catch_eff
    (userId ← lift (authenticateRequest request);
     match userId with
     | None => mret (errorResponse "Unauthorized" 401)
     | Some userId =>
         noteIds ← NOTES_list (userNotesKey userId);
         notes ← read_notes noteIds [];
         mret (jsonResponse
                 (JObj [("notes", JArr (note_json <$> sort_newest_first notes))])
                 200)
     end)
    (fun _ => mret (errorResponse "Internal server error" 500)).

(** [createNote] draws a UUID and reads the clock twice.  [body.title] and
    [body.content] are read once here for the two uses the code makes of
    each; reading a member has no effect, and both reads throw, or neither
    does. *)
Definition createNote (rt : Runtime) (randomUUID : string) (createdAt updatedAt : N)
    (request : Request) : Eff Response :=
  try_catch_eff
    (userId ← lift (authenticateRequest request);
     match userId with
     | None => mret (errorResponse "Unauthorized" 401)
     | Some userId =>
         body ← lift (json request);
         title ← lift (member "title" body);
         content ← lift (member "content" body);
         if falsy_value title || falsy_value content
         then mret (errorResponse "Title and content are required" 400)
         else
           createdAt ← Date_now createdAt;
           updatedAt ← Date_now updatedAt;
           let note := {| note_id := randomUUID;
                          note_userId := userId;
                          note_title := default VNull title;
                          note_content := default VNull content;
                          note_createdAt := createdAt;
                          note_updatedAt := updatedAt |} in
           _ ← NOTES_put rt (noteKey userId (note_id note)) note;
           mret (jsonResponse (JObj [("note", note_json note)]) 201)
     end)
    (fun _ => mret (errorResponse "Internal server error" 500)).

Definition updateNote (rt : Runtime) (updatedAt : N) (request : Request)
  : Eff Response :=
  try_catch_eff
    (userId ← lift (authenticateRequest request);
     match userId with
     | None => mret (errorResponse "Unauthorized" 401)
     | Some userId =>
         let noteId := pop (split "/"%char (pathname request)) in
         if falsy noteId then mret (errorResponse "Note ID is required" 400)
         else
           body ← lift (json request);
           title ← lift (member "title" body);
           content ← lift (member "content" body);
           if falsy_value title && falsy_value content
           then mret (errorResponse "At least title or content must be provided" 400)
           else
             let noteKey := noteKey userId (default "" noteId) in
             existingNote ← NOTES_get noteKey;
             match existingNote with
             | None => mret (errorResponse "Note not found" 404)
             | Some existingNote =>
                 updatedAt ← Date_now updatedAt;
                 let updatedNote :=
                   {| note_id := note_id existingNote;
                      note_userId := note_userId existingNote;
                      note_title := nullish_or title (note_title existingNote);
                      note_content := nullish_or content (note_content existingNote);
                      note_createdAt := note_createdAt existingNote;
                      note_updatedAt := updatedAt |} in
                 _ ← NOTES_put rt noteKey updatedNote;
                 mret (jsonResponse (JObj [("note", note_json updatedNote)]) 200)
             end
     end)
    (fun _ => mret (errorResponse "Internal server error" 500)).

Definition deleteNote (request : Request) : Eff Response :=
  try_catch_eff
    (userId ← lift (authenticateRequest request);
     match userId with
     | None => mret (errorResponse "Unauthorized" 401)
     | Some userId =>
         let noteId := pop (split "/"%char (pathname request)) in
         if falsy noteId then mret (errorResponse "Note ID is required" 400)
         else
           let noteKey := noteKey userId (default "" noteId) in
           existingNote ← NOTES_get noteKey;
           match existingNote with
           | None => mret (errorResponse "Note not found" 404)
           | Some _ =>
               _ ← NOTES_delete noteKey;
               mret (jsonResponse
                       (JObj [("message", JStr "Note deleted successfully")]) 200)
           end
     end)
    (fun _ => mret (errorResponse "Internal server error" 500)).


End NotesController.

(** ** controllers/auth.ts *)

Module AuthController.
Import JS Http Base64 Worker.

(** bcryptjs on strings: [hash(password, rounds)] draws a salt;
    [compare(password, hash)] may reject a text that is no hash. *)
Record Bcrypt : Type := mkBcrypt {
  bcrypt_hash : string -> N -> string -> string;   (* password, rounds, salt *)
  bcrypt_compare : string -> string -> Completion bool
}.

(** [bcrypt.hash(password, rounds)] and [bcrypt.compare(password, hash)] on
    what the body holds: bcryptjs rejects an argument that is not a string. *)
Definition hash (bc : Bcrypt) (password : option Value) (rounds : N) (salt : string)
  : Completion string :=
  match password with
  | Some (VStr s) => Normal (bcrypt_hash bc s rounds salt)
  | _ => Throw (OtherError "Illegal arguments")
  end.

Definition compare (bc : Bcrypt) (password : option Value) (hash : string)
  : Completion bool :=
  match password with
  | Some (VStr s) => bcrypt_compare bc s hash
  | _ => Throw (OtherError "Illegal arguments")
  end.

(** [password.length < n]: the length of a string or an array, the member
    [length] of an object, [undefined] on a number or a boolean (and
    [undefined < n] is false), a [TypeError] on [null] and [undefined]. *)
Definition length_less_than (rt : Runtime) (password : option Value) (n : nat)
  : Completion bool :=
  match password with
  | None => Throw TypeError
  | Some VNull => Throw TypeError
  | Some (VStr s) => Normal (String.length s <? n)%nat
  | Some (VArr items) => Normal (length items <? n)%nat
  | Some (VObj members) =>
      Normal (match members !! "length" with
              | Some v => less_than rt v (N.of_nat n)
              | None => false
              end)
  | Some (VBool _) => Normal false
  | Some (VNum _) => Normal false
  end.

(** [Date.now().toString()] *)
Definition timestamp_string (t : N) : string := pretty t.

(** [btoa(`${userId}:${timestamp}:${random}`)] *)
Definition generateToken (randomUUID : string) (now : N) (userId : string)
  : Eff string :=
  now ← Date_now now;
  let timestamp := timestamp_string now in
  let random := randomUUID in
  mret (btoa (userId +:+ ":" +:+ timestamp +:+ ":" +:+ random)).

Definition auth_json (token : string) (user : User) : Json :=
  JObj [("token", JStr token);
        ("user", JObj [("id", JStr (user_id user));
                       ("username", JVal (user_username user));
                       ("createdAt", JDate (user_createdAt user))])].

(** [login] draws a UUID and reads the clock, both for the token. *)
Definition login (rt : Runtime) (bc : Bcrypt) (randomUUID : string) (now : N)
    (request : Request) : Eff Response :=
  try_catch_eff
    (body ← lift (json request);
     username ← lift (member "username" body);
     password ← lift (member "password" body);
     if falsy_value username || falsy_value password
     then mret (errorResponse "Username and password are required" 400)
     else
       user ← USERS_get rt (default VNull username);
       match user with
       | None => mret (errorResponse "Invalid credentials" 401)
       | Some user =>
           isValidPassword ← lift (compare bc password (user_passwordHash user));
           if negb isValidPassword
           then mret (errorResponse "Invalid credentials" 401)
           else
             token ← generateToken randomUUID now (user_id user);
             mret (jsonResponse (auth_json token user) 200)
       end)
    (fun _ => mret (errorResponse "Internal server error" 500)).

(** [register] draws a salt and two UUIDs (the user id, then the token's
    random part) and reads the clock twice (the creation date, then the
    token's timestamp). *)
Definition register (rt : Runtime) (bc : Bcrypt) (salt idUUID tokenUUID : string)
    (createdAt now : N) (request : Request) : Eff Response :=
  try_catch_eff
    (body ← lift (json request);
     username ← lift (member "username" body);
     password ← lift (member "password" body);
     if falsy_value username || falsy_value password
     then mret (errorResponse "Username and password are required" 400)
     else
       tooShort ← lift (length_less_than rt password 6);
       if (tooShort : bool)
       then mret (errorResponse "Password must be at least 6 characters" 400)
       else
         existingUser ← USERS_get rt (default VNull username);
         match existingUser with
         | Some _ => mret (errorResponse "Username already exists" 409)
         | None =>
             passwordHash ← lift (hash bc password 12 salt);
             createdAt ← Date_now createdAt;
             let user := {| user_id := idUUID;
                            user_username := default VNull username;
                            user_passwordHash := passwordHash;
                            user_createdAt := createdAt |} in
             _ ← USERS_put rt (default VNull username) user;
             token ← generateToken tokenUUID now (user_id user);
             mret (jsonResponse (auth_json token user) 201)
         end)
    (fun _ => mret (errorResponse "Internal server error" 500)).

End AuthController.

(** ** index.ts: the routes of the worker *)

Module Index.
Import JS Http Worker.

(** What the runtime draws and what the clock shows while one request is
    served. *)
Record Oracle : Type := mkOracle {
  uuid1 : string;
  uuid2 : string;
  salt : string;
  now1 : N;
  now2 : N
}.

(** [serveIndex] of the static controller; the text of the page is
    abbreviated to its first line. *)
Definition serveIndex : Router.Handler World :=
  fun _ w =>
    (w, Normal {| body := Text "<!DOCTYPE html>";
                  status := 200;
                  headers := [("Content-Type", "text/html"); cors_origin] |}).

Definition routes (rt : Runtime) (bc : AuthController.Bcrypt) (o : Oracle)
  : list (Router.Route World) :=
  let r := [] in
  let r := Router.post r "/api/auth/login"
             (AuthController.login rt bc (uuid1 o) (now1 o)) in
  let r := Router.post r "/api/auth/register"
             (AuthController.register rt bc (salt o) (uuid1 o) (uuid2 o)
                (now1 o) (now2 o)) in
  let r := Router.get r "/api/notes" NotesController.getNotes in
  let r := Router.post r "/api/notes"
             (NotesController.createNote rt (uuid1 o) (now1 o) (now2 o)) in
  let r := Router.put r "/api/notes/:id" (NotesController.updateNote rt (now1 o)) in
  let r := Router.delete r "/api/notes/:id" NotesController.deleteNote in
  let r := Router.get r "/" serveIndex in
  let r := Router.get r "/index.html" serveIndex in
  r.

(** [fetch]; its own [try]/[catch] around [router.handle] is never entered,
    [handle] catching what a handler throws. *)
Definition fetch (rt : Runtime) (bc : AuthController.Bcrypt) (o : Oracle)
    (request : Request) (w : World) : World * Response :=
  Router.handle (routes rt bc o) request w.

End Index.

(** ** The invariant of the notes namespace *)

Module Invariant.
Import JS Http Worker NotesController.

(** A stored note sits under the key made of its owner and its id; the
    owner is an identity [authenticateRequest] can return. *)
Definition well_keyed (key : string) (n : Note) : Prop :=
  key = noteKey (note_userId n) (note_id n) /\
  note_userId n <> "" /\
  contains colon (note_userId n) = false.

(** Every binding of the notes namespace is well keyed, under a key the
    binding accepts. *)
Definition wf_world (w : World) : Prop :=
  forall key n,
    NOTES w !! key = Some n -> well_keyed key n /\ valid_key key = true.


End Invariant.

(** ** Sample data *)

Module Examples.
Import JS Http Base64 Worker NotesController.

(** A token made up by a client: the base64 text of ["mallory"]. *)
Definition forged_token : string := "bWFsbG9yeQ==".

Definition forged_request : Request :=
  {| method := "GET";
     pathname := "/api/notes";
     authorization := Some ("Bearer " +:+ forged_token);
     json := Throw SyntaxError |}.

(** A stand-in for bcryptjs. *)
Definition toy_bcrypt : AuthController.Bcrypt :=
  {| AuthController.bcrypt_hash := fun password _ salt => salt +:+ "$" +:+ password;
     AuthController.bcrypt_compare :=
       fun password hash => Normal (String.eqb hash ("salt$" +:+ password)) |}.

(** A stand-in for the runtime: a key that is not a string is refused,
    nothing is less than a number, and every record fits. *)
Definition toy_runtime : Runtime :=
  {| key_of := fun _ => Throw TypeError;
     less_than := fun _ _ => false;
     note_fits := fun _ => true;
     user_fits := fun _ => true |}.

Definition oracle : Index.Oracle :=
  {| Index.uuid1 := "6f1c9a52-0d3e-4b7a-9c21-5e8f4a7b1d90";
     Index.uuid2 := "b2e4d6f8-1a3c-4e5f-8a9b-0c1d2e3f4a5b";
     Index.salt := "salt";
     Index.now1 := 2000;
     Index.now2 := 2003 |}.

Definition alice : string := "a11ce000-0000-4000-8000-000000000001".
Definition bob : string := "b0b00000-0000-4000-8000-000000000002".

(** The object whose members are the given strings *)
Definition object_of (fields : list (string * string)) : Value :=
  VObj (VStr <$> list_to_map fields).

(** A request of [userId], bearing a token as [generateToken] makes them. *)
Definition request_of (userId m path : string) (fields : list (string * string))
  : Request :=
  {| method := m;
     pathname := path;
     authorization := Some ("Bearer " +:+ btoa (userId +:+ ":1000:" +:+ Index.uuid2 oracle));
     json := Normal (object_of fields) |}.

Definition anonymous (m path : string) (fields : list (string * string)) : Request :=
  {| method := m;
     pathname := path;
     authorization := None;
     json := Normal (object_of fields) |}.

(** A request without credentials whose body is the value [v] *)
Definition anonymous_with (m path : string) (v : Value) : Request :=
  {| method := m;
     pathname := path;
     authorization := None;
     json := Normal v |}.

Definition bob_note : Note :=
  {| note_id := "7d0e2b44-5c1a-4f6e-9b3d-2a8c6e4f0b17";
     note_userId := bob;
     note_title := VStr "Groceries";
     note_content := VStr "- eggs";
     note_createdAt := 1000;
     note_updatedAt := 1500 |}.

Definition bob_key : string := noteKey bob (note_id bob_note).

Definition bob_user : User :=
  {| user_id := bob;
     user_username := VStr "bob";
     user_passwordHash := "salt$hunter22";
     user_createdAt := 900 |}.

(** A world in which bob is registered and has one note. *)
Definition bob_world : World :=
  {| NOTES := {[ bob_key := bob_note ]};
     USERS := {[ "bob" := bob_user ]} |}.

(** Two handlers for a generic router: one answers, one throws. *)
Definition answering (text : string) : Router.Handler unit :=
  fun _ st => (st, Normal {| body := Text text; status := 200; headers := [] |}).
Definition throwing (message : string) : Router.Handler unit :=
  fun _ st => (st, Throw (OtherError message)).

Definition sample_routes : list (Router.Route unit) :=
  let r := [] in
  let r := Router.get r "/api/notes" (answering "list") in
  let r := Router.get r "/api/:anything" (answering "shadowed") in
  let r := Router.put r "/api/notes/:id" (throwing "disk on fire") in
  r.

End Examples.

(** ** The invariant of the users namespace *)

Module Accounts.
Import JS Http Worker.

(** A stored user sits under a key the binding accepts, which is the text
    of the username it was registered with; the stored username is that
    username as [JSON.parse] gives it back. *)
Definition users_keyed (rt : Runtime) (w : World) : Prop :=
  forall key u,
    USERS w !! key = Some u ->
    valid_key key = true /\
    exists username,
      kv_key rt username = Normal key /\ user_username u = reparsed username.

End Accounts.

(** ** More sample data *)

Module Samples.
Import JS Http Worker NotesController Examples.

Definition bob_note_path : string := "/api/notes/" +:+ note_id bob_note.

(** Requests of bob for his note *)
Definition bob_put : Request :=
  request_of bob "PUT" bob_note_path [("title", "Shopping")].
Definition bob_delete : Request := request_of bob "DELETE" bob_note_path [].
Definition bob_put_slash : Request :=
  request_of bob "PUT" (bob_note_path +:+ "/") [("title", "Shopping")].
Definition bob_list : Request := request_of bob "GET" "/api/notes" [].
Definition bob_create : Request :=
  request_of bob "POST" "/api/notes" [("title", "Todo"); ("content", "- sleep")].

(** A request whose body is not JSON *)
Definition bob_broken : Request :=
  {| method := "POST";
     pathname := "/api/notes";
     authorization := authorization bob_create;
     json := Throw SyntaxError |}.

Definition carol_credentials : list (string * string) :=
  [("username", "carol"); ("password", "correct horse")].

Definition carol_id : string := "ca201000-0000-4000-8000-000000000003".

(** Credentials whose password is the number 1234567 *)
Definition numeric_password (username : string) : Value :=
  VObj {[ "username" := VStr username; "password" := VNum 1234567 ]}.

End Samples.

(** * Properties *)

(** One step of a handler: unfold the monad of [Eff] and the primitives. *)
Ltac eff_unfold :=
  unfold Worker.try_catch_eff, mbind, Eff_bind, Worker.eff_bind, mret, Eff_ret,
    Worker.eff_ret, Worker.lift, Worker.USERS_get, Worker.USERS_put,
    Worker.NOTES_get, Worker.NOTES_put, Worker.NOTES_delete, Worker.NOTES_list,
    Worker.Date_now.

(** ** Strings *)

Section StringFacts.
Import JS.

Lemma append_empty (s : string) : "" +:+ s = s.
Proof. reflexivity. Qed.

Lemma append_String (c : ascii) (s t : string) :
  String c s +:+ t = String c (s +:+ t).
Proof. reflexivity. Qed.

Lemma startsWith_colon (seg : string) :
  startsWith seg ":" = true <-> Router.is_param seg.
Proof.
  unfold Router.is_param. split.
  - destruct seg as [|c seg]; cbn [startsWith]; [discriminate|].
    destruct (Ascii.eqb_spec ":"%char c) as [<-|_]; [|done].
    intros _. by exists seg.
  - by intros [name ->].
Qed.

Lemma split_nonempty (sep : ascii) (s : string) : split sep s <> [].
Proof.
  destruct s as [|c s]; cbn [split]; [done|].
  destruct (Ascii.eqb c sep); [done|]. by destruct (split sep s).
Qed.

(** The first piece of a split holds no separator. *)
Lemma first_split_no_sep (sep : ascii) (s seg : string) :
  first (split sep s) = Some seg -> contains sep seg = false.
Proof.
  unfold first. revert seg.
  induction s as [|c s IH]; intros seg; cbn [split].
  - by intros [= <-].
  - destruct (Ascii.eqb c sep) eqn:Hc; [by intros [= <-]|].
    destruct (split sep s) as [|seg' segs] eqn:Hs.
    + intros [= <-]. cbn [contains]. by rewrite Hc.
    + intros [= <-]. cbn [contains]. rewrite Hc. by apply IH.
Qed.

(** Splitting [u ++ sep ++ rest] gives [u] first when [u] has no [sep]. *)
Lemma first_split_app (sep : ascii) (u rest : string) :
  contains sep u = false ->
  first (split sep (u +:+ String sep rest)) = Some u.
Proof.
  unfold first.
  induction u as [|c u IH]; cbn [contains].
  - intros _. rewrite append_empty. cbn [split]. by rewrite Ascii.eqb_refl.
  - intros H. apply orb_false_iff in H as [Hc Hu].
    rewrite append_String. cbn [split]. rewrite Hc.
    specialize (IH Hu).
    destruct (split sep (u +:+ String sep rest)); simpl in *; congruence.
Qed.

(** A UUID is not empty and holds no colon. *)
Lemma uuid_shaped_no_colon (s : string) :
  uuid_shaped s = true -> s <> "" /\ contains ":"%char s = false.
Proof.
  unfold uuid_shaped. intros [Hlen Hchars]%andb_true_iff. split.
  - intros ->. discriminate Hlen.
  - clear Hlen. induction s as [|c s IH]; [done|].
    cbn [all_chars contains] in *. apply andb_true_iff in Hchars as [Hc Hs].
    rewrite (IH Hs), orb_false_r.
    destruct (Ascii.eqb_spec c ":"%char) as [->|]; [discriminate Hc|done].
Qed.

Lemma slice_app (p s : string) : slice (String.length p) (p +:+ s) = s.
Proof.
  induction p as [|c p IH]; [done|].
  by rewrite append_String.
Qed.

Lemma startsWith_app (p s : string) : startsWith (p +:+ s) p = true.
Proof.
  induction p as [|c p IH]; [done|].
  rewrite append_String. cbn [startsWith]. by rewrite Ascii.eqb_refl.
Qed.

End StringFacts.

(** ** Router *)

Section RouterFacts.
Import JS Http.

Lemma matchPath_loop_spec (ps qs : list string) :
  length ps = length qs ->
  Router.matchPath_loop ps qs = true <->
  (forall i p q, ps !! i = Some p -> qs !! i = Some q -> Router.is_param p \/ p = q).
Proof.
  revert qs. induction ps as [|p ps IH]; intros [|q qs] Hlen; try done.
  injection Hlen as Hlen. specialize (IH qs Hlen).
  cbn [Router.matchPath_loop head tail].
  destruct (startsWith p ":") eqn:Hp; cbn [orb].
  - rewrite IH. split.
    + intros H [|i] p' q'; simpl; [|by apply H].
      intros [= <-] _. left. by apply startsWith_colon.
    + intros H i p' q'. apply (H (S i)).
  - case_bool_decide as Hq.
    + injection Hq as ->. rewrite IH. split.
      * intros H [|i] p' q'; simpl; [|by apply H]. intros [= <-] [= <-]. by right.
      * intros H i p' q'. apply (H (S i)).
    + split; [done|]. intros H. exfalso.
      destruct (H 0%nat p q eq_refl eq_refl) as [Hpar| ->]; [|done].
      apply startsWith_colon in Hpar. congruence.
Qed.

Lemma append_empty_r (s : string) : s +:+ "" = s.
Proof. induction s as [|c s IH]; [done|]. by rewrite append_String, IH. Qed.

Lemma append_snoc (s : string) (c : ascii) (t : string) :
  (s +:+ String c "") +:+ t = s +:+ String c t.
Proof. induction s as [|d s IH]; [done|]. by rewrite !append_String, IH. Qed.

Lemma close_segment_filter (current : string) :
  Router.close_segment current = filter_Boolean [current].
Proof. by destruct current. Qed.

(** The segments collected character by character are the non-empty pieces
    of [split]: the piece under way is the head of what [split] gives of the
    rest. *)
Lemma segments_from_split (current path : string) :
  Router.segments_from current path =
    match split Router.slash path with
    | seg :: segs => filter_Boolean ((current +:+ seg) :: segs)
    | [] => []
    end.
Proof.
  unfold Router.slash.
  revert current. induction path as [|c path IH]; intros current.
  - cbn [Router.segments_from split].
    by rewrite append_empty_r, close_segment_filter.
  - cbn [Router.segments_from split].
    pose proof (split_nonempty "/" path) as Hne.
    destruct (Ascii.eqb c "/") eqn:Hc; rewrite IH;
      destruct (split "/" path) as [|seg segs]; try done.
    + rewrite append_empty, append_empty_r, close_segment_filter.
      unfold filter_Boolean. by rewrite <- List.filter_app.
    + by rewrite append_snoc.
Qed.

Lemma segments_parts (path : string) : Router.segments path = Router.parts path.
Proof.
  unfold Router.segments, Router.parts. rewrite segments_from_split.
  destruct (split Router.slash path) as [|seg segs] eqn:Hsplit;
    [by destruct (split_nonempty Router.slash path)|].
  by rewrite append_empty.
Qed.

Lemma matchPath_iff_spec (routePath requestPath : string) :
  Router.matchPath routePath requestPath = true <->
  Router.spec_matches routePath requestPath.
Proof.
  unfold Router.matchPath, Router.spec_matches. rewrite !segments_parts.
  destruct (Nat.eqb_spec (length (Router.parts routePath))
              (length (Router.parts requestPath))) as [Hlen|Hlen]; simpl.
  - rewrite (matchPath_loop_spec _ _ Hlen). tauto.
  - split; [done|]. tauto.
Qed.

End RouterFacts.

(** C4. Router path matching: [matchPath] accepts a pattern and a path
    exactly when, after both are split on [/] and the empty segments
    dropped ([segments], which is written without the code's [split] and
    [filter]), the two lists have the same length and at each position the
    pattern segment begins with [:] or is the path segment itself.  The
    pattern [/api/notes/:id] matches [/api/notes/abc], [getPathParams] then
    gives [{id: "abc"}], and it matches neither [/api/notes] nor
    [/api/notes/abc/extra]. *)
Theorem matchPath_segmentwise :
  (forall routePath requestPath,
      Router.matchPath routePath requestPath = true <->
      Router.spec_matches routePath requestPath)
  /\ Router.segments "/api//notes/abc/" = ["api"; "notes"; "abc"]
  /\ Router.matchPath "/api/notes/:id" "/api/notes/abc" = true
  /\ Router.getPathParams "/api/notes/:id" "/api/notes/abc" = {[ "id" := Some "abc" ]}
  /\ Router.matchPath "/api/notes/:id" "/api/notes" = false
  /\ Router.matchPath "/api/notes/:id" "/api/notes/abc/extra" = false.
Proof.
  split; [exact matchPath_iff_spec|].
  repeat split; try reflexivity.
Qed.

Section DispatchFacts.
Import JS Http.
Context {S : Type}.
Implicit Types (routes pre post : list (Router.Route S)) (route : Router.Route S).

Lemma find_first_match routes pre route post (f : Router.Route S -> bool) :
  routes = pre ++ route :: post ->
  Forall (fun r => f r = false) pre ->
  f route = true ->
  List.find f routes = Some route.
Proof.
  intros -> Hpre Hroute. induction Hpre as [|r pre Hr _ IH]; simpl.
  - by rewrite Hroute.
  - by rewrite Hr.
Qed.

Lemma find_no_match routes (f : Router.Route S -> bool) :
  Forall (fun r => f r = false) routes -> List.find f routes = None.
Proof.
  induction 1 as [|r routes Hr _ IH]; simpl; [done|]. by rewrite Hr.
Qed.

Lemma route_matches_iff request route :
  Router.route_matches request route = true <->
  Router.route_method route = method request /\
  Router.matchPath (Router.route_path route) (pathname request) = true.
Proof.
  unfold Router.route_matches. rewrite andb_true_iff, String.eqb_eq. tauto.
Qed.

Lemma not_OPTIONS request :
  method request <> "OPTIONS" -> String.eqb (method request) "OPTIONS" = false.
Proof. intros H. by apply String.eqb_neq. Qed.

End DispatchFacts.

(** C5. Dispatch order and fallback: for a request whose method is not
    OPTIONS, [handle] gives the request to the handler of the first route, in
    registration order, whose method is the request's and whose pattern
    matches the path, whatever routes follow it; when no registered route
    matches, the store is left as it is and the response is 404 with the
    header [Access-Control-Allow-Origin: *]. *)
Theorem handle_first_match_or_404 {S : Type}
    (routes : list (Router.Route S)) (request : Http.Request) (st : S) :
  Http.method request <> "OPTIONS" ->
  (forall pre route post st' response,
      routes = pre ++ route :: post ->
      Forall (fun r => ~ (Router.route_method r = Http.method request /\
                          Router.matchPath (Router.route_path r)
                            (Http.pathname request) = true)) pre ->
      Router.route_method route = Http.method request ->
      Router.matchPath (Router.route_path route) (Http.pathname request) = true ->
      Router.route_handler route request st = (st', JS.Normal response) ->
      Router.handle routes request st = (st', response))
  /\ (Forall (fun r => ~ (Router.route_method r = Http.method request /\
                          Router.matchPath (Router.route_path r)
                            (Http.pathname request) = true)) routes ->
      exists response,
        Router.handle routes request st = (st, response) /\
        Http.status response = 404%N /\
        Http.header "Access-Control-Allow-Origin" response = Some "*").
Proof.
  intros Hmethod. unfold Router.handle. rewrite (not_OPTIONS _ Hmethod). split.
  - intros pre route post st' response Hroutes Hpre Hm Hp Hrun.
    rewrite (find_first_match routes pre route post _ Hroutes).
    + by rewrite Hrun.
    + eapply Forall_impl; [exact Hpre|]. intros r Hr. simpl in Hr.
      destruct (Router.route_matches request r) eqn:E; [|done].
      by apply route_matches_iff in E.
    + by apply route_matches_iff.
  - intros Hnone. rewrite find_no_match.
    + exists Router.not_found_response. by repeat split.
    + eapply Forall_impl; [exact Hnone|]. intros r Hr. simpl in Hr.
      destruct (Router.route_matches request r) eqn:E; [|done].
      by apply route_matches_iff in E.
Qed.

(** C10. Handler-failure containment: when the handler of the matched route
    throws, whatever the error, [handle] answers with status 500, the header
    [Access-Control-Allow-Origin: *] and the JSON body
    [{"error": "Route handler error"}]; the response is the same for every
    error and so carries nothing of it. *)
Theorem handle_contains_handler_failure {S : Type}
    (routes pre post : list (Router.Route S)) (route : Router.Route S)
    (request : Http.Request) (st st' : S) (e : JS.JsError) :
  Http.method request <> "OPTIONS" ->
  routes = pre ++ route :: post ->
  Forall (fun r => ~ (Router.route_method r = Http.method request /\
                      Router.matchPath (Router.route_path r)
                        (Http.pathname request) = true)) pre ->
  Router.route_method route = Http.method request ->
  Router.matchPath (Router.route_path route) (Http.pathname request) = true ->
  Router.route_handler route request st = (st', JS.Throw e) ->
  exists response,
    Router.handle routes request st = (st', response) /\
    Http.status response = 500%N /\
    Http.header "Access-Control-Allow-Origin" response = Some "*" /\
    Http.body response =
      Http.JsonText (Http.JObj [("error", Http.JStr "Route handler error")]).
Proof.
  intros Hmethod Hroutes Hpre Hm Hp Hrun.
  unfold Router.handle. rewrite (not_OPTIONS _ Hmethod).
  rewrite (find_first_match routes pre route post _ Hroutes).
  - rewrite Hrun. exists Router.handler_error_response. by repeat split.
  - eapply Forall_impl; [exact Hpre|]. intros r Hr. simpl in Hr.
    destruct (Router.route_matches request r) eqn:E; [|done].
    by apply route_matches_iff in E.
  - by apply route_matches_iff.
Qed.

(** ** Base64 *)

Section Base64Facts.
Import JS Base64.
Local Open Scope N_scope.

(** Lists three elements at a time. *)
Lemma list_ind3 {A} (P : list A -> Prop) :
  P [] -> (forall a, P [a]) -> (forall a b, P [a; b]) ->
  (forall a b c l, P l -> P (a :: b :: c :: l)) ->
  forall l, P l.
Proof.
  intros H0 H1 H2 H3 l.
  cut (P l /\ (forall a, P (a :: l)) /\ (forall a b, P (a :: b :: l))); [tauto|].
  induction l as [|x l (IH0 & IH1 & IH2)]; [by auto|].
  repeat split; auto.
Qed.

Lemma sextet_cases (n : N) :
  n < 64 -> exists k : nat, (k < 64)%nat /\ n = N.of_nat k.
Proof. intros H. exists (N.to_nat n). lia. Qed.

(** Every sextet is sent to a character of the alphabet that stands for
    it, is no white space and is not the padding character. *)
Lemma b64_char_facts (n : N) :
  n < 64 ->
  b64_index (b64_char n) = Some n /\
  is_ascii_whitespace (b64_char n) = false /\
  Ascii.eqb (b64_char n) pad = false.
Proof.
  intros (k & Hk & ->)%sextet_cases.
  do 64 (destruct k as [|k]; [by vm_compute|]). lia.
Qed.

Lemma pad_not_whitespace : is_ascii_whitespace pad = false.
Proof. reflexivity. Qed.

Lemma sextets_recompose (n : N) :
  ((n / 262144 * 64 + (n / 4096) mod 64) * 64 + (n / 64) mod 64) * 64 + n mod 64 = n.
Proof.
  replace (n / 262144) with (n / 64 / 64 / 64) by (by rewrite !N.Div0.div_div).
  replace (n / 4096) with (n / 64 / 64) by (by rewrite !N.Div0.div_div).
  pose proof (N.div_mod n 64 ltac:(lia)).
  pose proof (N.div_mod (n / 64) 64 ltac:(lia)).
  pose proof (N.div_mod (n / 64 / 64) 64 ltac:(lia)).
  lia.
Qed.

Lemma bytes3_split (b0 b1 b2 : N) :
  b1 < 256 -> b2 < 256 ->
  let n := b0 * 65536 + b1 * 256 + b2 in
  n / 65536 = b0 /\ (n / 256) mod 256 = b1 /\ n mod 256 = b2.
Proof.
  intros H1 H2 n. unfold n.
  assert ((b0 * 65536 + b1 * 256 + b2) / 256 = b0 * 256 + b1) as Hq
    by (apply eq_sym, N.div_unique with b2; lia).
  repeat split.
  - apply eq_sym, N.div_unique with (b1 * 256 + b2); lia.
  - rewrite Hq. apply eq_sym, N.mod_unique with b0; lia.
  - apply eq_sym, N.mod_unique with (b0 * 256 + b1); lia.
Qed.

Lemma decode_triple (b0 b1 b2 : N) :
  b1 < 256 -> b2 < 256 ->
  let n := b0 * 65536 + b1 * 256 + b2 in
  let m := ((n / 262144 * 64 + (n / 4096) mod 64) * 64 + (n / 64) mod 64) * 64
           + n mod 64 in
  [m / 65536; (m / 256) mod 256; m mod 256] = [b0; b1; b2].
Proof.
  intros H1 H2 n m. subst m. rewrite sextets_recompose.
  pose proof (bytes3_split b0 b1 b2 H1 H2) as Hs. cbv zeta in Hs. fold n in Hs.
  by destruct Hs as (-> & -> & ->).
Qed.

Lemma decode_pair (b0 b1 : N) :
  b1 < 256 ->
  let n := b0 * 65536 + b1 * 256 in
  let m := ((n / 262144 * 64 + (n / 4096) mod 64) * 64 + (n / 64) mod 64) / 4 in
  [m / 256; m mod 256] = [b0; b1].
Proof.
  intros H1 n m.
  assert (m = b0 * 256 + b1) as ->.
  { subst m. pose proof (sextets_recompose n) as Hn.
    assert (n mod 64 = 0) as H0
      by (apply eq_sym, N.mod_unique with (b0 * 1024 + b1 * 4); unfold n; lia).
    rewrite H0 in Hn.
    apply eq_sym, N.div_unique with 0; [lia|]. unfold n in Hn at 4. lia. }
  f_equal; [|f_equal].
  - apply eq_sym, N.div_unique with b1; lia.
  - apply eq_sym, N.mod_unique with b0; lia.
Qed.

Lemma decode_single (b0 : N) :
  let n := b0 * 65536 in
  (n / 262144 * 64 + (n / 4096) mod 64) / 16 = b0.
Proof.
  intros n.
  assert (n / 4096 = b0 * 16) as Hq
    by (apply eq_sym, N.div_unique with 0; unfold n; lia).
  replace (n / 262144) with (n / 4096 / 64) by (by rewrite N.Div0.div_div).
  pose proof (N.div_mod (n / 4096) 64 ltac:(lia)).
  apply eq_sym, N.div_unique with 0; lia.
Qed.

Lemma sextet_bounds (n : N) :
  n < 16777216 ->
  n / 262144 < 64 /\ (n / 4096) mod 64 < 64 /\ (n / 64) mod 64 < 64 /\ n mod 64 < 64.
Proof.
  intros H. repeat split; try (apply N.mod_upper_bound; lia).
  apply N.Div0.div_lt_upper_bound; lia.
Qed.

Lemma encode_sextets_bounded (bytes : list N) :
  is_bytes bytes -> Forall (fun s => s < 64) (encode_sextets bytes).
Proof.
  unfold is_bytes.
  induction bytes as [|b0|b0 b1|b0 b1 b2 rest IH] using list_ind3; intros Hb.
  - constructor.
  - apply Forall_cons in Hb as [H0 _]. cbn [encode_sextets].
    destruct (sextet_bounds (b0 * 65536) ltac:(lia)) as (? & ? & _).
    by repeat constructor.
  - apply Forall_cons in Hb as [H0 [H1 _]%Forall_cons]. cbn [encode_sextets].
    destruct (sextet_bounds (b0 * 65536 + b1 * 256) ltac:(lia)) as (? & ? & ? & _).
    by repeat constructor.
  - apply Forall_cons in Hb as [H0 [H1 [H2 Hrest]%Forall_cons]%Forall_cons].
    cbn [encode_sextets].
    destruct (sextet_bounds (b0 * 65536 + b1 * 256 + b2) ltac:(lia)) as (? & ? & ? & ?).
    repeat (constructor; [done|]). by apply IH.
Qed.

Lemma decode_encode_sextets (bytes : list N) :
  is_bytes bytes -> decode_sextets (encode_sextets bytes) = bytes.
Proof.
  unfold is_bytes.
  induction bytes as [|b0|b0 b1|b0 b1 b2 rest IH] using list_ind3; intros Hb.
  - done.
  - cbn [encode_sextets decode_sextets]. f_equal. apply decode_single.
  - apply Forall_cons in Hb as [H0 [H1 _]%Forall_cons].
    cbn [encode_sextets decode_sextets]. by apply decode_pair.
  - apply Forall_cons in Hb as [H0 [H1 [H2 Hrest]%Forall_cons]%Forall_cons].
    cbn [encode_sextets decode_sextets]. rewrite (IH Hrest).
    pose proof (decode_triple b0 b1 b2 H1 H2) as Ht. cbv zeta in Ht.
    by injection Ht as -> -> ->.
Qed.

Lemma bytes_of_is_bytes (s : string) : is_bytes (bytes_of s).
Proof.
  unfold is_bytes, bytes_of. apply Forall_forall. intros b Hb.
  apply list_elem_of_In, in_map_iff in Hb as (a & <- & _). apply N_ascii_bounded.
Qed.

Lemma string_of_bytes_of (s : string) : string_of_bytes (bytes_of s) = s.
Proof.
  unfold string_of_bytes, bytes_of. rewrite List.map_map.
  rewrite (List.map_ext _ id), List.map_id; [apply string_of_list_ascii_of_string|].
  intros a. apply ascii_N_embedding.
Qed.

Lemma mapM_b64_index (ss : list N) :
  Forall (fun s => s < 64) ss -> mapM b64_index (List.map b64_char ss) = Some ss.
Proof.
  induction 1 as [|x ss Hx _ IH]; [done|].
  cbn [List.map].
  change (mapM b64_index (b64_char x :: List.map b64_char ss))
    with (y ← b64_index (b64_char x);
          k ← mapM b64_index (List.map b64_char ss); mret (y :: k)).
  destruct (b64_char_facts x Hx) as (-> & _). by rewrite IH.
Qed.

Lemma padding_add3 (n : nat) : padding (S (S (S n))) = padding n.
Proof.
  unfold padding. replace (S (S (S n))) with (n + 1 * 3)%nat by lia.
  by rewrite Nat.Div0.mod_add.
Qed.

(** The three shapes of an encoding: no rest, a rest of one byte, a rest of
    two bytes. *)
Lemma encode_shape (bytes : list N) :
  exists k : nat,
    (length (encode_sextets bytes) = (4 * k)%nat /\ padding (length bytes) = []) \/
    (length (encode_sextets bytes) = (4 * k + 2)%nat /\
     padding (length bytes) = [pad; pad]) \/
    (length (encode_sextets bytes) = (4 * k + 3)%nat /\
     padding (length bytes) = [pad]).
Proof.
  induction bytes as [|b0|b0 b1|b0 b1 b2 rest IH] using list_ind3.
  - exists 0%nat. by left.
  - exists 0%nat. right. by left.
  - exists 0%nat. right. by right.
  - destruct IH as (k & IH). exists (S k).
    cbn [encode_sextets length]. rewrite padding_add3.
    destruct IH as [[-> ->]|[[-> ->]|[-> ->]]]; [left|right; left|right; right];
      split; (lia || done).
Qed.

Lemma filter_all {A} (f : A -> bool) (l : list A) :
  Forall (fun x => f x = true) l -> List.filter f l = l.
Proof. induction 1 as [|x l Hx _ IH]; simpl; [done|]. by rewrite Hx, IH. Qed.

Lemma body_chars (ss : list N) :
  Forall (fun s => s < 64) ss ->
  Forall (fun c => is_ascii_whitespace c = false /\ Ascii.eqb c pad = false)
    (List.map b64_char ss).
Proof.
  induction 1 as [|x ss Hx _ IH]; constructor; [|done].
  by destruct (b64_char_facts x Hx) as (_ & ? & ?).
Qed.

Lemma strip_padding_unpadded (body : list ascii) (k : nat) :
  Forall (fun c => Ascii.eqb c pad = false) body ->
  length body = (4 * k)%nat ->
  strip_padding body = body.
Proof.
  intros Hbody Hlen. unfold strip_padding.
  destruct (length body mod 4 =? 0)%nat; [|done].
  apply Forall_rev in Hbody.
  destruct (rev body) as [|c1 [|c2 r]]; [done| |].
  - apply Forall_cons in Hbody as [-> _]. done.
  - apply Forall_cons in Hbody as [-> _]. done.
Qed.

Lemma strip_padding_two (body : list ascii) (k : nat) :
  length body = (4 * k + 2)%nat ->
  strip_padding (body ++ [pad; pad]) = body.
Proof.
  intros Hlen. unfold strip_padding.
  rewrite length_app, Hlen. cbn [length].
  replace (4 * k + 2 + 2)%nat with ((k + 1) * 4)%nat by lia.
  rewrite Nat.Div0.mod_mul. cbn [Nat.eqb].
  rewrite rev_app_distr. cbn [rev app]. rewrite Ascii.eqb_refl.
  apply rev_involutive.
Qed.

Lemma strip_padding_one (body : list ascii) (k : nat) :
  Forall (fun c => Ascii.eqb c pad = false) body ->
  length body = (4 * k + 3)%nat ->
  strip_padding (body ++ [pad]) = body.
Proof.
  intros Hbody Hlen. unfold strip_padding.
  rewrite length_app, Hlen. cbn [length].
  replace (4 * k + 3 + 1)%nat with ((k + 1) * 4)%nat by lia.
  rewrite Nat.Div0.mod_mul. cbn [Nat.eqb].
  rewrite rev_app_distr. cbn [rev app]. rewrite Ascii.eqb_refl.
  apply Forall_rev in Hbody.
  destruct (rev body) as [|c2 r] eqn:Hrev.
  - apply (f_equal (@length _)) in Hrev. rewrite length_rev, Hlen in Hrev.
    simpl in Hrev. lia.
  - apply Forall_cons in Hbody as [-> _].
    by rewrite <- (rev_involutive body), Hrev.
Qed.

(** [atob] undoes [btoa]. *)
Lemma atob_btoa (s : string) : atob (btoa s) = Normal s.
Proof.
  unfold atob, btoa.
  pose proof (encode_sextets_bounded _ (bytes_of_is_bytes s)) as Hss.
  pose proof (body_chars _ Hss) as Hbody.
  rewrite list_ascii_of_string_of_list_ascii.
  set (body := List.map b64_char (encode_sextets (bytes_of s))) in *.
  assert (Hnopad : Forall (fun c => Ascii.eqb c pad = false) body)
    by (eapply Forall_impl; [exact Hbody|]; by intros c [_ ?]).
  assert (Hlen : length body = length (encode_sextets (bytes_of s)))
    by apply length_map.
  rewrite filter_all.
  2:{ apply Forall_app. split.
      - eapply Forall_impl; [exact Hbody|]. intros c [-> _]. done.
      - unfold padding. destruct (_ mod 3)%nat as [|[|[|?]]]; by repeat constructor. }
  assert (strip_padding (body ++ padding (length (bytes_of s))) = body
          /\ (length body mod 4 =? 1)%nat = false) as [-> ->].
  { destruct (encode_shape (bytes_of s)) as (k & [[Hk ->]|[[Hk ->]|[Hk ->]]]);
      rewrite <- Hlen in Hk.
    - rewrite app_nil_r. split; [by apply strip_padding_unpadded with k|].
      rewrite Hk. replace (4 * k)%nat with (k * 4)%nat by lia.
      by rewrite Nat.Div0.mod_mul.
    - split; [by apply strip_padding_two with k|].
      rewrite Hk. replace (4 * k + 2)%nat with (2 + k * 4)%nat by lia.
      by rewrite Nat.Div0.mod_add.
    - split; [by apply strip_padding_one with k|].
      rewrite Hk. replace (4 * k + 3)%nat with (3 + k * 4)%nat by lia.
      by rewrite Nat.Div0.mod_add. }
  unfold body. rewrite (mapM_b64_index _ Hss).
  rewrite (decode_encode_sextets _ (bytes_of_is_bytes s)).
  by rewrite string_of_bytes_of.
Qed.

End Base64Facts.

(** ** Bearer tokens *)

Section TokenFacts.
Import JS Http Base64 Worker NotesController.

Lemma contains_app_sep (sep : ascii) (u rest : string) :
  contains sep (u +:+ String sep rest) = true.
Proof.
  induction u as [|c u IH].
  - rewrite append_empty. cbn [contains]. by rewrite Ascii.eqb_refl.
  - rewrite append_String. cbn [contains]. rewrite IH. apply orb_true_r.
Qed.

(** What [authenticateRequest] does with a header [Bearer <token>]. *)
Lemma authenticateRequest_bearer (request : Request) (token : string) :
  authorization request = Some ("Bearer " +:+ token) ->
  authenticateRequest request =
    match atob token with
    | Normal decoded =>
        let userId := first (split colon decoded) in
        Normal (if falsy userId then None else userId)
    | Throw _ => Normal None
    end.
Proof.
  intros Hauth. unfold authenticateRequest. rewrite Hauth.
  rewrite (startsWith_app "Bearer " token).
  change 7%nat with (String.length "Bearer "). rewrite slice_app.
  change (String.eqb ("Bearer " +:+ token) "") with false. cbn [orb negb].
  by destruct (atob token).
Qed.

Lemma authenticateRequest_total (request : Request) :
  exists r, authenticateRequest request = Normal r.
Proof.
  unfold authenticateRequest.
  destruct (authorization request) as [h|]; [|by eexists].
  destruct (String.eqb h "" || negb (startsWith h "Bearer ")); [by eexists|].
  destruct (atob (slice 7 h)); by eexists.
Qed.

(** An identity that [authenticateRequest] returns is not empty and holds
    no colon. *)
Lemma authenticateRequest_Some (request : Request) (userId : string) :
  authenticateRequest request = Normal (Some userId) ->
  userId <> "" /\ contains colon userId = false.
Proof.
  unfold authenticateRequest.
  destruct (authorization request) as [h|]; [|done].
  destruct (String.eqb h "" || negb (startsWith h "Bearer ")); [done|].
  destruct (atob (slice 7 h)) as [decoded|]; [|done]. cbn.
  destruct (first (split colon decoded)) as [u|] eqn:Hu; [|done]. cbn [falsy].
  destruct (String.eqb_spec u ""); [done|]. intros [= <-].
  split; [done|]. by apply first_split_no_sep with decoded.
Qed.

Lemma not_authenticated_401 (request : Request) (w : World) (rt : Runtime)
    (randomUUID : string) (createdAt updatedAt : N) :
  authenticateRequest request = Normal None ->
  getNotes request w = (w, Normal (errorResponse "Unauthorized" 401)) /\
  createNote rt randomUUID createdAt updatedAt request w
  = (w, Normal (errorResponse "Unauthorized" 401)) /\
  updateNote rt updatedAt request w = (w, Normal (errorResponse "Unauthorized" 401)) /\
  deleteNote request w = (w, Normal (errorResponse "Unauthorized" 401)).
Proof.
  intros Hauth. unfold getNotes, createNote, updateNote, deleteNote.
  unfold try_catch_eff, mbind, Eff_bind, eff_bind, lift. rewrite Hauth.
  by repeat split.
Qed.

End TokenFacts.

(** C1 (as amended). [authenticateRequest] never throws.  It reads the
    Authorization header, requires it to start with [Bearer ], decodes the
    rest as base64 and returns the segment before the first [:] as the user
    identity; no session store is consulted.  It returns null when the header
    is missing, when it does not start with [Bearer ], when the token is not
    base64, and when that segment is empty; every notes handler answers null
    with 401 and leaves the store as it is. *)
Theorem authenticateRequest_decodes_or_null (request : Http.Request) :
  (exists r, NotesController.authenticateRequest request = JS.Normal r)
  /\ (Http.authorization request = None ->
      NotesController.authenticateRequest request = JS.Normal None)
  /\ (forall h, Http.authorization request = Some h ->
        JS.startsWith h "Bearer " = false ->
        NotesController.authenticateRequest request = JS.Normal None)
  /\ (forall token e, Http.authorization request = Some ("Bearer " +:+ token) ->
        Base64.atob token = JS.Throw e ->
        NotesController.authenticateRequest request = JS.Normal None)
  /\ (forall token decoded userId,
        Http.authorization request = Some ("Bearer " +:+ token) ->
        Base64.atob token = JS.Normal decoded ->
        JS.first (JS.split NotesController.colon decoded) = Some userId ->
        NotesController.authenticateRequest request =
          JS.Normal (if String.eqb userId "" then None else Some userId))
  /\ (forall w rt randomUUID createdAt updatedAt,
        NotesController.authenticateRequest request = JS.Normal None ->
        let unauthorized := (w, JS.Normal (Http.errorResponse "Unauthorized" 401)) in
        NotesController.getNotes request w = unauthorized /\
        NotesController.createNote rt randomUUID createdAt updatedAt request w
        = unauthorized /\
        NotesController.updateNote rt updatedAt request w = unauthorized /\
        NotesController.deleteNote request w = unauthorized).
Proof.
  split; [apply authenticateRequest_total|].
  split; [intros H; unfold NotesController.authenticateRequest; by rewrite H|].
  split.
  { intros h Hh Hstart. unfold NotesController.authenticateRequest.
    rewrite Hh, Hstart. by rewrite orb_true_r. }
  split.
  { intros token e Hh Hatob.
    by rewrite (authenticateRequest_bearer _ _ Hh), Hatob. }
  split.
  { intros token decoded userId Hh Hatob Hfirst.
    rewrite (authenticateRequest_bearer _ _ Hh), Hatob. cbv zeta.
    rewrite Hfirst. cbn [JS.falsy]. by destruct (String.eqb userId ""). }
  intros w rt randomUUID createdAt updatedAt Hnull. by apply not_authenticated_401.
Qed.

Section IssuedTokens.
Import JS Http Base64 Worker NotesController.

Lemma generateToken_eq (randomUUID : string) (now : N) (userId : string) (w : World) :
  AuthController.generateToken randomUUID now userId w =
    (w, Normal (btoa (userId +:+
                      String colon (AuthController.timestamp_string now
                                    +:+ String colon randomUUID)))).
Proof. reflexivity. Qed.

(** A token the worker issues decodes to a text with a colon in it. *)
Lemma issued_token_has_colon (randomUUID : string) (now : N)
    (userId token decoded : string) (w : World) :
  AuthController.generateToken randomUUID now userId w = (w, Normal token) ->
  atob token = Normal decoded ->
  contains colon decoded = true.
Proof.
  rewrite generateToken_eq. intros [= <-]. rewrite atob_btoa. intros [= <-].
  apply contains_app_sep.
Qed.

End IssuedTokens.

(** C1, the claim as stated fails: the token [bWFsbG9yeQ==] is one that
    [generateToken] issues for no user, at no time, so no session could know
    it; yet a request that bears it is authenticated as ["mallory"] and, on an
    empty store, is answered 200 by [getNotes]. *)
Lemma unknown_token_is_authenticated :
  (forall randomUUID now userId w,
      AuthController.generateToken randomUUID now userId w
      <> (w, JS.Normal Examples.forged_token))
  /\ NotesController.authenticateRequest Examples.forged_request
     = JS.Normal (Some "mallory")
  /\ NotesController.authenticateRequest Examples.forged_request <> JS.Normal None
  /\ (exists response,
        NotesController.getNotes Examples.forged_request Worker.empty_world
        = (Worker.empty_world, JS.Normal response)
        /\ Http.status response = 200%N).
Proof.
  split.
  { intros randomUUID now userId w Hissued.
    pose proof (issued_token_has_colon _ _ _ _ "mallory" _ Hissued eq_refl) as H.
    by vm_compute in H. }
  split; [by vm_compute|]. split; [by vm_compute|].
  eexists. split; [by vm_compute|]. reflexivity.
Qed.

(** C2. Token issuance composed with authentication is the identity on user
    ids.  For a user id [userId] (not empty and without a colon, as every
    [crypto.randomUUID()] is: [uuid_shaped_no_colon]) the token of [generateToken] is the base64 text
    of a string that begins with [userId:], and a request that bears it is
    authenticated as [userId], by decoding alone: [authenticateRequest] is a
    function of the request and reads no store.  So any base64 text whose
    decoding has [userId] before its first colon authenticates as [userId]. *)
Theorem token_then_authenticate_is_identity
    (userId randomUUID : string) (now : N) (w : Worker.World) :
  userId <> "" ->
  JS.contains NotesController.colon userId = false ->
  (exists token rest,
      AuthController.generateToken randomUUID now userId w = (w, JS.Normal token) /\
      token = Base64.btoa (userId +:+ ":" +:+ rest) /\
      Base64.atob token = JS.Normal (userId +:+ ":" +:+ rest) /\
      forall request,
        Http.authorization request = Some ("Bearer " +:+ token) ->
        NotesController.authenticateRequest request = JS.Normal (Some userId))
  /\ (forall forged decoded request,
        Base64.atob forged = JS.Normal decoded ->
        JS.first (JS.split NotesController.colon decoded) = Some userId ->
        Http.authorization request = Some ("Bearer " +:+ forged) ->
        NotesController.authenticateRequest request = JS.Normal (Some userId)).
Proof.
  intros Hne Hcolon.
  assert (Hforged : forall forged decoded request,
             Base64.atob forged = JS.Normal decoded ->
             JS.first (JS.split NotesController.colon decoded) = Some userId ->
             Http.authorization request = Some ("Bearer " +:+ forged) ->
             NotesController.authenticateRequest request = JS.Normal (Some userId)).
  { intros forged decoded request Hatob Hfirst Hh.
    rewrite (authenticateRequest_bearer _ _ Hh), Hatob. cbv zeta.
    rewrite Hfirst. cbn [JS.falsy].
    by destruct (String.eqb_spec userId ""). }
  split; [|exact Hforged].
  eexists _, (AuthController.timestamp_string now
              +:+ String NotesController.colon randomUUID).
  split; [apply generateToken_eq|]. split; [reflexivity|].
  split; [apply atob_btoa|].
  intros request Hh. eapply Hforged; [apply atob_btoa| |exact Hh].
  by apply first_split_app.
Qed.

(** ** Register and login *)

Section AuthFacts.
Import JS Http Base64 Worker AuthController.

Lemma falsy_Some (s : string) : s <> "" -> falsy (Some s) = false.
Proof. intros H. cbn [falsy]. by apply String.eqb_neq. Qed.

Lemma falsy_value_str (s : string) : s <> "" -> falsy_value (Some (VStr s)) = false.
Proof. intros H. cbn [falsy_value]. by apply String.eqb_neq. Qed.

Lemma falsy_value_false (v : option Value) :
  falsy_value v = false -> exists x, v = Some x /\ x <> VNull.
Proof. destruct v as [[]|]; try done; by eexists. Qed.

(** A value that is not [null] has every member, perhaps [undefined]. *)
Lemma member_not_null (name : string) (body : Value) :
  body <> VNull -> exists v, member name body = Normal v.
Proof. destruct body; try done; by eexists. Qed.

Lemma member_Normal (name : string) (body : Value) (v : option Value) :
  member name body = Normal v -> body <> VNull.
Proof. by destruct body. Qed.

Lemma length_less_than_truthy (rt : Runtime) (password : option Value) (n : nat) :
  falsy_value password = false ->
  exists short, length_less_than rt password n = Normal short.
Proof. destruct password as [[]|]; try done; by eexists. Qed.

Lemma reparsed_str (s : string) : reparsed (VStr s) = VStr s.
Proof. reflexivity. Qed.

Lemma auth_json_no_hash (token : string) (user : User) :
  value_has_key "passwordHash" (user_username user) = false ->
  has_key "passwordHash" (auth_json token user) = false.
Proof. intros H. cbn. by rewrite H. Qed.

Lemma register_malformed rt bc salt idUUID tokenUUID createdAt now request w :
  json request = Normal VNull \/ (exists e, json request = Throw e) ->
  register rt bc salt idUUID tokenUUID createdAt now request w =
    (w, Normal (errorResponse "Internal server error" 500)).
Proof.
  intros [Hbody|[e Hbody]]; unfold register; eff_unfold; by rewrite Hbody.
Qed.

Lemma register_invalid rt bc salt idUUID tokenUUID createdAt now request w
    body username password :
  json request = Normal body ->
  member "username" body = Normal username ->
  member "password" body = Normal password ->
  falsy_value username = true \/ falsy_value password = true ->
  register rt bc salt idUUID tokenUUID createdAt now request w =
    (w, Normal (errorResponse "Username and password are required" 400)).
Proof.
  intros Hbody Hu Hp Hmissing. unfold register. eff_unfold. rewrite Hbody, Hu, Hp.
  by destruct Hmissing as [-> | ->]; rewrite ?orb_true_r.
Qed.

(** [register] once the body has a username and a password *)
Lemma register_checked rt bc salt idUUID tokenUUID createdAt now request w
    body username password short :
  json request = Normal body ->
  member "username" body = Normal (Some username) ->
  member "password" body = Normal password ->
  falsy_value (Some username) = false ->
  falsy_value password = false ->
  length_less_than rt password 6 = Normal short ->
  register rt bc salt idUUID tokenUUID createdAt now request w =
    if short
    then (w, Normal (errorResponse "Password must be at least 6 characters" 400))
    else
      match kv_key rt username with
      | Throw _ => (w, Normal (errorResponse "Internal server error" 500))
      | Normal key =>
          if negb (valid_key key)
          then (w, Normal (errorResponse "Internal server error" 500))
          else
            match USERS w !! key with
            | Some _ => (w, Normal (errorResponse "Username already exists" 409))
            | None =>
                match hash bc password 12 salt with
                | Throw _ => (w, Normal (errorResponse "Internal server error" 500))
                | Normal passwordHash =>
                    let user := {| user_id := idUUID;
                                   user_username := username;
                                   user_passwordHash := passwordHash;
                                   user_createdAt := createdAt |} in
                    if user_fits rt user
                    then
                      let w' := {| NOTES := NOTES w;
                                   USERS := <[key := stored_user user]> (USERS w) |} in
                      let token := btoa (idUUID +:+ ":" +:+ timestamp_string now
                                         +:+ ":" +:+ tokenUUID) in
                      (w', Normal (jsonResponse (auth_json token user) 201))
                    else (w, Normal (errorResponse "Internal server error" 500))
                end
            end
      end.
Proof.
  intros Hbody Hu Hp Hut Hpt Hlen. unfold register. eff_unfold.
  rewrite Hbody, Hu, Hp, Hut, Hpt, Hlen. cbn [orb from_option id].
  destruct short; [done|].
  destruct (kv_key rt username) as [key|e]; [|done].
  destruct (valid_key key); cbn [negb andb]; [|done].
  destruct (USERS w !! key); [done|].
  destruct (hash bc password 12 salt) as [passwordHash|e]; [|done].
  cbn [user_id]. by destruct (user_fits rt _).
Qed.

Lemma login_malformed rt bc randomUUID now request w :
  json request = Normal VNull \/ (exists e, json request = Throw e) ->
  login rt bc randomUUID now request w =
    (w, Normal (errorResponse "Internal server error" 500)).
Proof.
  intros [Hbody|[e Hbody]]; unfold login; eff_unfold; by rewrite Hbody.
Qed.

Lemma login_invalid rt bc randomUUID now request w body username password :
  json request = Normal body ->
  member "username" body = Normal username ->
  member "password" body = Normal password ->
  falsy_value username = true \/ falsy_value password = true ->
  login rt bc randomUUID now request w =
    (w, Normal (errorResponse "Username and password are required" 400)).
Proof.
  intros Hbody Hu Hp Hmissing. unfold login. eff_unfold. rewrite Hbody, Hu, Hp.
  by destruct Hmissing as [-> | ->]; rewrite ?orb_true_r.
Qed.

(** [login] once the body has a username and a password *)
Lemma login_checked rt bc randomUUID now request w body username password :
  json request = Normal body ->
  member "username" body = Normal (Some username) ->
  member "password" body = Normal password ->
  falsy_value (Some username) = false ->
  falsy_value password = false ->
  login rt bc randomUUID now request w =
    match kv_key rt username with
    | Throw _ => (w, Normal (errorResponse "Internal server error" 500))
    | Normal key =>
        if negb (valid_key key)
        then (w, Normal (errorResponse "Internal server error" 500))
        else
          match USERS w !! key with
          | None => (w, Normal (errorResponse "Invalid credentials" 401))
          | Some user =>
              match compare bc password (user_passwordHash user) with
              | Throw _ => (w, Normal (errorResponse "Internal server error" 500))
              | Normal false => (w, Normal (errorResponse "Invalid credentials" 401))
              | Normal true =>
                  let token := btoa (user_id user +:+ ":" +:+ timestamp_string now
                                     +:+ ":" +:+ randomUUID) in
                  (w, Normal (jsonResponse (auth_json token user) 200))
              end
          end
    end.
Proof.
  intros Hbody Hu Hp Hut Hpt. unfold login. eff_unfold.
  rewrite Hbody, Hu, Hp, Hut, Hpt. cbn [orb from_option id].
  destruct (kv_key rt username) as [key|e]; [|done].
  destruct (valid_key key); cbn [negb]; [|done].
  destruct (USERS w !! key) as [user|]; [|done].
  by destruct (compare bc password (user_passwordHash user)) as [[]|e].
Qed.

Lemma null_or_not (body : Value) : body = VNull \/ body <> VNull.
Proof. destruct body; (by left) || by right. Qed.

(** [login] does not write. *)
Lemma login_world rt bc randomUUID now request w :
  fst (login rt bc randomUUID now request w) = w.
Proof.
  destruct (json request) as [body|e] eqn:Hbody;
    [|by rewrite login_malformed by (right; by eexists)].
  destruct (null_or_not body) as [->|Hnull];
    [by rewrite login_malformed by by left|].
  destruct (member_not_null "username" body Hnull) as [username Hu].
  destruct (member_not_null "password" body Hnull) as [password Hp].
  destruct (falsy_value username) eqn:Hut;
    [by rewrite (login_invalid _ _ _ _ _ _ _ _ _ Hbody Hu Hp) by by left|].
  destruct (falsy_value password) eqn:Hpt;
    [by rewrite (login_invalid _ _ _ _ _ _ _ _ _ Hbody Hu Hp) by by right|].
  destruct (falsy_value_false _ Hut) as (u & -> & _).
  rewrite (login_checked _ _ _ _ _ _ _ _ _ Hbody Hu Hp Hut Hpt).
  destruct (kv_key rt u) as [key|]; [|done].
  destruct (valid_key key); [|done]. cbn [negb].
  destruct (USERS w !! key) as [user|]; [|done].
  by destruct (compare bc password (user_passwordHash user)) as [[]|].
Qed.

End AuthFacts.

(** C6 (as amended). Register contract.  A body that is no JSON, or is
    [null], is answered 500.  For any other body, [register] answers 400
    when the username or the password is missing (absent, [null], empty or
    otherwise falsy) or the password is a string of fewer than 6 characters.
    For a username that is a string and a password that is a string of at
    least 6 characters: a username the KV binding refuses as a key is
    answered 500; a username that has a stored record is answered 409;
    otherwise, when the record is within the size of a KV value, [register]
    stores [{id, username, passwordHash, createdAt}] under the username,
    issues a token for the new id, and answers 201 with
    [{token, user: {id, username, createdAt}}]: the data has no
    [passwordHash] key and is the same whatever the hash function gives.  A
    password that is not a string but passes the two checks is answered 500
    for a username without a record.  Only the 201 stores anything. *)
Theorem register_contract
    (rt : Worker.Runtime) (bc : AuthController.Bcrypt) (salt idUUID tokenUUID : string)
    (createdAt now : N) (request : Http.Request) (w : Worker.World) :
  let outcome :=
    AuthController.register rt bc salt idUUID tokenUUID createdAt now request w in
  let answered (code : N) :=
    exists response, outcome = (w, JS.Normal response) /\ Http.status response = code in
  (Http.json request = JS.Normal JS.VNull \/ (exists e, Http.json request = JS.Throw e) ->
   answered 500%N)
  /\ (forall body username password,
        Http.json request = JS.Normal body ->
        JS.member "username" body = JS.Normal username ->
        JS.member "password" body = JS.Normal password ->
        (JS.falsy_value username = true \/ JS.falsy_value password = true ->
         answered 400%N)
        /\ (forall p,
              JS.falsy_value username = false ->
              password = Some (JS.VStr p) -> p <> "" -> (String.length p < 6)%nat ->
              answered 400%N)
        /\ (forall u v,
              username = Some (JS.VStr u) -> u <> "" ->
              password = Some v -> JS.falsy_value password = false ->
              (forall p, v <> JS.VStr p) ->
              AuthController.length_less_than rt password 6 = JS.Normal false ->
              Worker.valid_key u = true ->
              Worker.USERS w !! u = None ->
              answered 500%N)
        /\ (forall u p,
              username = Some (JS.VStr u) -> u <> "" ->
              password = Some (JS.VStr p) -> (6 <= String.length p)%nat ->
              let user := {| Worker.user_id := idUUID;
                             Worker.user_username := JS.VStr u;
                             Worker.user_passwordHash :=
                               AuthController.bcrypt_hash bc p 12 salt;
                             Worker.user_createdAt := createdAt |} in
              (Worker.valid_key u = false -> answered 500%N)
              /\ (Worker.valid_key u = true -> is_Some (Worker.USERS w !! u) ->
                  answered 409%N)
              /\ (Worker.valid_key u = true -> Worker.USERS w !! u = None ->
                  Worker.user_fits rt user = false ->
                  answered 500%N)
              /\ (Worker.valid_key u = true -> Worker.USERS w !! u = None ->
                  Worker.user_fits rt user = true ->
                  exists w' token response,
                    outcome = (w', JS.Normal response) /\
                    Worker.USERS w' = <[u := user]> (Worker.USERS w) /\
                    Worker.NOTES w' = Worker.NOTES w /\
                    AuthController.generateToken tokenUUID now idUUID w'
                    = (w', JS.Normal token) /\
                    Http.status response = 201%N /\
                    Http.body response =
                      Http.JsonText
                        (Http.JObj
                           [("token", Http.JStr token);
                            ("user", Http.JObj [("id", Http.JStr idUUID);
                                                ("username", Http.JVal (JS.VStr u));
                                                ("createdAt", Http.JDate createdAt)])]) /\
                    (forall data, Http.body response = Http.JsonText data ->
                                  Http.has_key "passwordHash" data = false) /\
                    (forall bc',
                        Worker.user_fits rt
                          {| Worker.user_id := idUUID;
                             Worker.user_username := JS.VStr u;
                             Worker.user_passwordHash :=
                               AuthController.bcrypt_hash bc' p 12 salt;
                             Worker.user_createdAt := createdAt |} = true ->
                        snd (AuthController.register rt bc' salt idUUID tokenUUID
                               createdAt now request w)
                        = JS.Normal response)))).
Proof.
  intros outcome answered. subst outcome answered. cbv beta. split.
  { intros Hbad. rewrite (register_malformed _ _ _ _ _ _ _ _ _ Hbad). eexists; split; reflexivity. }
  intros body username password Hbody Hu Hp. split; [|split; [|split]].
  - intros Hmissing.
    rewrite (register_invalid _ _ _ _ _ _ _ _ _ _ _ _ Hbody Hu Hp Hmissing). eexists; split; reflexivity.
  - intros p Hut -> Hpne Hlen.
    destruct (falsy_value_false _ Hut) as (u & -> & _).
    rewrite (register_checked _ _ _ _ _ _ _ _ _ _ _ _ true Hbody Hu Hp Hut
               (falsy_value_str p Hpne)); [eexists; split; reflexivity|].
    cbn [AuthController.length_less_than].
    by destruct (Nat.ltb_spec (String.length p) 6); [|lia].
  - intros u v -> Hune -> Hpt Hnostr Hlen Hkey Hfree.
    rewrite (register_checked _ _ _ _ _ _ _ _ _ _ _ _ false Hbody Hu Hp
               (falsy_value_str u Hune) Hpt Hlen).
    cbn [Worker.kv_key]. rewrite Hkey, Hfree. cbn [negb].
    destruct v; try (eexists; split; reflexivity). by destruct (Hnostr s).
  - intros u p -> Hune -> Hlen user.
    assert (p <> "") as Hpne by (intros ->; simpl in Hlen; lia).
    assert (AuthController.length_less_than rt (Some (JS.VStr p)) 6 = JS.Normal false)
      as Hlong.
    { cbn [AuthController.length_less_than].
      by destruct (Nat.ltb_spec (String.length p) 6); [lia|]. }
    pose proof (fun bc' =>
                  register_checked rt bc' salt idUUID tokenUUID createdAt now request w
                    _ _ _ false Hbody Hu Hp
                    (falsy_value_str u Hune) (falsy_value_str p Hpne) Hlong) as Hrun.
    cbn [Worker.kv_key AuthController.hash] in Hrun. cbv zeta in Hrun.
    split; [|split; [|split]].
    + intros Hkey. rewrite Hrun, Hkey. eexists; split; reflexivity.
    + intros Hkey [existing Hex]. rewrite Hrun, Hkey, Hex. eexists; split; reflexivity.
    + intros Hkey Hfree Hfits. rewrite Hrun, Hkey, Hfree. cbn [negb].
      fold user. rewrite Hfits. eexists; split; reflexivity.
    + intros Hkey Hfree Hfits. rewrite Hrun, Hkey, Hfree. cbn [negb].
      fold user. rewrite Hfits.
      eexists _, (Base64.btoa
                    (idUUID +:+ ":" +:+ AuthController.timestamp_string now
                     +:+ ":" +:+ tokenUUID)), _.
      do 6 (split; [reflexivity|]). split.
      * intros data [= <-]. reflexivity.
      * intros bc' Hfits'. rewrite Hrun, Hkey, Hfree. cbn [negb].
        by rewrite Hfits'.
Qed.


(** ** Keys of the notes namespace *)

Section KeyFacts.
Import JS Http Worker NotesController.

Lemma append_assoc (a b c : string) : (a +:+ b) +:+ c = a +:+ (b +:+ c).
Proof.
  induction a as [|x a IH]; [done|]. by rewrite !append_String, IH.
Qed.


Lemma startsWith_append_same (p s t : string) :
  startsWith (p +:+ s) (p +:+ t) = startsWith s t.
Proof.
  induction p as [|x p IH]; [done|].
  rewrite !append_String. cbn [startsWith]. by rewrite Ascii.eqb_refl.
Qed.

Lemma noteKey_userNotesKey (userId noteId : string) :
  noteKey userId noteId = userNotesKey userId +:+ ":" +:+ noteId.
Proof.
  unfold noteKey, userNotesKey.
  rewrite !append_assoc. reflexivity.
Qed.

(** Every key of a user's note starts with the user's listing prefix. *)
Lemma noteKey_has_prefix (userId noteId : string) :
  startsWith (noteKey userId noteId) (userNotesKey userId) = true.
Proof. rewrite noteKey_userNotesKey. apply startsWith_app. Qed.

(** Two texts that run up to their first colon: if one text starts with
    the other up to and including that colon, the two runs are the same. *)
Lemma startsWith_up_to_colon (u u' r r' : string) :
  contains colon u = false -> contains colon u' = false ->
  startsWith (u' +:+ String colon r') (u +:+ String colon r) = true ->
  u = u'.
Proof.
  revert u'. induction u as [|c u IH]; intros [|c' u'] Hu Hu'; try done.
  - rewrite append_empty, append_String. cbn [startsWith contains] in *.
    apply orb_false_iff in Hu' as [Hc' _]. rewrite Ascii.eqb_sym, Hc'. done.
  - rewrite append_empty, append_String. cbn [startsWith contains] in *.
    apply orb_false_iff in Hu as [Hc _]. rewrite Hc. done.
  - rewrite !append_String. cbn [startsWith contains] in *.
    apply orb_false_iff in Hu as [_ Hu]. apply orb_false_iff in Hu' as [_ Hu'].
    intros [Hcc Hrest]%andb_true_iff. apply Ascii.eqb_eq in Hcc as ->.
    f_equal. by apply IH.
Qed.

(** A key of [userId']'s notes under the listing prefix of [userId] is a
    key of [userId]'s own. *)
Lemma prefix_same_user (userId userId' noteId' : string) :
  contains colon userId = false -> contains colon userId' = false ->
  startsWith (noteKey userId' noteId') (userNotesKey userId) = true ->
  userId = userId'.
Proof.
  intros Hu Hu'. unfold noteKey, userNotesKey.
  rewrite startsWith_append_same.
  change (":notes:" +:+ noteId') with (String colon ("notes:" +:+ noteId')).
  change ":notes" with (String colon "notes").
  by apply startsWith_up_to_colon.
Qed.


End KeyFacts.

(** ** Listing keys *)

Section ListingFacts.
Import JS Http Worker NotesController.

Lemma ascii_compare_N (a b : ascii) :
  Ascii.compare a b = N.compare (N_of_ascii a) (N_of_ascii b).
Proof. reflexivity. Qed.

Lemma string_compare_trans_le (a b c : string) :
  String.compare a b <> Gt -> String.compare b c <> Gt -> String.compare a c <> Gt.
Proof.
  revert b c. induction a as [|x a IH]; intros [|y b] [|z c]; try done.
  cbn [String.compare]. rewrite !ascii_compare_N.
  destruct (N.compare_spec (N_of_ascii x) (N_of_ascii y)) as [Hxy|Hxy|Hxy];
    destruct (N.compare_spec (N_of_ascii y) (N_of_ascii z)) as [Hyz|Hyz|Hyz];
    try done.
  - rewrite Hxy, Hyz, N.compare_refl. apply IH.
  - intros _ _. rewrite Hxy. by apply N.compare_lt_iff in Hyz as ->.
  - intros _ _. rewrite <- Hyz. by apply N.compare_lt_iff in Hxy as ->.
  - intros _ _. assert (N_of_ascii x < N_of_ascii z)%N as Hxz by lia.
    by apply N.compare_lt_iff in Hxz as ->.
Qed.

#[local] Instance key_le_trans : Transitive key_le.
Proof.
  intros a b c. unfold key_le, String.leb. intros Hab Hbc.
  pose proof (string_compare_trans_le a b c) as H.
  destruct (String.compare a b), (String.compare b c), (String.compare a c);
    try done; by exfalso; apply H.
Qed.

#[local] Instance key_le_total : Total key_le.
Proof.
  intros a b. unfold key_le.
  destruct (String.leb_total a b) as [-> | ->]; [by left|by right].
Qed.

#[local] Instance key_le_antisym : AntiSymm (=) key_le.
Proof.
  intros a b Hab Hba. apply String.leb_antisym; by apply Is_true_true.
Qed.

Context {V : Type}.
Implicit Types (m : gmap string V).

Lemma elem_of_matching_keys prefix m key :
  key ∈ matching_keys prefix m <->
  startsWith key prefix = true /\ is_Some (m !! key).
Proof.
  unfold matching_keys. rewrite list_elem_of_In, filter_In, <- list_elem_of_In.
  rewrite list_elem_of_fmap. split.
  - intros [([k v] & -> & Hkv%elem_of_map_to_list) Hp]. eauto.
  - intros [Hp [v Hv]]. split; [|done].
    exists (key, v). split; [done|]. by apply elem_of_map_to_list.
Qed.

Lemma NoDup_matching_keys prefix m : NoDup (matching_keys prefix m).
Proof.
  unfold matching_keys. apply NoDup_ListNoDup, List.NoDup_filter, NoDup_ListNoDup.
  apply NoDup_fst_map_to_list.
Qed.

(** A listed key starts with the prefix and is bound in the map. *)
Lemma elem_of_keys_with_prefix prefix m key :
  key ∈ keys_with_prefix prefix m ->
  startsWith key prefix = true /\ is_Some (m !! key).
Proof.
  unfold keys_with_prefix. intros Hin%subseteq_take.
  rewrite merge_sort_Permutation in Hin. by apply elem_of_matching_keys.
Qed.



Lemma keys_with_prefix_none prefix m :
  (forall key, startsWith key prefix = true -> m !! key = None) ->
  keys_with_prefix prefix m = [].
Proof.
  intros Hnone. unfold keys_with_prefix.
  assert (merge_sort key_le (matching_keys prefix m) = []) as ->; [|done].
  apply Permutation_nil_r. rewrite merge_sort_Permutation.
  apply Permutation_nil_r, elem_of_nil_inv. intros key.
  rewrite elem_of_matching_keys. intros [Hp [v Hv]]. by rewrite (Hnone key Hp) in Hv.
Qed.

End ListingFacts.

(** ** The notes handlers *)

Section NotesFacts.
Import JS Http Worker NotesController Invariant.

(** The loop of [getNotes] reads every listed key, or stops at the first
    key the binding refuses; it writes nothing. *)
Lemma read_notes_eq (keys : list string) (notes : list Note) (w : World) :
  read_notes keys notes w =
    if forallb valid_key keys
    then (w, Normal (notes ++ omap (fun key => NOTES w !! key) keys))
    else (w, Throw KvError).
Proof.
  revert notes. induction keys as [|key keys IH]; intros notes.
  - cbn. by rewrite app_nil_r.
  - cbn [read_notes omap list_omap forallb]. eff_unfold.
    destruct (valid_key key); cbn [andb]; [|done]. rewrite IH.
    destruct (forallb valid_key keys); [|done].
    destruct (NOTES w !! key); [by rewrite <- app_assoc|done].
Qed.

Lemma insert_newest_first_perm (a : Note) (sorted : list Note) :
  insert_newest_first a sorted ≡ₚ a :: sorted.
Proof.
  induction sorted as [|b sorted IH]; [done|]. cbn [insert_newest_first].
  destruct (note_updatedAt b <=? note_updatedAt a)%N; [done|].
  rewrite IH. apply Permutation_swap.
Qed.

Lemma sort_newest_first_perm (notes : list Note) :
  sort_newest_first notes ≡ₚ notes.
Proof.
  induction notes as [|a notes IH]; [done|].
  change (sort_newest_first (a :: notes))
    with (insert_newest_first a (sort_newest_first notes)).
  rewrite insert_newest_first_perm. by apply Permutation_skip.
Qed.

(** The outcome of [getNotes] for an authenticated user. *)
Lemma getNotes_authenticated (request : Request) (w : World) (userId : string) :
  authenticateRequest request = Normal (Some userId) ->
  getNotes request w =
    if forallb valid_key (keys_with_prefix (userNotesKey userId) (NOTES w))
    then (w, Normal (jsonResponse
                       (JObj [("notes",
                               JArr (note_json <$>
                                       sort_newest_first (listed_notes userId w)))])
                       200))
    else (w, Normal (errorResponse "Internal server error" 500)).
Proof.
  intros Hauth. unfold getNotes. eff_unfold. rewrite Hauth, read_notes_eq.
  by destruct (forallb _ _).
Qed.

(** In a world whose keys the binding accepts, every listed key is read. *)
Lemma listed_keys_valid (w : World) (prefix : string) :
  wf_world w -> forallb valid_key (keys_with_prefix prefix (NOTES w)) = true.
Proof.
  intros Hwf. apply forallb_forall. intros key Hkey%list_elem_of_In.
  apply elem_of_keys_with_prefix in Hkey as [_ [n Hn]].
  by destruct (Hwf key n Hn).
Qed.

Lemma getNotes_wf (request : Request) (w : World) (userId : string) :
  wf_world w ->
  authenticateRequest request = Normal (Some userId) ->
  getNotes request w =
    (w, Normal (jsonResponse
                  (JObj [("notes",
                          JArr (note_json <$> sort_newest_first (listed_notes userId w)))])
                  200)).
Proof.
  intros Hwf Hauth. by rewrite (getNotes_authenticated _ _ _ Hauth), listed_keys_valid.
Qed.

(** A listed note is stored under a key with the user's prefix. *)
Lemma elem_of_listed_notes (userId : string) (w : World) (n : Note) :
  n ∈ listed_notes userId w ->
  exists key, startsWith key (userNotesKey userId) = true /\ NOTES w !! key = Some n.
Proof.
  unfold listed_notes. rewrite list_elem_of_omap.
  intros (key & Hkey%elem_of_keys_with_prefix & Hn). exists key. by destruct Hkey.
Qed.

(** The outcome of [createNote] for an authenticated user. *)
Lemma createNote_authenticated (rt : Runtime) (randomUUID : string)
    (createdAt updatedAt : N) (request : Request) (w : World) (userId : string) :
  authenticateRequest request = Normal (Some userId) ->
  createNote rt randomUUID createdAt updatedAt request w =
    match json request with
    | Throw _ => (w, Normal (errorResponse "Internal server error" 500))
    | Normal body =>
        match member "title" body, member "content" body with
        | Normal title, Normal content =>
            if falsy_value title || falsy_value content
            then (w, Normal (errorResponse "Title and content are required" 400))
            else
              let note := {| note_id := randomUUID;
                             note_userId := userId;
                             note_title := default VNull title;
                             note_content := default VNull content;
                             note_createdAt := createdAt;
                             note_updatedAt := updatedAt |} in
              if valid_key (noteKey userId randomUUID) && note_fits rt note
              then ({| NOTES := <[noteKey userId randomUUID := stored_note note]> (NOTES w);
                       USERS := USERS w |},
                    Normal (jsonResponse (JObj [("note", note_json note)]) 201))
              else (w, Normal (errorResponse "Internal server error" 500))
        | _, _ => (w, Normal (errorResponse "Internal server error" 500))
        end
    end.
Proof.
  intros Hauth. unfold createNote. eff_unfold. rewrite Hauth.
  destruct (json request) as [body|e]; [|done].
  destruct (member "title" body) as [title|e]; [|done].
  destruct (member "content" body) as [content|e]; [|done].
  destruct (falsy_value title || falsy_value content); [done|].
  cbn [note_id]. by destruct (valid_key _ && note_fits rt _).
Qed.

(** The outcome of [updateNote] for an authenticated user and a note id. *)
Lemma updateNote_authenticated (rt : Runtime) (updatedAt : N) (request : Request)
    (w : World) (userId noteId : string) :
  authenticateRequest request = Normal (Some userId) ->
  pop (split "/"%char (pathname request)) = Some noteId -> noteId <> "" ->
  updateNote rt updatedAt request w =
    match json request with
    | Throw _ => (w, Normal (errorResponse "Internal server error" 500))
    | Normal body =>
        match member "title" body, member "content" body with
        | Normal title, Normal content =>
            if falsy_value title && falsy_value content
            then (w, Normal (errorResponse
                               "At least title or content must be provided" 400))
            else if negb (valid_key (noteKey userId noteId))
            then (w, Normal (errorResponse "Internal server error" 500))
            else
              match NOTES w !! noteKey userId noteId with
              | None => (w, Normal (errorResponse "Note not found" 404))
              | Some existingNote =>
                  let updatedNote :=
                    {| note_id := note_id existingNote;
                       note_userId := note_userId existingNote;
                       note_title := nullish_or title (note_title existingNote);
                       note_content := nullish_or content (note_content existingNote);
                       note_createdAt := note_createdAt existingNote;
                       note_updatedAt := updatedAt |} in
                  if note_fits rt updatedNote
                  then ({| NOTES := <[noteKey userId noteId := stored_note updatedNote]>
                                      (NOTES w);
                           USERS := USERS w |},
                        Normal (jsonResponse (JObj [("note", note_json updatedNote)]) 200))
                  else (w, Normal (errorResponse "Internal server error" 500))
              end
        | _, _ => (w, Normal (errorResponse "Internal server error" 500))
        end
    end.
Proof.
  intros Hauth Hid Hne. unfold updateNote. eff_unfold.
  rewrite Hauth, Hid, falsy_Some by done. cbn [from_option id].
  destruct (json request) as [body|e]; [|done].
  destruct (member "title" body) as [title|e]; [|done].
  destruct (member "content" body) as [content|e]; [|done].
  destruct (falsy_value title && falsy_value content); [done|].
  destruct (valid_key (noteKey userId noteId)); cbn [negb andb]; [|done].
  destruct (NOTES w !! noteKey userId noteId) as [existing|]; [|done].
  by destruct (note_fits rt _).
Qed.

Lemma updateNote_no_id (rt : Runtime) (updatedAt : N) (request : Request) (w : World)
    (userId : string) :
  authenticateRequest request = Normal (Some userId) ->
  falsy (pop (split "/"%char (pathname request))) = true ->
  updateNote rt updatedAt request w
  = (w, Normal (errorResponse "Note ID is required" 400)).
Proof.
  intros Hauth Hid. unfold updateNote. eff_unfold. by rewrite Hauth, Hid.
Qed.

(** The outcome of [deleteNote] for an authenticated user and a note id. *)
Lemma deleteNote_authenticated (request : Request) (w : World)
    (userId noteId : string) :
  authenticateRequest request = Normal (Some userId) ->
  pop (split "/"%char (pathname request)) = Some noteId -> noteId <> "" ->
  deleteNote request w =
    if negb (valid_key (noteKey userId noteId))
    then (w, Normal (errorResponse "Internal server error" 500))
    else
      match NOTES w !! noteKey userId noteId with
      | None => (w, Normal (errorResponse "Note not found" 404))
      | Some _ =>
          ({| NOTES := base.delete (noteKey userId noteId) (NOTES w);
              USERS := USERS w |},
           Normal (jsonResponse (JObj [("message", JStr "Note deleted successfully")])
                     200))
      end.
Proof.
  intros Hauth Hid Hne. unfold deleteNote. eff_unfold.
  rewrite Hauth, Hid, falsy_Some by done. cbn [from_option id].
  destruct (valid_key (noteKey userId noteId)); cbn [negb]; [|done].
  by destruct (NOTES w !! noteKey userId noteId).
Qed.

Lemma deleteNote_no_id (request : Request) (w : World) (userId : string) :
  authenticateRequest request = Normal (Some userId) ->
  falsy (pop (split "/"%char (pathname request))) = true ->
  deleteNote request w = (w, Normal (errorResponse "Note ID is required" 400)).
Proof.
  intros Hauth Hid. unfold deleteNote. eff_unfold. by rewrite Hauth, Hid.
Qed.

Lemma falsy_cases (v : option string) :
  falsy v = true \/ exists s, v = Some s /\ s <> "".
Proof.
  destruct v as [s|]; [|by left]. cbn [falsy].
  destruct (String.eqb_spec s ""); [by left|right; by exists s].
Qed.

End NotesFacts.
(** ** Isolation of the notes of different users *)

Section IsolationFacts.
Import JS Http Worker NotesController Invariant.


(** In a well-formed world the notes under a user's prefix are the user's. *)
Lemma prefixed_note_owner (w : World) (userId key : string) (n : Note) :
  wf_world w -> contains colon userId = false ->
  NOTES w !! key = Some n ->
  startsWith key (userNotesKey userId) = true ->
  note_userId n = userId.
Proof.
  intros Hwf Hcolon Hn Hprefix.
  destruct (Hwf key n Hn) as ((-> & _ & Hcolon') & _).
  symmetry. by apply (prefix_same_user userId (note_userId n) (note_id n)).
Qed.

Lemma listed_notes_owner (w : World) (userId : string) (n : Note) :
  wf_world w -> contains colon userId = false ->
  n ∈ listed_notes userId w -> note_userId n = userId.
Proof.
  intros Hwf Hcolon (key & Hprefix & Hn)%elem_of_listed_notes.
  by apply (prefixed_note_owner w userId key n).
Qed.





End IsolationFacts.



(** * The statements at sample inputs *)

Section SampleFacts.
Import JS Http Worker NotesController Invariant Examples.

Lemma wf_bob_world : wf_world bob_world.
Proof.
  intros key n Hn. unfold bob_world in Hn. cbn [NOTES] in Hn.
  apply lookup_singleton_Some in Hn as [<- <-].
  repeat split; (done || by vm_compute).
Qed.

Lemma wf_empty_world : wf_world empty_world.
Proof. intros key n Hn. cbn in Hn. by rewrite lookup_empty in Hn. Qed.



End SampleFacts.

(** C1 at the forged request: it is authenticated as ["mallory"]. *)
Lemma authenticateRequest_decodes_or_null_sample :
  NotesController.authenticateRequest Examples.forged_request
  = JS.Normal (Some "mallory").
Proof.
  destruct (authenticateRequest_decodes_or_null Examples.forged_request)
    as (_ & _ & _ & _ & Hdecoded & _).
  exact (Hdecoded Examples.forged_token "mallory" "mallory" eq_refl eq_refl eq_refl).
Defined.

(** C2 at alice's id, a UUID. *)
Lemma token_then_authenticate_is_identity_sample :
  JS.uuid_shaped Examples.alice = true /\
  exists token rest,
    AuthController.generateToken "r" 1000 Examples.alice Worker.empty_world
    = (Worker.empty_world, JS.Normal token) /\
    token = Base64.btoa (Examples.alice +:+ ":" +:+ rest) /\
    Base64.atob token = JS.Normal (Examples.alice +:+ ":" +:+ rest) /\
    forall request,
      Http.authorization request = Some ("Bearer " +:+ token) ->
      NotesController.authenticateRequest request = JS.Normal (Some Examples.alice).
Proof.
  assert (JS.uuid_shaped Examples.alice = true) as Huuid by reflexivity.
  split; [exact Huuid|].
  destruct (uuid_shaped_no_colon Examples.alice Huuid) as [Hne Hcolon].
  exact (proj1 (token_then_authenticate_is_identity Examples.alice "r" 1000
                  Worker.empty_world Hne Hcolon)).
Defined.



(** C5 at the sample routes: the first of two matching routes answers, and
    a path that no route matches is answered 404. *)
Lemma handle_first_match_or_404_sample :
  Router.handle Examples.sample_routes
    (Examples.anonymous "GET" "/api/notes" []) tt
  = (tt, {| Http.body := Http.Text "list"; Http.status := 200; Http.headers := [] |})
  /\ exists response,
      Router.handle Examples.sample_routes
        (Examples.anonymous "GET" "/nowhere" []) tt = (tt, response) /\
      Http.status response = 404%N /\
      Http.header "Access-Control-Allow-Origin" response = Some "*".
Proof.
  split.
  - assert (Http.method (Examples.anonymous "GET" "/api/notes" []) <> "OPTIONS")
      as Hmethod by discriminate.
    destruct (handle_first_match_or_404 Examples.sample_routes
                (Examples.anonymous "GET" "/api/notes" []) tt Hmethod) as [Hfirst _].
    apply (Hfirst [] (Router.mkRoute "GET" "/api/notes" (Examples.answering "list"))
             [Router.mkRoute "GET" "/api/:anything" (Examples.answering "shadowed");
              Router.mkRoute "PUT" "/api/notes/:id" (Examples.throwing "disk on fire")]);
      try reflexivity. constructor.
  - assert (Http.method (Examples.anonymous "GET" "/nowhere" []) <> "OPTIONS")
      as Hmethod by discriminate.
    destruct (handle_first_match_or_404 Examples.sample_routes
                (Examples.anonymous "GET" "/nowhere" []) tt Hmethod) as [_ Hnone].
    apply Hnone. unfold Examples.sample_routes.
    repeat apply Forall_cons_2; try apply Forall_nil_2;
      intros [_ Hmatch]; by vm_compute in Hmatch.
Defined.

(** C10 at the sample routes: the PUT handler throws and the answer is the
    fixed 500 response. *)
Lemma handle_contains_handler_failure_sample :
  exists response,
    Router.handle Examples.sample_routes
      (Examples.anonymous "PUT" "/api/notes/42" []) tt = (tt, response) /\
    Http.status response = 500%N /\
    Http.header "Access-Control-Allow-Origin" response = Some "*" /\
    Http.body response
    = Http.JsonText (Http.JObj [("error", Http.JStr "Route handler error")]).
Proof.
  apply (handle_contains_handler_failure Examples.sample_routes
           [Router.mkRoute "GET" "/api/notes" (Examples.answering "list");
            Router.mkRoute "GET" "/api/:anything" (Examples.answering "shadowed")]
           []
           (Router.mkRoute "PUT" "/api/notes/:id" (Examples.throwing "disk on fire"))
           (Examples.anonymous "PUT" "/api/notes/42" []) tt tt
           (JS.OtherError "disk on fire"));
    try reflexivity; try discriminate.
  repeat apply Forall_cons_2; try apply Forall_nil_2;
    intros [Hmethod _]; discriminate Hmethod.
Defined.


(** C6, the claim as stated fails: a body that is [null] is answered 500,
    not 400; a new username with a password that is a number is answered
    500, not 201, and so is the username [..] with a password of seven
    characters; nothing is stored. *)
Lemma register_answers_500 :
  let register := AuthController.register Examples.toy_runtime Examples.toy_bcrypt
                    "salt" Samples.carol_id "r1" 2000 2003 in
  let failed := (Worker.empty_world,
                 JS.Normal (Http.errorResponse "Internal server error" 500)) in
  register (Examples.anonymous_with "POST" "/api/auth/register" JS.VNull)
    Worker.empty_world = failed
  /\ register (Examples.anonymous_with "POST" "/api/auth/register"
                 (Samples.numeric_password "dave"))
       Worker.empty_world = failed
  /\ register (Examples.anonymous "POST" "/api/auth/register"
                 [("username", ".."); ("password", "secret1")])
       Worker.empty_world = failed
  /\ Http.status (Http.errorResponse "Internal server error" 500) = 500%N.
Proof. cbv zeta. repeat split; vm_compute; reflexivity. Qed.

(** C6 at three registrations: a short password, a taken username and a
    fresh one. *)
Lemma register_contract_sample :
  let register fields :=
    AuthController.register Examples.toy_runtime Examples.toy_bcrypt "salt"
      Examples.alice "r" 2000 2003
      (Examples.anonymous "POST" "/api/auth/register" fields) Examples.bob_world in
  (exists response,
      register [("username", "alice"); ("password", "12345")]
      = (Examples.bob_world, JS.Normal response) /\ Http.status response = 400%N)
  /\ (exists response,
         register [("username", "bob"); ("password", "hunter22")]
         = (Examples.bob_world, JS.Normal response) /\ Http.status response = 409%N)
  /\ (exists w' response,
         register [("username", "alice"); ("password", "hunter22")]
         = (w', JS.Normal response) /\
         Http.status response = 201%N /\
         is_Some (Worker.USERS w' !! "alice")).
Proof.
  intros register.
  pose proof (fun fields =>
                proj2 (register_contract Examples.toy_runtime Examples.toy_bcrypt "salt"
                         Examples.alice "r" 2000 2003
                         (Examples.anonymous "POST" "/api/auth/register" fields)
                         Examples.bob_world) (Examples.object_of fields)) as Hcontract.
  split; [|split].
  - destruct (Hcontract [("username", "alice"); ("password", "12345")]
                (Some (JS.VStr "alice")) (Some (JS.VStr "12345")) eq_refl
                ltac:(vm_compute; reflexivity) ltac:(vm_compute; reflexivity))
      as (_ & H400 & _).
    apply (H400 "12345"); [reflexivity|reflexivity|discriminate|simpl; lia].
  - destruct (Hcontract [("username", "bob"); ("password", "hunter22")]
                (Some (JS.VStr "bob")) (Some (JS.VStr "hunter22")) eq_refl
                ltac:(vm_compute; reflexivity) ltac:(vm_compute; reflexivity))
      as (_ & _ & _ & Hlong).
    destruct (Hlong "bob" "hunter22" eq_refl ltac:(discriminate) eq_refl
                ltac:(simpl; lia)) as (_ & H409 & _).
    apply H409; [vm_compute; reflexivity|]. eexists. apply lookup_singleton_eq.
  - destruct (Hcontract [("username", "alice"); ("password", "hunter22")]
                (Some (JS.VStr "alice")) (Some (JS.VStr "hunter22")) eq_refl
                ltac:(vm_compute; reflexivity) ltac:(vm_compute; reflexivity))
      as (_ & _ & _ & Hlong).
    destruct (Hlong "alice" "hunter22" eq_refl ltac:(discriminate) eq_refl
                ltac:(simpl; lia)) as (_ & _ & _ & H201).
    destruct H201 as (w' & token & response & Hrun & Hstored & _ & _ & Hstatus & _);
      [vm_compute; reflexivity|apply lookup_singleton_ne; discriminate|reflexivity|].
    exists w', response. split; [exact Hrun|]. split; [exact Hstatus|].
    rewrite Hstored. eexists. apply lookup_insert_eq.
Defined.






(** * Further properties of the code *)

(** ** Paths and their segments *)

Section SegmentFacts.
Import JS Http.

(** Splitting a text with a separator in it: the pieces before the separator,
    then the pieces after it. *)
Lemma split_app (sep : ascii) (a b : string) :
  split sep (a +:+ String sep b) = split sep a ++ split sep b.
Proof.
  induction a as [|c a IH].
  - rewrite append_empty. cbn [split]. by rewrite Ascii.eqb_refl.
  - rewrite append_String. cbn [split]. rewrite IH.
    destruct (Ascii.eqb c sep); [done|].
    pose proof (split_nonempty sep a) as Hne.
    by destruct (split sep a).
Qed.

Lemma split_no_sep (sep : ascii) (u : string) :
  contains sep u = false -> split sep u = [u].
Proof.
  induction u as [|c u IH]; [done|]. cbn [contains split].
  intros [Hc Hu]%orb_false_iff. by rewrite Hc, (IH Hu).
Qed.

Lemma filter_Boolean_app (l k : list string) :
  filter_Boolean (l ++ k) = filter_Boolean l ++ filter_Boolean k.
Proof. apply List.filter_app. Qed.

Lemma parts_app (a b : string) :
  Router.parts (a +:+ String Router.slash b) = Router.parts a ++ Router.parts b.
Proof. unfold Router.parts. by rewrite split_app, filter_Boolean_app. Qed.

Lemma parts_empty : Router.parts "" = [].
Proof. reflexivity. Qed.

Lemma parts_segment (seg : string) :
  contains Router.slash seg = false -> seg <> "" -> Router.parts seg = [seg].
Proof.
  intros Hseg Hne. unfold Router.parts. rewrite (split_no_sep _ _ Hseg).
  cbn. by destruct (String.eqb_spec seg "").
Qed.

(** The segments of [/api/notes/<id>], with or without a slash at the end *)
Lemma parts_api_notes (id : string) :
  contains Router.slash id = false -> id <> "" ->
  Router.parts ("/api/notes/" +:+ id) = ["api"; "notes"; id] /\
  Router.parts ("/api/notes/" +:+ id +:+ "/") = ["api"; "notes"; id].
Proof.
  intros Hid Hne.
  change ("/api/notes/" +:+ id)
    with ("" +:+ String Router.slash ("api" +:+ String Router.slash
            ("notes" +:+ String Router.slash id))).
  change ("/api/notes/" +:+ id +:+ "/")
    with ("" +:+ String Router.slash ("api" +:+ String Router.slash
            ("notes" +:+ String Router.slash (id +:+ String Router.slash "")))).
  rewrite !parts_app, (parts_segment id Hid Hne). by split.
Qed.

Lemma pop_api_notes (id : string) :
  contains Router.slash id = false ->
  pop (split "/"%char ("/api/notes/" +:+ id)) = Some id /\
  pop (split "/"%char ("/api/notes/" +:+ id +:+ "/")) = Some "".
Proof.
  intros Hid.
  change ("/api/notes/" +:+ id)
    with ("" +:+ String Router.slash ("api" +:+ String Router.slash
            ("notes" +:+ String Router.slash id))).
  change ("/api/notes/" +:+ id +:+ "/")
    with ("" +:+ String Router.slash ("api" +:+ String Router.slash
            ("notes" +:+ String Router.slash (id +:+ String Router.slash "")))).
  unfold Router.slash in *. rewrite !split_app, (split_no_sep _ _ Hid). by split.
Qed.

End SegmentFacts.

(** X1. [matchPath] looks at the segments only: a slash more at the start, at
    the end or between two segments of the request path, or of the route
    pattern, changes nothing.  So [/api/notes/abc/] and [//api//notes/abc]
    match [/api/notes/:id] as [/api/notes/abc] does. *)
Theorem matchPath_ignores_extra_slashes (routePath a b : string) :
  Router.matchPath routePath (a +:+ "/") = Router.matchPath routePath a
  /\ Router.matchPath routePath ("/" +:+ a) = Router.matchPath routePath a
  /\ Router.matchPath routePath (a +:+ "//" +:+ b)
     = Router.matchPath routePath (a +:+ "/" +:+ b)
  /\ Router.matchPath (a +:+ "/") routePath = Router.matchPath a routePath
  /\ Router.matchPath ("/" +:+ a) routePath = Router.matchPath a routePath
  /\ Router.matchPath (a +:+ "//" +:+ b) routePath
     = Router.matchPath (a +:+ "/" +:+ b) routePath.
Proof.
  assert (Router.parts (a +:+ "/") = Router.parts a) as Hend.
  { change (a +:+ "/") with (a +:+ String Router.slash "").
    by rewrite parts_app, parts_empty, app_nil_r. }
  assert (Router.parts ("/" +:+ a) = Router.parts a) as Hstart.
  { change ("/" +:+ a) with ("" +:+ String Router.slash a).
    by rewrite parts_app, parts_empty. }
  assert (Router.parts (a +:+ "//" +:+ b) = Router.parts (a +:+ "/" +:+ b)) as Hmid.
  { change (a +:+ "//" +:+ b)
      with (a +:+ String Router.slash ("" +:+ String Router.slash b)).
    change (a +:+ "/" +:+ b) with (a +:+ String Router.slash b).
    by rewrite !parts_app, parts_empty. }
  unfold Router.matchPath. by rewrite Hend, Hstart, Hmid.
Qed.

(** ** Path parameters *)

Section ParamFacts.
Import JS Http.

Lemma slice_1_param (name : string) : slice 1 (String ":" name) = name.
Proof. by destruct name. Qed.

Lemma startsWith_colon_cases (r : string) :
  startsWith r ":" = true /\ (exists name, r = String ":" name)
  \/ startsWith r ":" = false /\ (forall name, r <> String ":" name).
Proof.
  destruct (startsWith r ":") eqn:Hr.
  - left. split; [done|]. by apply startsWith_colon.
  - right. split; [done|]. intros name ->.
    assert (startsWith (String ":" name) ":" = true) by (apply startsWith_colon; by eexists).
    congruence.
Qed.

Lemma lookup_assign_ne (name name' : string) (value : option string)
    (params : gmap string (option string)) :
  name <> name' -> Router.assign name' value params !! name = params !! name.
Proof.
  intros Hne. unfold Router.assign. destruct (String.eqb name' "__proto__"); [done|].
  by apply lookup_insert_ne.
Qed.

Lemma lookup_assign_eq (name : string) (value : option string)
    (params : gmap string (option string)) :
  name <> "__proto__" -> Router.assign name value params !! name = Some value.
Proof.
  intros Hne. unfold Router.assign.
  destruct (String.eqb_spec name "__proto__"); [done|]. apply lookup_insert_eq.
Qed.

Lemma lookup_assign_proto (name : string) (value : option string)
    (params : gmap string (option string)) :
  Router.assign name value params !! "__proto__" = params !! "__proto__".
Proof.
  unfold Router.assign. destruct (String.eqb_spec name "__proto__") as [|Hne]; [done|].
  by apply lookup_insert_ne.
Qed.

(** A name that is no parameter of the rest of the pattern keeps the value
    it has. *)
Lemma getPathParams_loop_other (rs qs : list string)
    (params : gmap string (option string)) (name : string) :
  (forall i, rs !! i <> Some (String ":" name)) ->
  Router.getPathParams_loop rs qs params !! name = params !! name.
Proof.
  revert qs params. induction rs as [|r rs IH]; intros qs params Hnot; [done|].
  cbn [Router.getPathParams_loop].
  rewrite IH by (intros i; apply (Hnot (S i))).
  destruct (startsWith_colon_cases r) as [[-> [name' ->]]|[-> _]]; [|done].
  rewrite slice_1_param. apply lookup_assign_ne. intros ->. by apply (Hnot 0%nat).
Qed.

(** The name [__proto__] is never bound. *)
Lemma getPathParams_loop_proto (rs qs : list string)
    (params : gmap string (option string)) :
  Router.getPathParams_loop rs qs params !! "__proto__" = params !! "__proto__".
Proof.
  revert qs params. induction rs as [|r rs IH]; intros qs params; [done|].
  cbn [Router.getPathParams_loop]. rewrite IH.
  destruct (startsWith r ":"); [apply lookup_assign_proto|done].
Qed.

(** The last segment [:name] of the pattern decides the value of [name]. *)
Lemma getPathParams_loop_last (rs qs : list string)
    (params : gmap string (option string)) (name : string) (i : nat) :
  name <> "__proto__" ->
  rs !! i = Some (String ":" name) ->
  (forall j, i < j -> rs !! j <> Some (String ":" name)) ->
  Router.getPathParams_loop rs qs params !! name = Some (qs !! i).
Proof.
  intros Hname.
  revert qs params i. induction rs as [|r rs IH]; intros qs params i Hi Hlast; [done|].
  cbn [Router.getPathParams_loop]. destruct i as [|i].
  - injection Hi as ->.
    rewrite getPathParams_loop_other by (intros j; apply (Hlast (S j)); lia).
    assert (startsWith (String ":" name) ":" = true) as ->
      by (apply startsWith_colon; by eexists).
    rewrite slice_1_param, lookup_assign_eq by done. by destruct qs.
  - rewrite (IH (tail qs) _ i Hi) by (intros j Hj; apply (Hlast (S j)); lia).
    by destruct qs.
Qed.

End ParamFacts.

(** X2. [getPathParams] binds the parameter names of the pattern and nothing
    else.  A name other than [__proto__] that is a segment [:name] of the
    pattern is bound to the request segment at the position of the last such
    segment, or to [undefined] when the request has no segment there; a name
    that is no such segment is not a key of the result; and [__proto__] is
    never a key of the result, the assignment to it being ignored. *)
Theorem getPathParams_binds_the_parameters (routePath requestPath name : string) :
  (name <> "__proto__" ->
   forall i,
     Router.parts routePath !! i = Some (String ":" name) ->
     (forall j, i < j -> Router.parts routePath !! j <> Some (String ":" name)) ->
     Router.getPathParams routePath requestPath !! name
     = Some (Router.parts requestPath !! i))
  /\ ((forall i, Router.parts routePath !! i <> Some (String ":" name)) ->
      Router.getPathParams routePath requestPath !! name = None)
  /\ Router.getPathParams routePath requestPath !! "__proto__" = None.
Proof.
  unfold Router.getPathParams. split; [|split].
  - intros Hname i Hi Hlast. by apply getPathParams_loop_last.
  - intros Hnot. by rewrite getPathParams_loop_other.
  - by rewrite getPathParams_loop_proto.
Qed.

(** ** What the handlers answer *)

Section AnswerFacts.
Import JS Http Worker NotesController.

Ltac json_answer := unfold errorResponse; by eexists _, _, _.

Lemma login_answers rt bc randomUUID now request w :
  exists w' data status,
    AuthController.login rt bc randomUUID now request w
    = (w', Normal (jsonResponse data status)).
Proof.
  destruct (json request) as [body|e] eqn:Hbody;
    [|rewrite login_malformed by (right; by eexists); json_answer].
  destruct (null_or_not body) as [->|Hnull];
    [rewrite login_malformed by (by left); json_answer|].
  destruct (member_not_null "username" body Hnull) as [username Hu].
  destruct (member_not_null "password" body Hnull) as [password Hp].
  destruct (falsy_value username) eqn:Hut;
    [rewrite (login_invalid _ _ _ _ _ _ _ _ _ Hbody Hu Hp) by (by left); json_answer|].
  destruct (falsy_value password) eqn:Hpt;
    [rewrite (login_invalid _ _ _ _ _ _ _ _ _ Hbody Hu Hp) by (by right); json_answer|].
  destruct (falsy_value_false _ Hut) as (u & -> & _).
  rewrite (login_checked _ _ _ _ _ _ _ _ _ Hbody Hu Hp Hut Hpt).
  destruct (kv_key rt u) as [key|]; [|json_answer].
  destruct (valid_key key); cbn [negb]; [|json_answer].
  destruct (USERS w !! key) as [user|]; [|json_answer].
  destruct (AuthController.compare bc password (user_passwordHash user)) as [[]|];
    json_answer.
Qed.

Lemma register_answers rt bc salt idUUID tokenUUID createdAt now request w :
  exists w' data status,
    AuthController.register rt bc salt idUUID tokenUUID createdAt now request w
    = (w', Normal (jsonResponse data status)).
Proof.
  destruct (json request) as [body|e] eqn:Hbody;
    [|rewrite register_malformed by (right; by eexists); json_answer].
  destruct (null_or_not body) as [->|Hnull];
    [rewrite register_malformed by (by left); json_answer|].
  destruct (member_not_null "username" body Hnull) as [username Hu].
  destruct (member_not_null "password" body Hnull) as [password Hp].
  destruct (falsy_value username) eqn:Hut;
    [rewrite (register_invalid _ _ _ _ _ _ _ _ _ _ _ _ Hbody Hu Hp) by (by left);
     json_answer|].
  destruct (falsy_value password) eqn:Hpt;
    [rewrite (register_invalid _ _ _ _ _ _ _ _ _ _ _ _ Hbody Hu Hp) by (by right);
     json_answer|].
  destruct (falsy_value_false _ Hut) as (u & -> & _).
  destruct (length_less_than_truthy rt password 6 Hpt) as [short Hlen].
  rewrite (register_checked _ _ _ _ _ _ _ _ _ _ _ _ _ Hbody Hu Hp Hut Hpt Hlen).
  destruct short; [json_answer|].
  destruct (kv_key rt u) as [key|]; [|json_answer].
  destruct (valid_key key); cbn [negb]; [|json_answer].
  destruct (USERS w !! key) as [user|]; [json_answer|].
  destruct (AuthController.hash bc password 12 salt) as [passwordHash|]; [|json_answer].
  cbv zeta. destruct (user_fits rt _); json_answer.
Qed.

Lemma getNotes_answers request w :
  exists w' data status, getNotes request w = (w', Normal (jsonResponse data status)).
Proof.
  destruct (authenticateRequest_total request) as [[userId|] Hauth].
  - rewrite (getNotes_authenticated _ _ _ Hauth). destruct (forallb _ _); json_answer.
  - destruct (not_authenticated_401 request w (mkRuntime (fun _ => Throw TypeError)
                (fun _ _ => false) (fun _ => true) (fun _ => true)) "" 0 0 Hauth)
      as (-> & _).
    json_answer.
Qed.

Lemma createNote_answers rt randomUUID createdAt updatedAt request w :
  exists w' data status,
    createNote rt randomUUID createdAt updatedAt request w
    = (w', Normal (jsonResponse data status)).
Proof.
  destruct (authenticateRequest_total request) as [[userId|] Hauth].
  - rewrite (createNote_authenticated _ _ _ _ _ _ _ Hauth).
    destruct (json request) as [body|e]; [|json_answer].
    destruct (member "title" body) as [title|e]; [|json_answer].
    destruct (member "content" body) as [content|e]; [|json_answer].
    destruct (falsy_value title || falsy_value content); [json_answer|]. cbv zeta.
    destruct (valid_key _ && note_fits rt _); json_answer.
  - destruct (not_authenticated_401 request w rt randomUUID createdAt updatedAt Hauth)
      as (_ & -> & _).
    json_answer.
Qed.

Lemma updateNote_answers rt updatedAt request w :
  exists w' data status,
    updateNote rt updatedAt request w = (w', Normal (jsonResponse data status)).
Proof.
  destruct (authenticateRequest_total request) as [[userId|] Hauth].
  - destruct (falsy_cases (pop (split "/"%char (pathname request))))
      as [Hid|(noteId & Hid & Hidne)];
      [rewrite (updateNote_no_id _ _ _ _ _ Hauth Hid); json_answer|].
    rewrite (updateNote_authenticated _ _ _ _ _ _ Hauth Hid Hidne).
    destruct (json request) as [body|e]; [|json_answer].
    destruct (member "title" body) as [title|e]; [|json_answer].
    destruct (member "content" body) as [content|e]; [|json_answer].
    destruct (falsy_value title && falsy_value content); [json_answer|].
    destruct (negb (valid_key (noteKey userId noteId))); [json_answer|].
    destruct (NOTES w !! noteKey userId noteId) as [existing|]; [|json_answer].
    cbv zeta. destruct (note_fits rt _); json_answer.
  - destruct (not_authenticated_401 request w rt "" 0 updatedAt Hauth)
      as (_ & _ & -> & _).
    json_answer.
Qed.

Lemma deleteNote_answers request w :
  exists w' data status, deleteNote request w = (w', Normal (jsonResponse data status)).
Proof.
  destruct (authenticateRequest_total request) as [[userId|] Hauth].
  - destruct (falsy_cases (pop (split "/"%char (pathname request))))
      as [Hid|(noteId & Hid & Hidne)];
      [rewrite (deleteNote_no_id _ _ _ Hauth Hid); json_answer|].
    rewrite (deleteNote_authenticated _ _ _ _ Hauth Hid Hidne).
    destruct (negb (valid_key (noteKey userId noteId))); [json_answer|].
    destruct (NOTES w !! noteKey userId noteId); json_answer.
  - destruct (not_authenticated_401 request w (mkRuntime (fun _ => Throw TypeError)
                (fun _ _ => false) (fun _ => true) (fun _ => true)) "" 0 0 Hauth)
      as (_ & _ & _ & ->).
    json_answer.
Qed.

(** Every handler of the worker's routes resolves, and with the CORS header. *)
Lemma routes_answer_with_cors rt bc o request :
  Forall (fun route => forall w, exists w' response,
              Router.route_handler route request w = (w', Normal response) /\
              header "Access-Control-Allow-Origin" response = Some "*")
    (Index.routes rt bc o).
Proof.
  unfold Index.routes.
  repeat apply Forall_cons_2; try apply Forall_nil_2; cbn [Router.route_handler]; intros w.
  - destruct (login_answers rt bc (Index.uuid1 o) (Index.now1 o) request w)
      as (w' & d & s & ->). by eexists _, _.
  - destruct (register_answers rt bc (Index.salt o) (Index.uuid1 o) (Index.uuid2 o)
                (Index.now1 o) (Index.now2 o) request w) as (w' & d & s & ->).
    by eexists _, _.
  - destruct (getNotes_answers request w) as (w' & d & s & ->). by eexists _, _.
  - destruct (createNote_answers rt (Index.uuid1 o) (Index.now1 o) (Index.now2 o)
                request w) as (w' & d & s & ->).
    by eexists _, _.
  - destruct (updateNote_answers rt (Index.now1 o) request w) as (w' & d & s & ->).
    by eexists _, _.
  - destruct (deleteNote_answers request w) as (w' & d & s & ->). by eexists _, _.
  - by eexists _, _.
  - by eexists _, _.
Qed.

End AnswerFacts.

(** X3. No handler of the two controllers rejects: whatever the request, the
    stores, the runtime and the values drawn, [login], [register],
    [getNotes], [createNote], [updateNote] and [deleteNote] resolve with a
    response made by [jsonResponse], so with a JSON body,
    [Content-Type: application/json] and the CORS header. *)
Theorem controllers_always_answer_json
    (rt : Worker.Runtime) (bc : AuthController.Bcrypt)
    (salt idUUID tokenUUID randomUUID : string) (createdAt updatedAt now : N)
    (request : Http.Request) (w : Worker.World) :
  Forall (fun handler : Http.Request -> Worker.Eff Http.Response =>
            exists w' data status,
              handler request w = (w', JS.Normal (Http.jsonResponse data status)))
    [AuthController.login rt bc randomUUID now;
     AuthController.register rt bc salt idUUID tokenUUID createdAt now;
     NotesController.getNotes;
     NotesController.createNote rt randomUUID createdAt updatedAt;
     NotesController.updateNote rt updatedAt;
     NotesController.deleteNote].
Proof.
  repeat apply Forall_cons_2; try apply Forall_nil_2.
  - apply login_answers.
  - apply register_answers.
  - apply getNotes_answers.
  - apply createNote_answers.
  - apply updateNote_answers.
  - apply deleteNote_answers.
Qed.

(** X4. Every response of the worker carries
    [Access-Control-Allow-Origin: *]: the pre-flight answer, the answer of
    every route and the 404 of an unmatched request.  The router's own 500 is
    never sent for the worker's routes, no handler of them rejecting. *)
Theorem fetch_always_sends_cors
    (rt : Worker.Runtime) (bc : AuthController.Bcrypt) (o : Index.Oracle)
    (request : Http.Request) (w : Worker.World) :
  Http.header "Access-Control-Allow-Origin" (snd (Index.fetch rt bc o request w))
  = Some "*"
  /\ (Http.method request <> "OPTIONS" ->
      forall route,
        List.find (Router.route_matches request) (Index.routes rt bc o) = Some route ->
        exists w' response,
          Router.route_handler route request w = (w', JS.Normal response) /\
          Index.fetch rt bc o request w = (w', response)).
Proof.
  pose proof (routes_answer_with_cors rt bc o request) as Hroutes.
  rewrite Forall_forall in Hroutes.
  unfold Index.fetch, Router.handle. split.
  - destruct (String.eqb (Http.method request) "OPTIONS"); [done|].
    destruct (List.find _ _) as [route|] eqn:Hfind; [|done].
    apply find_some in Hfind as [Hin _]. apply list_elem_of_In in Hin.
    destruct (Hroutes route Hin w) as (w' & response & -> & Hcors). exact Hcors.
  - intros Hmethod route Hfind. rewrite (not_OPTIONS _ Hmethod), Hfind.
    apply find_some in Hfind as [Hin _]. apply list_elem_of_In in Hin.
    destruct (Hroutes route Hin w) as (w' & response & Hrun & _).
    rewrite Hrun. by eexists _, _.
Qed.

(** X5. A method of which the worker has no route is answered 404, whatever
    the path: there is no 405, and the stores are not touched. *)
Theorem fetch_unknown_method_is_404
    (rt : Worker.Runtime) (bc : AuthController.Bcrypt) (o : Index.Oracle)
    (request : Http.Request) (w : Worker.World) :
  Http.method request ∉ ["GET"; "POST"; "PUT"; "DELETE"; "OPTIONS"] ->
  Index.fetch rt bc o request w = (w, Router.not_found_response).
Proof.
  intros Hmethod.
  assert (forall m, m ∈ ["GET"; "POST"; "PUT"; "DELETE"; "OPTIONS"] ->
                    String.eqb m (Http.method request) = false) as Hne.
  { intros m Hm. apply String.eqb_neq. intros ->. by apply Hmethod. }
  unfold Index.fetch, Router.handle.
  rewrite String.eqb_sym, (Hne "OPTIONS") by set_solver.
  cbv [Index.routes Router.get Router.post Router.put Router.delete app List.find
       Router.route_matches Router.route_method].
  by rewrite (Hne "POST"), (Hne "GET"), (Hne "PUT"), (Hne "DELETE") by set_solver.
Qed.

(** ** The routes of a note *)

Section NoteRouteFacts.
Import JS Http Worker NotesController.

Ltac route_case Hm Hparts :=
  unfold Router.route_matches, Router.matchPath;
  cbn [Router.route_method Router.route_path];
  rewrite Hm, Hparts; reflexivity.

(** Which route a request for three segments [api], [notes], [<id>] finds *)
Lemma find_note_route rt bc o request (id : string) :
  Router.parts (pathname request) = ["api"; "notes"; id] ->
  (method request = "PUT" ->
   List.find (Router.route_matches request) (Index.routes rt bc o)
   = Some (Router.mkRoute "PUT" "/api/notes/:id" (updateNote rt (Index.now1 o))))
  /\ (method request = "DELETE" ->
      List.find (Router.route_matches request) (Index.routes rt bc o)
      = Some (Router.mkRoute "DELETE" "/api/notes/:id" deleteNote))
  /\ (method request = "GET" \/ method request = "POST" ->
      List.find (Router.route_matches request) (Index.routes rt bc o) = None).
Proof.
  intros Hparts. split; [|split].
  - intros Hm.
    eapply (find_first_match (Index.routes rt bc o)
              [_; _; _; _] _ [_; _; _] _ eq_refl); [|route_case Hm Hparts].
    repeat apply Forall_cons_2; try apply Forall_nil_2; route_case Hm Hparts.
  - intros Hm.
    eapply (find_first_match (Index.routes rt bc o)
              [_; _; _; _; _] _ [_; _] _ eq_refl); [|route_case Hm Hparts].
    repeat apply Forall_cons_2; try apply Forall_nil_2; route_case Hm Hparts.
  - intros [Hm|Hm]; apply find_no_match; unfold Index.routes;
      repeat apply Forall_cons_2; try apply Forall_nil_2; route_case Hm Hparts.
Qed.

Lemma fetch_found rt bc o request w route :
  method request <> "OPTIONS" ->
  List.find (Router.route_matches request) (Index.routes rt bc o) = Some route ->
  Index.fetch rt bc o request w =
    match Router.route_handler route request w with
    | (w', Normal response) => (w', response)
    | (w', Throw _) => (w', Router.handler_error_response)
    end.
Proof.
  intros Hm Hfind. unfold Index.fetch, Router.handle.
  by rewrite (not_OPTIONS _ Hm), Hfind.
Qed.

End NoteRouteFacts.

(** X6. The routes of one note.  For an id that is not empty and has no
    slash, a PUT of [/api/notes/<id>] is served by [updateNote] and a DELETE
    by [deleteNote], and the controller reads the same [<id>] off the path as
    its note id; a GET or a POST of that path has no route and is answered
    404. *)
Theorem fetch_note_by_id
    (rt : Worker.Runtime) (bc : AuthController.Bcrypt) (o : Index.Oracle)
    (request : Http.Request) (w : Worker.World) (id : string) :
  JS.contains "/"%char id = false ->
  id <> "" ->
  Http.pathname request = "/api/notes/" +:+ id ->
  JS.pop (JS.split "/"%char (Http.pathname request)) = Some id
  /\ (Http.method request = "PUT" ->
      exists w' response,
        NotesController.updateNote rt (Index.now1 o) request w
        = (w', JS.Normal response) /\
        Index.fetch rt bc o request w = (w', response))
  /\ (Http.method request = "DELETE" ->
      exists w' response,
        NotesController.deleteNote request w = (w', JS.Normal response) /\
        Index.fetch rt bc o request w = (w', response))
  /\ (Http.method request = "GET" \/ Http.method request = "POST" ->
      Index.fetch rt bc o request w = (w, Router.not_found_response)).
Proof.
  intros Hid Hne Hpath.
  destruct (parts_api_notes id Hid Hne) as [Hparts _]. rewrite <- Hpath in Hparts.
  destruct (find_note_route rt bc o request id Hparts) as (Hput & Hdelete & Hnone).
  split; [rewrite Hpath; by apply pop_api_notes|]. split; [|split].
  - intros Hm. rewrite (fetch_found rt bc o request w _) by (by rewrite ?Hm; auto).
    cbn [Router.route_handler].
    destruct (updateNote_answers rt (Index.now1 o) request w)
      as (w' & data & status & ->).
    by eexists _, _.
  - intros Hm. rewrite (fetch_found rt bc o request w _) by (by rewrite ?Hm; auto).
    cbn [Router.route_handler].
    destruct (deleteNote_answers request w) as (w' & data & status & ->).
    by eexists _, _.
  - intros Hm. unfold Index.fetch, Router.handle. rewrite (Hnone Hm).
    by destruct Hm as [-> | ->].
Qed.

(** X7. A slash after the id: the router still finds the route of
    [/api/notes/:id] for [/api/notes/<id>/], but the controller takes what
    follows the last slash, the empty text, as the note id.  An authenticated
    PUT or DELETE of such a path is answered 400, ["Note ID is required"],
    and nothing is stored or removed, whether the note exists or not. *)
Theorem fetch_note_with_trailing_slash
    (rt : Worker.Runtime) (bc : AuthController.Bcrypt) (o : Index.Oracle)
    (request : Http.Request) (w : Worker.World) (id userId : string) :
  JS.contains "/"%char id = false ->
  id <> "" ->
  Http.pathname request = "/api/notes/" +:+ id +:+ "/" ->
  Http.method request = "PUT" \/ Http.method request = "DELETE" ->
  NotesController.authenticateRequest request = JS.Normal (Some userId) ->
  Router.matchPath "/api/notes/:id" (Http.pathname request) = true
  /\ Index.fetch rt bc o request w
     = (w, Http.errorResponse "Note ID is required" 400).
Proof.
  intros Hid Hne Hpath Hm Hauth.
  destruct (parts_api_notes id Hid Hne) as [_ Hparts]. rewrite <- Hpath in Hparts.
  destruct (find_note_route rt bc o request id Hparts) as (Hput & Hdelete & _).
  assert (JS.falsy (JS.pop (JS.split "/"%char (Http.pathname request))) = true) as Hpop.
  { rewrite Hpath. destruct (pop_api_notes id Hid) as [_ ->]. reflexivity. }
  split.
  { unfold Router.matchPath. by rewrite Hparts. }
  destruct Hm as [Hm|Hm].
  - rewrite (fetch_found rt bc o request w _ ltac:(by rewrite Hm) (Hput Hm)).
    cbn [Router.route_handler]. by rewrite (updateNote_no_id _ _ _ _ _ Hauth Hpop).
  - rewrite (fetch_found rt bc o request w _ ltac:(by rewrite Hm) (Hdelete Hm)).
    cbn [Router.route_handler]. by rewrite (deleteNote_no_id _ _ _ Hauth Hpop).
Qed.


(** ** Creating, deleting and listing notes *)

Section NoteLifeFacts.
Import JS Http Worker NotesController Invariant.

Lemma insert_newest_first_sorted (a : Note) (sorted : list Note) :
  Sorted (fun x y => (note_updatedAt y <= note_updatedAt x)%N) sorted ->
  Sorted (fun x y => (note_updatedAt y <= note_updatedAt x)%N)
    (insert_newest_first a sorted).
Proof.
  induction 1 as [|b sorted Hsorted IH Hb]; cbn [insert_newest_first].
  - by repeat constructor.
  - destruct (N.leb_spec (note_updatedAt b) (note_updatedAt a)) as [Hle|Hlt].
    + by repeat constructor.
    + constructor; [done|].
      destruct Hb as [|c sorted' Hc]; cbn [insert_newest_first].
      * constructor. lia.
      * destruct (note_updatedAt c <=? note_updatedAt a)%N; constructor; (done || lia).
Qed.

Lemma sort_newest_first_sorted (notes : list Note) :
  StronglySorted (fun x y => (note_updatedAt y <= note_updatedAt x)%N)
    (sort_newest_first notes).
Proof.
  apply Sorted_StronglySorted.
  - intros x y z. lia.
  - induction notes as [|a notes IH]; [constructor|].
    by apply insert_newest_first_sorted.
Qed.

Lemma StronglySorted_lookup_lt {A} (R : relation A) (l : list A) (i j : nat) (a b : A) :
  StronglySorted R l -> i < j -> l !! i = Some a -> l !! j = Some b -> R a b.
Proof.
  intros Hl. revert i j. induction Hl as [|x l Hl IH Hx]; intros i j Hij Hi Hj; [done|].
  destruct j as [|j]; [lia|]. destruct i as [|i].
  - injection Hi as ->. rewrite Forall_forall in Hx.
    apply Hx. by apply list_elem_of_lookup_2 with j.
  - apply (IH i j); (done || lia).
Qed.

Lemma NoDup_omap_inj {A B} (f : A -> option B) (l : list A) :
  (forall x y z, x ∈ l -> y ∈ l -> f x = Some z -> f y = Some z -> x = y) ->
  NoDup l -> NoDup (omap f l).
Proof.
  intros Hinj Hl. induction Hl as [|x l Hx Hl IH]; [constructor|].
  cbn [omap list_omap].
  assert (NoDup (omap f l)) as Hrest.
  { apply IH. intros ? ? ? ? ?. apply Hinj; by constructor. }
  destruct (f x) as [z|] eqn:Hfx; [|done].
  constructor; [|done].
  intros (y & Hy & Hfy)%list_elem_of_omap.
  assert (x = y) as -> by (apply (Hinj x y z); (done || by constructor)).
  done.
Qed.

(** With no more than a page of keys under the prefix, the listing gives
    them all. *)
Lemma keys_with_prefix_complete {V} (prefix : string) (m : gmap string V) :
  length (matching_keys prefix m) <= list_limit ->
  keys_with_prefix prefix m ≡ₚ matching_keys prefix m.
Proof.
  intros Hlen. unfold keys_with_prefix.
  rewrite take_ge; [apply merge_sort_Permutation|].
  by rewrite merge_sort_Permutation.
Qed.

Lemma NoDup_keys_with_prefix {V} (prefix : string) (m : gmap string V) :
  NoDup (keys_with_prefix prefix m).
Proof.
  unfold keys_with_prefix. eapply sublist_NoDup; [|apply sublist_take].
  rewrite merge_sort_Permutation. apply NoDup_matching_keys.
Qed.

Lemma NoDup_listed_notes (userId : string) (w : World) :
  wf_world w -> NoDup (listed_notes userId w).
Proof.
  intros Hwf. unfold listed_notes.
  apply NoDup_omap_inj; [|apply NoDup_keys_with_prefix].
  intros k1 k2 n _ _ H1 H2.
  destruct (Hwf _ _ H1) as ((-> & _) & _). by destruct (Hwf _ _ H2) as ((-> & _) & _).
Qed.

End NoteLifeFacts.

(** X8. What [getNotes] lists.  In a world that keeps the invariant of the
    notes namespace, and for a user with no more than one page of notes,
    the answer is 200 with every note the user owns, each once, and no other
    note, and the notes come newest first: a note is never followed by one
    of a later [updatedAt].  The store is not changed. *)
Theorem getNotes_lists_all_newest_first
    (w : Worker.World) (request : Http.Request) (userId : string) :
  Invariant.wf_world w ->
  NotesController.authenticateRequest request = JS.Normal (Some userId) ->
  length (Worker.matching_keys (NotesController.userNotesKey userId) (Worker.NOTES w))
  <= Worker.list_limit ->
  exists notes,
    NotesController.getNotes request w
    = (w, JS.Normal (Http.jsonResponse
                       (Http.JObj [("notes",
                                    Http.JArr (NotesController.note_json <$> notes))])
                       200)) /\
    (forall n, n ∈ notes <->
               (exists key, Worker.NOTES w !! key = Some n) /\
               Worker.note_userId n = userId) /\
    NoDup notes /\
    (forall i j a b,
        i < j -> notes !! i = Some a -> notes !! j = Some b ->
        (Worker.note_updatedAt b <= Worker.note_updatedAt a)%N).
Proof.
  intros Hwf Hauth Hpage.
  destruct (authenticateRequest_Some _ _ Hauth) as [Hne Hcolon].
  exists (NotesController.sort_newest_first (NotesController.listed_notes userId w)).
  split; [by apply getNotes_wf|]. split; [|split].
  - intros n. rewrite sort_newest_first_perm. split.
    + intros Hn. split; [|by apply (listed_notes_owner w userId n)].
      apply elem_of_listed_notes in Hn as (key & _ & Hkey). by exists key.
    + intros [[key Hkey] Hown]. unfold NotesController.listed_notes.
      apply list_elem_of_omap. exists key. split; [|done].
      rewrite (keys_with_prefix_complete _ _ Hpage). apply elem_of_matching_keys.
      split; [|by eexists].
      destruct (Hwf _ _ Hkey) as ((-> & _) & _). rewrite Hown.
      apply noteKey_has_prefix.
  - rewrite sort_newest_first_perm. by apply NoDup_listed_notes.
  - intros i j a b Hij Ha Hb.
    apply (StronglySorted_lookup_lt _ _ i j a b
             (sort_newest_first_sorted (NotesController.listed_notes userId w)));
      done.
Qed.

(** X9. What [createNote] does for an authenticated user.  A body that is
    [null] or no JSON is answered 500.  Otherwise, when the title or the
    content is missing (absent, [null], empty or otherwise falsy) the answer
    is 400.  Otherwise the new note is owned by the user, bears the drawn
    id, the title and the content of the body, and as [createdAt] and
    [updatedAt] what the clock showed at the two reads; when its key is one
    the KV binding accepts and the note is within the size of a KV value,
    the answer is 201 with the note, which is stored under the user's key of
    that id, replacing whatever was there, and no other key and no user
    record is changed; when not, the answer is 500.  Only the 201 stores
    anything. *)
Theorem createNote_contract
    (rt : Worker.Runtime) (randomUUID : string) (createdAt updatedAt : N)
    (request : Http.Request) (w : Worker.World) (userId : string) :
  NotesController.authenticateRequest request = JS.Normal (Some userId) ->
  let outcome :=
    NotesController.createNote rt randomUUID createdAt updatedAt request w in
  let key := NotesController.noteKey userId randomUUID in
  let internal := (w, JS.Normal (Http.errorResponse "Internal server error" 500)) in
  (Http.json request = JS.Normal JS.VNull \/ (exists e, Http.json request = JS.Throw e) ->
   outcome = internal)
  /\ (forall body title content,
        Http.json request = JS.Normal body ->
        JS.member "title" body = JS.Normal title ->
        JS.member "content" body = JS.Normal content ->
        (JS.falsy_value title = true \/ JS.falsy_value content = true ->
         outcome
         = (w, JS.Normal (Http.errorResponse "Title and content are required" 400)))
        /\ (forall t c,
              title = Some t -> content = Some c ->
              JS.falsy_value title = false -> JS.falsy_value content = false ->
              let note := {| Worker.note_id := randomUUID;
                             Worker.note_userId := userId;
                             Worker.note_title := t;
                             Worker.note_content := c;
                             Worker.note_createdAt := createdAt;
                             Worker.note_updatedAt := updatedAt |} in
              (Worker.valid_key key = false \/ Worker.note_fits rt note = false ->
               outcome = internal)
              /\ (Worker.valid_key key = true -> Worker.note_fits rt note = true ->
                  exists w',
                    outcome
                    = (w', JS.Normal
                             (Http.jsonResponse
                                (Http.JObj [("note", NotesController.note_json note)])
                                201)) /\
                    Worker.NOTES w' !! key = Some (Worker.stored_note note) /\
                    (forall key', key' <> key ->
                                  Worker.NOTES w' !! key' = Worker.NOTES w !! key') /\
                    Worker.USERS w' = Worker.USERS w))).
Proof.
  intros Hauth outcome key internal.
  pose proof (createNote_authenticated rt randomUUID createdAt updatedAt request w
                userId Hauth) as Hrun.
  fold outcome key in Hrun. split.
  { intros [Hbody|[e Hbody]]; by rewrite Hrun, Hbody. }
  intros body title content Hbody Ht Hc. rewrite Hbody, Ht, Hc in Hrun. split.
  - intros Hmissing. rewrite Hrun.
    by destruct Hmissing as [-> | ->]; rewrite ?orb_true_r.
  - intros t c -> -> Htt Hct note. rewrite Htt, Hct in Hrun.
    cbn [orb from_option id] in Hrun. cbv zeta in Hrun. fold note in Hrun. split.
    + intros Hbad. rewrite Hrun.
      by destruct Hbad as [-> | ->]; rewrite ?andb_false_r.
    + intros Hvalid Hfits. rewrite Hvalid, Hfits in Hrun. cbn [andb] in Hrun.
      eexists. split; [exact Hrun|]. cbn.
      split; [apply lookup_insert_eq|].
      split; [intros key' Hkey'; by apply lookup_insert_ne|done].
Qed.

(** X10. Deleting a note twice.  For an authenticated user and the id of a
    note the user owns (stored, so under a key the KV binding accepts),
    [deleteNote] answers 200 and removes that key and no other; the same
    request again is answered 404 and changes nothing. *)
Theorem deleteNote_twice
    (request : Http.Request) (w : Worker.World) (userId noteId : string)
    (existing : Worker.Note) :
  NotesController.authenticateRequest request = JS.Normal (Some userId) ->
  JS.pop (JS.split "/"%char (Http.pathname request)) = Some noteId ->
  noteId <> "" ->
  Worker.valid_key (NotesController.noteKey userId noteId) = true ->
  Worker.NOTES w !! NotesController.noteKey userId noteId = Some existing ->
  exists w1,
    NotesController.deleteNote request w
    = (w1, JS.Normal (Http.jsonResponse
                        (Http.JObj [("message", Http.JStr "Note deleted successfully")])
                        200)) /\
    Worker.NOTES w1 !! NotesController.noteKey userId noteId = None /\
    (forall key, key <> NotesController.noteKey userId noteId ->
                 Worker.NOTES w1 !! key = Worker.NOTES w !! key) /\
    Worker.USERS w1 = Worker.USERS w /\
    NotesController.deleteNote request w1
    = (w1, JS.Normal (Http.errorResponse "Note not found" 404)).
Proof.
  intros Hauth Hid Hne Hvalid Hex.
  eexists. split.
  { by rewrite (deleteNote_authenticated _ _ _ _ Hauth Hid Hne), Hvalid, Hex. }
  cbn. split; [apply lookup_delete_eq|].
  split; [intros key Hkey; by apply lookup_delete_ne|]. split; [done|].
  rewrite (deleteNote_authenticated _ _ _ _ Hauth Hid Hne), Hvalid. cbn.
  by rewrite lookup_delete_eq.
Qed.

(** X11. Creating a note and deleting it by its id gives back the stores as
    they were, when the drawn id was not in use by the user: a 201 of
    [createNote] is followed by a 200 of [deleteNote]. *)
Theorem createNote_then_deleteNote
    (rt : Worker.Runtime) (randomUUID : string) (createdAt updatedAt : N)
    (createRequest deleteRequest : Http.Request)
    (w w1 : Worker.World) (userId : string) (created : Http.Response) :
  NotesController.authenticateRequest createRequest = JS.Normal (Some userId) ->
  NotesController.authenticateRequest deleteRequest = JS.Normal (Some userId) ->
  JS.pop (JS.split "/"%char (Http.pathname deleteRequest)) = Some randomUUID ->
  randomUUID <> "" ->
  Worker.NOTES w !! NotesController.noteKey userId randomUUID = None ->
  NotesController.createNote rt randomUUID createdAt updatedAt createRequest w
  = (w1, JS.Normal created) ->
  Http.status created = 201%N ->
  NotesController.deleteNote deleteRequest w1
  = (w, JS.Normal (Http.jsonResponse
                     (Http.JObj [("message", Http.JStr "Note deleted successfully")])
                     200)).
Proof.
  intros Hcreate Hdelete Hid Hne Hfresh Hrun Hstatus.
  rewrite (createNote_authenticated _ _ _ _ _ _ _ Hcreate) in Hrun.
  rewrite (deleteNote_authenticated _ _ _ _ Hdelete Hid Hne).
  destruct (Http.json createRequest) as [body|e];
    [|injection Hrun as <- <-; discriminate Hstatus].
  destruct (JS.member "title" body) as [title|e];
    [|injection Hrun as <- <-; discriminate Hstatus].
  destruct (JS.member "content" body) as [content|e];
    [|injection Hrun as <- <-; discriminate Hstatus].
  destruct (JS.falsy_value title || JS.falsy_value content);
    [injection Hrun as <- <-; discriminate Hstatus|].
  cbv zeta in Hrun.
  destruct (Worker.valid_key (NotesController.noteKey userId randomUUID)) eqn:Hvalid;
    cbn [andb] in Hrun; [|injection Hrun as <- <-; discriminate Hstatus].
  destruct (Worker.note_fits rt _);
    [|injection Hrun as <- <-; discriminate Hstatus].
  injection Hrun as <- <-. cbn [negb Worker.NOTES Worker.USERS].
  rewrite lookup_insert_eq. rewrite delete_insert_eq, (delete_id _ _ Hfresh).
  by destruct w.
Qed.

(** X12. A body that is not JSON is answered 500, ["Internal server error"],
    not 400, and nothing is stored: by [login] and [register] always, by
    [createNote] for an authenticated user, by [updateNote] for an
    authenticated user and a path that ends in a note id.  [deleteNote] does
    not read the body. *)
Theorem malformed_body_is_500
    (rt : Worker.Runtime) (bc : AuthController.Bcrypt)
    (salt idUUID tokenUUID randomUUID : string) (createdAt updatedAt now : N)
    (request : Http.Request) (w : Worker.World) (e : JS.JsError) :
  Http.json request = JS.Throw e ->
  let internal := (w, JS.Normal (Http.errorResponse "Internal server error" 500)) in
  AuthController.login rt bc randomUUID now request w = internal
  /\ AuthController.register rt bc salt idUUID tokenUUID createdAt now request w
     = internal
  /\ (forall userId,
        NotesController.authenticateRequest request = JS.Normal (Some userId) ->
        NotesController.createNote rt randomUUID createdAt updatedAt request w
        = internal /\
        (JS.falsy (JS.pop (JS.split "/"%char (Http.pathname request))) = false ->
         NotesController.updateNote rt updatedAt request w = internal))
  /\ (forall request',
        Http.method request' = Http.method request ->
        Http.pathname request' = Http.pathname request ->
        Http.authorization request' = Http.authorization request ->
        NotesController.deleteNote request' w = NotesController.deleteNote request w).
Proof.
  intros Hbody internal. subst internal.
  split; [unfold AuthController.login; eff_unfold; by rewrite Hbody|].
  split; [unfold AuthController.register; eff_unfold; by rewrite Hbody|].
  split.
  - intros userId Hauth. split.
    + unfold NotesController.createNote. eff_unfold. by rewrite Hauth, Hbody.
    + intros Hid. unfold NotesController.updateNote. eff_unfold.
      by rewrite Hauth, Hid, Hbody.
  - intros request' Hm Hp Ha.
    unfold NotesController.deleteNote, NotesController.authenticateRequest. eff_unfold.
    by rewrite Hp, Ha.
Qed.

(** ** Registering and logging in *)

Section AccountFacts.
Import JS Http Base64 Worker NotesController AuthController.

(** A token made for a well-formed id authenticates as that id. *)
Lemma issued_token_authenticates (userId rest : string) (request : Request) :
  userId <> "" -> contains colon userId = false ->
  authorization request = Some ("Bearer " +:+ btoa (userId +:+ String colon rest)) ->
  authenticateRequest request = Normal (Some userId).
Proof.
  intros Hne Hcolon Hauth.
  rewrite (authenticateRequest_bearer _ _ Hauth), atob_btoa. cbv zeta.
  rewrite (first_split_app _ _ _ Hcolon). cbn [falsy].
  by destruct (String.eqb_spec userId "").
Qed.

(** What [register] does with a username and a password that are strings,
    the password of six characters or more. *)
Lemma register_strings rt bc salt idUUID tokenUUID createdAt now request w
    body username password :
  json request = Normal body ->
  member "username" body = Normal (Some (VStr username)) -> username <> "" ->
  member "password" body = Normal (Some (VStr password)) ->
  (6 <= String.length password)%nat ->
  valid_key username = true ->
  register rt bc salt idUUID tokenUUID createdAt now request w =
    match USERS w !! username with
    | Some _ => (w, Normal (errorResponse "Username already exists" 409))
    | None =>
        let user := {| user_id := idUUID;
                       user_username := VStr username;
                       user_passwordHash := bcrypt_hash bc password 12 salt;
                       user_createdAt := createdAt |} in
        if user_fits rt user
        then ({| NOTES := NOTES w; USERS := <[username := user]> (USERS w) |},
              Normal (jsonResponse
                        (auth_json
                           (btoa (idUUID +:+
                                  String colon (timestamp_string now
                                                +:+ String colon tokenUUID)))
                           user)
                        201))
        else (w, Normal (errorResponse "Internal server error" 500))
    end.
Proof.
  intros Hbody Hu Hune Hp Hlen Hvalid.
  assert (password <> "") as Hpne by (intros ->; simpl in Hlen; lia).
  rewrite (register_checked _ _ _ _ _ _ _ _ _ _ _ _ false Hbody Hu Hp
             (falsy_value_str _ Hune) (falsy_value_str _ Hpne)).
  - cbn [kv_key hash]. rewrite Hvalid. cbn [negb].
    destruct (USERS w !! username); [done|]. cbv zeta.
    by destruct (user_fits rt _).
  - cbn [length_less_than]. by destruct (Nat.ltb_spec (String.length password) 6); [lia|].
Qed.

(** What [login] does with a username and a password that are strings. *)
Lemma login_strings rt bc randomUUID now request w body username password :
  json request = Normal body ->
  member "username" body = Normal (Some (VStr username)) -> username <> "" ->
  member "password" body = Normal (Some (VStr password)) -> password <> "" ->
  valid_key username = true ->
  login rt bc randomUUID now request w =
    match USERS w !! username with
    | None => (w, Normal (errorResponse "Invalid credentials" 401))
    | Some user =>
        match bcrypt_compare bc password (user_passwordHash user) with
        | Throw _ => (w, Normal (errorResponse "Internal server error" 500))
        | Normal false => (w, Normal (errorResponse "Invalid credentials" 401))
        | Normal true =>
            (w, Normal (jsonResponse
                          (auth_json
                             (btoa (user_id user +:+
                                    String colon (timestamp_string now
                                                  +:+ String colon randomUUID)))
                             user)
                          200))
        end
    end.
Proof.
  intros Hbody Hu Hune Hp Hpne Hvalid.
  rewrite (login_checked _ _ _ _ _ _ _ _ _ Hbody Hu Hp
             (falsy_value_str _ Hune) (falsy_value_str _ Hpne)).
  cbn [kv_key compare]. rewrite Hvalid. cbn [negb].
  destruct (USERS w !! username) as [user|]; [|done].
  by destruct (bcrypt_compare bc password (user_passwordHash user)) as [[]|].
Qed.

End AccountFacts.

(** X13. Register, then log in.  Take a username that is a string the KV
    binding accepts as a key and has no record, and a password that is a
    string of six characters or more; let the record be within the size of a
    KV value, and the hash function accept the password it has hashed.  Then
    the registration succeeds, and a login with the same username and
    password succeeds after it: 200 with a token and the user as registered.
    The token of the registration and the token of the login both
    authenticate as the id of the new user (an id that is not empty and has
    no colon, as a UUID is). *)
Theorem register_then_login
    (rt : Worker.Runtime) (bc : AuthController.Bcrypt)
    (salt idUUID tokenUUID loginUUID : string) (createdAt now later : N)
    (registerRequest loginRequest : Http.Request)
    (w : Worker.World) (registerBody loginBody : JS.Value)
    (username password : string) :
  Http.json registerRequest = JS.Normal registerBody ->
  Http.json loginRequest = JS.Normal loginBody ->
  JS.member "username" registerBody = JS.Normal (Some (JS.VStr username)) ->
  JS.member "username" loginBody = JS.Normal (Some (JS.VStr username)) ->
  JS.member "password" registerBody = JS.Normal (Some (JS.VStr password)) ->
  JS.member "password" loginBody = JS.Normal (Some (JS.VStr password)) ->
  username <> "" ->
  (6 <= String.length password)%nat ->
  Worker.valid_key username = true ->
  Worker.USERS w !! username = None ->
  Worker.user_fits rt
    {| Worker.user_id := idUUID;
       Worker.user_username := JS.VStr username;
       Worker.user_passwordHash := AuthController.bcrypt_hash bc password 12 salt;
       Worker.user_createdAt := createdAt |} = true ->
  AuthController.bcrypt_compare bc password
    (AuthController.bcrypt_hash bc password 12 salt) = JS.Normal true ->
  idUUID <> "" ->
  JS.contains NotesController.colon idUUID = false ->
  exists w1 user token1 token2,
    AuthController.register rt bc salt idUUID tokenUUID createdAt now registerRequest w
    = (w1, JS.Normal (Http.jsonResponse (AuthController.auth_json token1 user) 201)) /\
    AuthController.login rt bc loginUUID later loginRequest w1
    = (w1, JS.Normal (Http.jsonResponse (AuthController.auth_json token2 user) 200)) /\
    Worker.user_id user = idUUID /\
    Worker.user_username user = JS.VStr username /\
    forall request,
      Http.authorization request = Some ("Bearer " +:+ token1) \/
      Http.authorization request = Some ("Bearer " +:+ token2) ->
      NotesController.authenticateRequest request = JS.Normal (Some idUUID).
Proof.
  intros Hrb Hlb Hru Hlu Hrp Hlp Hune Hlen Hvalid Hfree Hfits Hbcrypt Hne Hcolon.
  assert (password <> "") as Hpne by (intros ->; simpl in Hlen; lia).
  eexists _, _, _, _. split.
  { rewrite (register_strings _ _ _ _ _ _ _ _ _ _ _ _ Hrb Hru Hune Hrp Hlen Hvalid),
      Hfree.
    cbv zeta. rewrite Hfits. reflexivity. }
  split.
  { rewrite (login_strings _ _ _ _ _ _ _ _ _ Hlb Hlu Hune Hlp Hpne Hvalid).
    cbn [Worker.USERS]. rewrite lookup_insert_eq.
    cbn [Worker.user_passwordHash]. rewrite Hbcrypt. reflexivity. }
  split; [reflexivity|]. split; [reflexivity|].
  intros request [Hauth|Hauth];
    by apply (issued_token_authenticates idUUID _ request Hne Hcolon Hauth).
Qed.

(** X14. Registering a username twice.  After a registration that succeeds
    (a username that is a string the KV binding accepts as a key, a password
    that is a string of six characters or more, a record within the size of a
    KV value), every registration of the same username after it, with any
    such password, is answered 409 and leaves the stored record as it is. *)
Theorem register_twice_is_409
    (rt : Worker.Runtime) (bc : AuthController.Bcrypt)
    (salt idUUID tokenUUID salt' idUUID' tokenUUID' : string)
    (createdAt now createdAt' now' : N) (first second : Http.Request)
    (w : Worker.World) (body body' : JS.Value) (username password password' : string) :
  Http.json first = JS.Normal body ->
  Http.json second = JS.Normal body' ->
  JS.member "username" body = JS.Normal (Some (JS.VStr username)) ->
  JS.member "username" body' = JS.Normal (Some (JS.VStr username)) ->
  username <> "" ->
  JS.member "password" body = JS.Normal (Some (JS.VStr password)) ->
  (6 <= String.length password)%nat ->
  JS.member "password" body' = JS.Normal (Some (JS.VStr password')) ->
  (6 <= String.length password')%nat ->
  Worker.valid_key username = true ->
  Worker.USERS w !! username = None ->
  Worker.user_fits rt
    {| Worker.user_id := idUUID;
       Worker.user_username := JS.VStr username;
       Worker.user_passwordHash := AuthController.bcrypt_hash bc password 12 salt;
       Worker.user_createdAt := createdAt |} = true ->
  exists w1 created user,
    AuthController.register rt bc salt idUUID tokenUUID createdAt now first w
    = (w1, JS.Normal created) /\
    Http.status created = 201%N /\
    Worker.USERS w1 !! username = Some user /\
    Worker.user_id user = idUUID /\
    AuthController.register rt bc salt' idUUID' tokenUUID' createdAt' now' second w1
    = (w1, JS.Normal (Http.errorResponse "Username already exists" 409)).
Proof.
  intros Hb Hb' Hu Hu' Hune Hp Hlen Hp' Hlen' Hvalid Hfree Hfits.
  eexists _, _, _. split.
  { rewrite (register_strings _ _ _ _ _ _ _ _ _ _ _ _ Hb Hu Hune Hp Hlen Hvalid), Hfree.
    cbv zeta. rewrite Hfits. reflexivity. }
  split; [reflexivity|]. cbn [Worker.USERS].
  split; [apply lookup_insert_eq|]. split; [reflexivity|].
  rewrite (register_strings _ _ _ _ _ _ _ _ _ _ _ _ Hb' Hu' Hune Hp' Hlen' Hvalid).
  cbn [Worker.USERS]. by rewrite lookup_insert_eq.
Qed.

(** X15. What [login] does.  It never writes: whatever it answers, both
    stores are as before, so the token it issues is recorded nowhere.  A
    body that is [null] or no JSON is answered 500.  Any other body without
    a username or a password (absent, [null], empty or otherwise falsy) is
    answered 400.  For a stored user, found under a username that is a
    string, whose password is a string that passes the hash check the answer
    is 200 with [{token, user: {id, username, createdAt}}], where the token
    is the base64 text of [<id>:<clock>:<uuid>]; the data has no
    [passwordHash] key when the stored username holds none. *)
Theorem login_contract
    (rt : Worker.Runtime) (bc : AuthController.Bcrypt) (randomUUID : string) (now : N)
    (request : Http.Request) (w : Worker.World) :
  fst (AuthController.login rt bc randomUUID now request w) = w
  /\ (Http.json request = JS.Normal JS.VNull
      \/ (exists e, Http.json request = JS.Throw e) ->
      snd (AuthController.login rt bc randomUUID now request w)
      = JS.Normal (Http.errorResponse "Internal server error" 500))
  /\ (forall body username password,
        Http.json request = JS.Normal body ->
        JS.member "username" body = JS.Normal username ->
        JS.member "password" body = JS.Normal password ->
        JS.falsy_value username = true \/ JS.falsy_value password = true ->
        snd (AuthController.login rt bc randomUUID now request w)
        = JS.Normal (Http.errorResponse "Username and password are required" 400))
  /\ (forall body username password user,
        Http.json request = JS.Normal body ->
        JS.member "username" body = JS.Normal (Some (JS.VStr username)) ->
        username <> "" ->
        JS.member "password" body = JS.Normal (Some (JS.VStr password)) ->
        password <> "" ->
        Worker.valid_key username = true ->
        Worker.USERS w !! username = Some user ->
        AuthController.bcrypt_compare bc password (Worker.user_passwordHash user)
        = JS.Normal true ->
        exists token,
          token = Base64.btoa (Worker.user_id user +:+ ":" +:+
                               AuthController.timestamp_string now
                               +:+ ":" +:+ randomUUID) /\
          snd (AuthController.login rt bc randomUUID now request w)
          = JS.Normal
              (Http.jsonResponse
                 (Http.JObj
                    [("token", Http.JStr token);
                     ("user", Http.JObj
                                [("id", Http.JStr (Worker.user_id user));
                                 ("username", Http.JVal (Worker.user_username user));
                                 ("createdAt", Http.JDate (Worker.user_createdAt user))])])
                 200) /\
          (Http.value_has_key "passwordHash" (Worker.user_username user) = false ->
           Http.has_key "passwordHash" (AuthController.auth_json token user) = false)).
Proof.
  split; [apply login_world|]. split; [|split].
  - intros Hbad. by rewrite (login_malformed _ _ _ _ _ _ Hbad).
  - intros body username password Hbody Hu Hp Hmissing.
    by rewrite (login_invalid _ _ _ _ _ _ _ _ _ Hbody Hu Hp Hmissing).
  - intros body username password user Hbody Hu Hune Hp Hpne Hvalid Huser Hok.
    rewrite (login_strings _ _ _ _ _ _ _ _ _ Hbody Hu Hune Hp Hpne Hvalid), Huser, Hok.
    eexists. split; [reflexivity|]. split; [reflexivity|].
    apply auth_json_no_hash.
Qed.

(** ** The key invariants of the two stores *)

Section InvariantFacts.
Import JS Http Worker NotesController Invariant Accounts.

Lemma wf_getNotes (request : Request) (w : World) :
  fst (getNotes request w) = w.
Proof.
  destruct (authenticateRequest_total request) as [[userId|] Hauth].
  - rewrite (getNotes_authenticated _ _ _ Hauth). by destruct (forallb _ _).
  - unfold getNotes. eff_unfold. by rewrite Hauth.
Qed.

Lemma wf_createNote (rt : Runtime) (randomUUID : string) (createdAt updatedAt : N)
    (request : Request) (w : World) :
  let w' := fst (createNote rt randomUUID createdAt updatedAt request w) in
  (wf_world w -> wf_world w') /\ USERS w' = USERS w.
Proof.
  destruct (authenticateRequest_total request) as [[userId|] Hauth];
    [|by destruct (not_authenticated_401 request w rt randomUUID createdAt updatedAt
                     Hauth) as (_ & -> & _)].
  rewrite (createNote_authenticated _ _ _ _ _ _ _ Hauth).
  destruct (json request) as [body|e]; [|done].
  destruct (member "title" body) as [title|e]; [|done].
  destruct (member "content" body) as [content|e]; [|done].
  destruct (falsy_value title || falsy_value content); [done|]. cbv zeta.
  destruct (valid_key (noteKey userId randomUUID)) eqn:Hvalid; cbn [andb]; [|done].
  destruct (note_fits rt _); [|done].
  cbn [fst]. split; [|done]. intros Hwf key n. cbn [NOTES].
  destruct (decide (key = noteKey userId randomUUID)) as [->|Hkey].
  - rewrite lookup_insert_eq. intros [= <-]. cbn.
    destruct (authenticateRequest_Some _ _ Hauth) as [Hne Hcolon].
    by repeat split.
  - rewrite lookup_insert_ne by done. apply Hwf.
Qed.

Lemma wf_updateNote (rt : Runtime) (updatedAt : N) (request : Request) (w : World) :
  let w' := fst (updateNote rt updatedAt request w) in
  (wf_world w -> wf_world w') /\ USERS w' = USERS w.
Proof.
  destruct (authenticateRequest_total request) as [[userId|] Hauth];
    [|by destruct (not_authenticated_401 request w rt "" 0 updatedAt Hauth)
        as (_ & _ & -> & _)].
  destruct (falsy_cases (pop (split "/"%char (pathname request))))
    as [Hid|(noteId & Hid & Hne)];
    [by rewrite (updateNote_no_id _ _ _ _ _ Hauth Hid)|].
  rewrite (updateNote_authenticated _ _ _ _ _ _ Hauth Hid Hne).
  destruct (json request) as [body|e]; [|done].
  destruct (member "title" body) as [title|e]; [|done].
  destruct (member "content" body) as [content|e]; [|done].
  destruct (falsy_value title && falsy_value content); [done|].
  destruct (negb (valid_key (noteKey userId noteId))); [done|].
  destruct (NOTES w !! noteKey userId noteId) as [existing|] eqn:Hex; [|done].
  cbv zeta. destruct (note_fits rt _); [|done].
  cbn [fst]. split; [|done]. intros Hwf key n. cbn [NOTES].
  destruct (Hwf _ _ Hex) as ((Hk & Hu & Hc) & Hvalid).
  destruct (decide (key = noteKey userId noteId)) as [->|Hkey].
  - rewrite lookup_insert_eq. intros [= <-]. cbn. by repeat split.
  - rewrite lookup_insert_ne by done. apply Hwf.
Qed.

Lemma wf_deleteNote (request : Request) (w : World) :
  let w' := fst (deleteNote request w) in
  (wf_world w -> wf_world w') /\ USERS w' = USERS w.
Proof.
  destruct (authenticateRequest_total request) as [[userId|] Hauth];
    [|unfold deleteNote; eff_unfold; by rewrite Hauth].
  destruct (falsy_cases (pop (split "/"%char (pathname request))))
    as [Hid|(noteId & Hid & Hne)]; [by rewrite (deleteNote_no_id _ _ _ Hauth Hid)|].
  rewrite (deleteNote_authenticated _ _ _ _ Hauth Hid Hne).
  destruct (negb (valid_key (noteKey userId noteId))); [done|].
  destruct (NOTES w !! noteKey userId noteId) as [existing|] eqn:Hex; [|done].
  cbn [fst]. split; [|done]. intros Hwf key n. cbn [NOTES].
  intros [_ Hn]%lookup_delete_Some. by apply Hwf.
Qed.

(** [register] leaves the notes alone and keeps the users under their keys. *)
Lemma register_keeps rt bc salt idUUID tokenUUID createdAt now request w :
  let w' := fst (AuthController.register rt bc salt idUUID tokenUUID createdAt now
                   request w) in
  NOTES w' = NOTES w /\ (users_keyed rt w -> users_keyed rt w').
Proof.
  destruct (json request) as [body|e] eqn:Hbody;
    [|by rewrite register_malformed by (right; by eexists)].
  destruct (null_or_not body) as [->|Hnull];
    [by rewrite register_malformed by by left|].
  destruct (member_not_null "username" body Hnull) as [username Hu].
  destruct (member_not_null "password" body Hnull) as [password Hp].
  destruct (falsy_value username) eqn:Hut;
    [by rewrite (register_invalid _ _ _ _ _ _ _ _ _ _ _ _ Hbody Hu Hp) by by left|].
  destruct (falsy_value password) eqn:Hpt;
    [by rewrite (register_invalid _ _ _ _ _ _ _ _ _ _ _ _ Hbody Hu Hp) by by right|].
  destruct (falsy_value_false _ Hut) as (u & -> & _).
  destruct (length_less_than_truthy rt password 6 Hpt) as [short Hlen].
  rewrite (register_checked _ _ _ _ _ _ _ _ _ _ _ _ _ Hbody Hu Hp Hut Hpt Hlen).
  destruct short; [done|].
  destruct (kv_key rt u) as [key|] eqn:Hkey; [|done].
  destruct (valid_key key) eqn:Hvalid; cbn [negb]; [|done].
  destruct (USERS w !! key) as [user|]; [done|].
  destruct (AuthController.hash bc password 12 salt) as [passwordHash|]; [|done].
  cbv zeta. destruct (user_fits rt _); [|done].
  cbn [fst]. split; [done|]. intros Hkeyed key' u'. cbn [USERS].
  destruct (decide (key' = key)) as [->|Hne].
  - rewrite lookup_insert_eq. intros [= <-]. split; [done|]. by exists u.
  - rewrite lookup_insert_ne by done. apply Hkeyed.
Qed.

(** What every handler of a route keeps, [handle] keeps. *)
Lemma handle_preserves {S : Type} (P : S -> Prop)
    (routes : list (Router.Route S)) (request : Request) (st : S) :
  Forall (fun route => forall st, P st -> P (fst (Router.route_handler route request st)))
    routes ->
  P st -> P (fst (Router.handle routes request st)).
Proof.
  intros Hroutes Hst. unfold Router.handle.
  destruct (String.eqb (method request) "OPTIONS"); [done|].
  destruct (List.find _ routes) as [route|] eqn:Hfind; [|done].
  apply find_some in Hfind as [Hin _].
  rewrite Forall_forall in Hroutes.
  specialize (Hroutes route (proj2 (list_elem_of_In _ _) Hin) st Hst).
  by destruct (Router.route_handler route request st) as [st' [response|e]].
Qed.

End InvariantFacts.

(** X16. Serving a request keeps the key invariants of the two stores.  When
    every stored note sits under [user:<owner>:notes:<id>] of its own owner
    and id, a key the KV binding accepts, with an owner that is not empty and
    has no colon, and every stored user sits under the text of its username,
    a key the binding accepts, then the same holds of the stores the request
    leaves, whatever the request, the runtime and the values drawn.  The
    empty stores are such stores. *)
Theorem fetch_keeps_the_key_invariants
    (rt : Worker.Runtime) (bc : AuthController.Bcrypt) (o : Index.Oracle)
    (request : Http.Request) (w : Worker.World) :
  (Invariant.wf_world Worker.empty_world /\ Accounts.users_keyed rt Worker.empty_world)
  /\ (Invariant.wf_world w /\ Accounts.users_keyed rt w ->
      Invariant.wf_world (fst (Index.fetch rt bc o request w)) /\
      Accounts.users_keyed rt (fst (Index.fetch rt bc o request w))).
Proof.
  split.
  { split; intros key x Hx; cbn in Hx; by rewrite lookup_empty in Hx. }
  apply (handle_preserves
           (fun w => Invariant.wf_world w /\ Accounts.users_keyed rt w)).
  unfold Index.routes.
  repeat apply Forall_cons_2; try apply Forall_nil_2; cbn [Router.route_handler];
    intros st [Hwf Hkeyed]; try done.
  - by rewrite login_world.
  - destruct (register_keeps rt bc (Index.salt o) (Index.uuid1 o) (Index.uuid2 o)
                (Index.now1 o) (Index.now2 o) request st) as [Hnotes Husers].
    split; [|by apply Husers].
    intros key n Hn. rewrite Hnotes in Hn. by apply Hwf.
  - by rewrite wf_getNotes.
  - destruct (wf_createNote rt (Index.uuid1 o) (Index.now1 o) (Index.now2 o) request st)
      as [Hnotes Husers].
    split; [by apply Hnotes|]. intros key u Hu. rewrite Husers in Hu. by apply Hkeyed.
  - destruct (wf_updateNote rt (Index.now1 o) request st) as [Hnotes Husers].
    split; [by apply Hnotes|]. intros key u Hu. rewrite Husers in Hu. by apply Hkeyed.
  - destruct (wf_deleteNote request st) as [Hnotes Husers].
    split; [by apply Hnotes|]. intros key u Hu. rewrite Husers in Hu. by apply Hkeyed.
Qed.


(** ** Patterns without parameters *)

Section LiteralFacts.
Import JS Http.

Lemma matchPath_loop_literal (ps qs : list string) :
  forallb (fun seg => negb (startsWith seg ":")) ps = true ->
  length ps = length qs ->
  (Router.matchPath_loop ps qs = true <-> qs = ps).
Proof.
  revert qs. induction ps as [|p ps IH]; intros [|q qs] Hlit Hlen; try done.
  cbn [forallb] in Hlit. apply andb_true_iff in Hlit as [Hp Hlit].
  apply negb_true_iff in Hp. injection Hlen as Hlen.
  cbn [Router.matchPath_loop head tail]. rewrite Hp. cbn [orb].
  case_bool_decide as Hq.
  - injection Hq as ->. rewrite (IH qs Hlit Hlen). split; [by intros ->|by intros [= ->]].
  - split; [done|]. intros [= -> _]. done.
Qed.

Lemma matchPath_literal (routePath requestPath : string) :
  forallb (fun seg => negb (startsWith seg ":")) (Router.parts routePath) = true ->
  (Router.matchPath routePath requestPath = true <->
   Router.parts requestPath = Router.parts routePath).
Proof.
  intros Hlit. unfold Router.matchPath.
  destruct (Nat.eqb_spec (length (Router.parts routePath))
              (length (Router.parts requestPath))) as [Hlen|Hlen]; cbn [negb].
  - by apply matchPath_loop_literal.
  - split; [done|]. intros Heq. by rewrite Heq in Hlen.
Qed.

(** The eight places of the route table *)
Lemma route_at rt bc o (i : nat) (route : Router.Route Worker.World) :
  Index.routes rt bc o !! i = Some route ->
  (i = 0 /\ route = Router.mkRoute "POST" "/api/auth/login"
                       (AuthController.login rt bc (Index.uuid1 o) (Index.now1 o)))
  \/ (i = 1 /\ route = Router.mkRoute "POST" "/api/auth/register"
                          (AuthController.register rt bc (Index.salt o) (Index.uuid1 o)
                             (Index.uuid2 o) (Index.now1 o) (Index.now2 o)))
  \/ (i = 2 /\ route = Router.mkRoute "GET" "/api/notes" NotesController.getNotes)
  \/ (i = 3 /\ route = Router.mkRoute "POST" "/api/notes"
                          (NotesController.createNote rt (Index.uuid1 o)
                             (Index.now1 o) (Index.now2 o)))
  \/ (i = 4 /\ route = Router.mkRoute "PUT" "/api/notes/:id"
                          (NotesController.updateNote rt (Index.now1 o)))
  \/ (i = 5 /\ route = Router.mkRoute "DELETE" "/api/notes/:id" NotesController.deleteNote)
  \/ (i = 6 /\ route = Router.mkRoute "GET" "/" Index.serveIndex)
  \/ (i = 7 /\ route = Router.mkRoute "GET" "/index.html" Index.serveIndex).
Proof.
  unfold Index.routes. intros Hi.
  destruct i as [|[|[|[|[|[|[|[|i]]]]]]]]; [..|done]; injection Hi as <-; tauto.
Qed.

End LiteralFacts.

(** X17. A pattern none of whose segments begins with [:] matches exactly the
    paths that have its segments: the same texts in the same order, slashes
    apart. *)
Theorem matchPath_without_parameters (routePath requestPath : string) :
  Forall (fun seg => JS.startsWith seg ":" = false) (Router.parts routePath) ->
  (Router.matchPath routePath requestPath = true <->
   Router.parts requestPath = Router.parts routePath).
Proof.
  intros Hlit. apply matchPath_literal. apply forallb_forall.
  intros seg Hseg. rewrite Forall_forall in Hlit.
  by rewrite (Hlit seg (proj2 (list_elem_of_In _ _) Hseg)).
Qed.

(** X18. No request matches two routes of the worker, so the order in which
    [index.ts] registers them decides nothing: at whatever two places of the
    route table a request finds a match, the places are the same. *)
Theorem worker_routes_do_not_overlap
    (rt : Worker.Runtime) (bc : AuthController.Bcrypt) (o : Index.Oracle)
    (request : Http.Request) (i j : nat) (route1 route2 : Router.Route Worker.World) :
  Index.routes rt bc o !! i = Some route1 ->
  Index.routes rt bc o !! j = Some route2 ->
  Router.route_matches request route1 = true ->
  Router.route_matches request route2 = true ->
  i = j.
Proof.
  intros Hi Hj [Hm1 Hp1]%route_matches_iff [Hm2 Hp2]%route_matches_iff.
  apply route_at in Hi. apply route_at in Hj.
  destruct Hi as [[-> ->]|[[-> ->]|[[-> ->]|[[-> ->]|[[-> ->]|[[-> ->]|[[-> ->]|[-> ->]]]]]]]];
    cbn [Router.route_method Router.route_path] in Hm1, Hp1;
    destruct Hj as [[-> ->]|[[-> ->]|[[-> ->]|[[-> ->]|[[-> ->]|[[-> ->]|[[-> ->]|[-> ->]]]]]]]];
    cbn [Router.route_method Router.route_path] in Hm2, Hp2;
    try reflexivity;
    try (rewrite <- Hm1 in Hm2; discriminate Hm2);
    apply matchPath_literal in Hp1; try reflexivity;
    apply matchPath_literal in Hp2; try reflexivity;
    rewrite Hp1 in Hp2; discriminate Hp2.
Qed.


(** ** Tokens of different users, and routes registered later *)

Section MoreFacts.
Import JS Http Base64 Worker NotesController.

Lemma btoa_inj (a b : string) : btoa a = btoa b -> a = b.
Proof.
  intros Heq. apply (f_equal atob) in Heq. rewrite !atob_btoa in Heq. congruence.
Qed.

Lemma find_app {A} (f : A -> bool) (l k : list A) :
  List.find f (l ++ k) =
    match List.find f l with
    | Some x => Some x
    | None => List.find f k
    end.
Proof. induction l as [|x l IH]; [done|]. cbn [app List.find]. by destruct (f x). Qed.

End MoreFacts.

(** X19. Tokens do not cross users: a text that [generateToken] makes for one
    user id it makes for no other, whatever the clock and the random part,
    for ids without a colon. *)
Theorem generateToken_separates_users (userId1 userId2 : string) :
  JS.contains NotesController.colon userId1 = false ->
  JS.contains NotesController.colon userId2 = false ->
  userId1 <> userId2 ->
  forall (randomUUID1 randomUUID2 : string) (now1 now2 : N) (w1 w2 : Worker.World),
    snd (AuthController.generateToken randomUUID1 now1 userId1 w1)
    <> snd (AuthController.generateToken randomUUID2 now2 userId2 w2).
Proof.
  intros Hc1 Hc2 Hne randomUUID1 randomUUID2 now1 now2 w1 w2.
  rewrite !generateToken_eq.
  cbn [snd]. intros [= Heq%btoa_inj]. apply Hne.
  apply (f_equal (fun s => JS.first (JS.split NotesController.colon s))) in Heq.
  rewrite !first_split_app in Heq by done. congruence.
Qed.

(** X20. A route registered later never takes a request from a route
    registered before it.  For a request that is no pre-flight: when a route
    of the table matches, the table with one more route, added by [get],
    [post], [put] or [delete], answers as the table did; when none matches,
    the added route answers if its method and pattern match, and otherwise
    the answer is still 404. *)
Theorem handle_after_registration {S : Type}
    (routes : list (Router.Route S)) (path : string) (h : Router.Handler S)
    (request : Http.Request) (st : S) :
  Http.method request <> "OPTIONS" ->
  Forall (fun '(register, m) =>
            (forall route,
                List.find (Router.route_matches request) routes = Some route ->
                Router.handle (register routes path h) request st
                = Router.handle routes request st)
            /\ (List.find (Router.route_matches request) routes = None ->
                Router.handle (register routes path h) request st
                = if String.eqb m (Http.method request)
                     && Router.matchPath path (Http.pathname request)
                  then match h request st with
                       | (st', JS.Normal response) => (st', response)
                       | (st', JS.Throw _) => (st', Router.handler_error_response)
                       end
                  else (st, Router.not_found_response)))
    [(Router.get, "GET"); (Router.post, "POST");
     (Router.put, "PUT"); (Router.delete, "DELETE")].
Proof.
  intros Hm.
  repeat apply Forall_cons_2; try apply Forall_nil_2;
    (split;
     [ intros route Hfind; unfold Router.handle, Router.get, Router.post, Router.put,
         Router.delete; by rewrite (not_OPTIONS _ Hm), find_app, Hfind
     | intros Hnone; unfold Router.handle, Router.get, Router.post, Router.put,
         Router.delete;
       rewrite (not_OPTIONS _ Hm), find_app, Hnone;
       cbn [List.find]; unfold Router.route_matches;
       cbn [Router.route_method Router.route_path];
       by destruct (_ && _) ]).
Qed.


(** * The further properties at sample inputs *)

(** X2 at a pattern with two parameters. *)
Lemma getPathParams_binds_the_parameters_sample :
  Router.getPathParams "/users/:uid/notes/:id" "/users/7/notes/abc" !! "id"
  = Some (Some "abc")
  /\ Router.getPathParams "/users/:uid/notes/:id" "/users/7/notes/abc" !! "notes"
     = None.
Proof.
  destruct (getPathParams_binds_the_parameters "/users/:uid/notes/:id"
              "/users/7/notes/abc" "id") as [Hbound _].
  destruct (getPathParams_binds_the_parameters "/users/:uid/notes/:id"
              "/users/7/notes/abc" "notes") as (_ & Hfree & _).
  split.
  - apply (Hbound ltac:(discriminate) 3); [reflexivity|]. intros j Hj.
    do 4 (destruct j as [|j]; [lia|]). by destruct j.
  - apply Hfree. intros i. do 4 (destruct i as [|i]; [discriminate|]). by destruct i.
Defined.

(** X4 at bob's listing. *)
Lemma fetch_always_sends_cors_sample :
  exists w' response,
    NotesController.getNotes Samples.bob_list Examples.bob_world
    = (w', JS.Normal response) /\
    Index.fetch Examples.toy_runtime Examples.toy_bcrypt Examples.oracle
      Samples.bob_list Examples.bob_world
    = (w', response).
Proof.
  destruct (fetch_always_sends_cors Examples.toy_runtime Examples.toy_bcrypt
              Examples.oracle Samples.bob_list Examples.bob_world) as [_ Hroute].
  apply (Hroute ltac:(discriminate)
           (Router.mkRoute "GET" "/api/notes" NotesController.getNotes)).
  reflexivity.
Defined.

(** X5 at a PATCH. *)
Lemma fetch_unknown_method_is_404_sample :
  Index.fetch Examples.toy_runtime Examples.toy_bcrypt Examples.oracle
    (Examples.anonymous "PATCH" "/api/notes" []) Examples.bob_world
  = (Examples.bob_world, Router.not_found_response).
Proof.
  apply fetch_unknown_method_is_404.
  cbn [Http.method Examples.anonymous].
  rewrite !not_elem_of_cons. repeat split; (discriminate || apply not_elem_of_nil).
Defined.

(** X6 at bob's note. *)
Lemma fetch_note_by_id_sample :
  exists w' response,
    NotesController.updateNote Examples.toy_runtime (Index.now1 Examples.oracle)
      Samples.bob_put Examples.bob_world
    = (w', JS.Normal response) /\
    Index.fetch Examples.toy_runtime Examples.toy_bcrypt Examples.oracle
      Samples.bob_put Examples.bob_world
    = (w', response).
Proof.
  destruct (fetch_note_by_id Examples.toy_runtime Examples.toy_bcrypt Examples.oracle
              Samples.bob_put Examples.bob_world (Worker.note_id Examples.bob_note)
              eq_refl ltac:(discriminate) eq_refl) as (_ & Hput & _).
  exact (Hput eq_refl).
Defined.

(** X7 at bob's note, with a slash after the id. *)
Lemma fetch_note_with_trailing_slash_sample :
  Router.matchPath "/api/notes/:id" (Http.pathname Samples.bob_put_slash) = true
  /\ Index.fetch Examples.toy_runtime Examples.toy_bcrypt Examples.oracle
       Samples.bob_put_slash Examples.bob_world
     = (Examples.bob_world, Http.errorResponse "Note ID is required" 400).
Proof.
  apply (fetch_note_with_trailing_slash Examples.toy_runtime Examples.toy_bcrypt
           Examples.oracle Samples.bob_put_slash Examples.bob_world
           (Worker.note_id Examples.bob_note) Examples.bob
           eq_refl ltac:(discriminate) eq_refl (or_introl eq_refl)).
  vm_compute; reflexivity.
Defined.

(** X8 at bob's listing. *)
Lemma getNotes_lists_all_newest_first_sample :
  exists notes,
    NotesController.getNotes Samples.bob_list Examples.bob_world
    = (Examples.bob_world,
       JS.Normal (Http.jsonResponse
                    (Http.JObj [("notes",
                                 Http.JArr (NotesController.note_json <$> notes))])
                    200)) /\
    Examples.bob_note ∈ notes.
Proof.
  assert (NotesController.authenticateRequest Samples.bob_list
          = JS.Normal (Some Examples.bob)) as Hauth by (vm_compute; reflexivity).
  assert (length (Worker.matching_keys (NotesController.userNotesKey Examples.bob)
                    (Worker.NOTES Examples.bob_world)) <= Worker.list_limit) as Hpage.
  { unfold Examples.bob_world. cbn [Worker.NOTES]. unfold Worker.matching_keys.
    rewrite map_to_list_singleton. cbn [fmap list_fmap fst].
    etransitivity; [apply List.filter_length_le|]. cbn. unfold Worker.list_limit. lia. }
  destruct (getNotes_lists_all_newest_first Examples.bob_world Samples.bob_list
              Examples.bob wf_bob_world Hauth Hpage) as (notes & Hrun & Hall & _).
  exists notes. split; [exact Hrun|]. apply Hall. split; [|reflexivity].
  exists Examples.bob_key. apply lookup_singleton_eq.
Defined.

(** X9 at a note bob creates. *)
Lemma createNote_contract_sample :
  exists w' response,
    NotesController.createNote Examples.toy_runtime "n" 1000 1001 Samples.bob_create
      Examples.bob_world
    = (w', JS.Normal response) /\
    Http.status response = 201%N /\
    is_Some (Worker.NOTES w' !! NotesController.noteKey Examples.bob "n").
Proof.
  assert (NotesController.authenticateRequest Samples.bob_create
          = JS.Normal (Some Examples.bob)) as Hauth by (vm_compute; reflexivity).
  destruct (createNote_contract Examples.toy_runtime "n" 1000 1001 Samples.bob_create
              Examples.bob_world Examples.bob Hauth) as [_ Hbody].
  destruct (Hbody (Examples.object_of [("title", "Todo"); ("content", "- sleep")])
              (Some (JS.VStr "Todo")) (Some (JS.VStr "- sleep")) eq_refl
              ltac:(vm_compute; reflexivity) ltac:(vm_compute; reflexivity))
    as [_ Hcreated].
  destruct (Hcreated (JS.VStr "Todo") (JS.VStr "- sleep") eq_refl eq_refl eq_refl eq_refl)
    as [_ H201].
  destruct (H201 ltac:(vm_compute; reflexivity) eq_refl) as (w' & Hrun & Hstored & _).
  exists w'. eexists. split; [exact Hrun|]. split; [reflexivity|].
  exact (ex_intro _ _ Hstored).
Defined.

(** X10 at bob's note. *)
Lemma deleteNote_twice_sample :
  exists w1 first,
    NotesController.deleteNote Samples.bob_delete Examples.bob_world
    = (w1, JS.Normal first) /\
    Http.status first = 200%N /\
    NotesController.deleteNote Samples.bob_delete w1
    = (w1, JS.Normal (Http.errorResponse "Note not found" 404)).
Proof.
  assert (NotesController.authenticateRequest Samples.bob_delete
          = JS.Normal (Some Examples.bob)) as Hauth by (vm_compute; reflexivity).
  assert (JS.pop (JS.split "/"%char (Http.pathname Samples.bob_delete))
          = Some (Worker.note_id Examples.bob_note)) as Hid by (vm_compute; reflexivity).
  destruct (deleteNote_twice Samples.bob_delete Examples.bob_world Examples.bob
              (Worker.note_id Examples.bob_note) Examples.bob_note
              Hauth Hid ltac:(discriminate) ltac:(vm_compute; reflexivity)
              (lookup_singleton_eq _ _))
    as (w1 & Hfirst & _ & _ & _ & Hsecond).
  exists w1. eexists. split; [exact Hfirst|]. split; [reflexivity|exact Hsecond].
Defined.

(** X11 at a note alice creates in bob's world and deletes again. *)
Lemma createNote_then_deleteNote_sample :
  let create := Examples.request_of Examples.alice "POST" "/api/notes"
                  [("title", "T"); ("content", "C")] in
  let delete := Examples.request_of Examples.alice "DELETE" "/api/notes/n" [] in
  exists w1 created,
    NotesController.createNote Examples.toy_runtime "n" 1000 1001 create
      Examples.bob_world = (w1, JS.Normal created) /\
    Http.status created = 201%N /\
    NotesController.deleteNote delete w1
    = (Examples.bob_world,
       JS.Normal (Http.jsonResponse
                    (Http.JObj [("message", Http.JStr "Note deleted successfully")])
                    200)).
Proof.
  intros create delete.
  assert (NotesController.authenticateRequest create = JS.Normal (Some Examples.alice))
    as Hcreate by (vm_compute; reflexivity).
  assert (NotesController.authenticateRequest delete = JS.Normal (Some Examples.alice))
    as Hdelete by (vm_compute; reflexivity).
  assert (JS.pop (JS.split "/"%char (Http.pathname delete)) = Some "n")
    as Hid by (vm_compute; reflexivity).
  assert (Worker.NOTES Examples.bob_world !! NotesController.noteKey Examples.alice "n"
          = None) as Hfresh.
  { apply lookup_singleton_ne. intros Heq. vm_compute in Heq. discriminate Heq. }
  pose proof (createNote_authenticated Examples.toy_runtime "n" 1000 1001 create
                Examples.bob_world Examples.alice Hcreate) as Hrun.
  change (Http.json create)
    with (JS.Normal (Examples.object_of [("title", "T"); ("content", "C")])) in Hrun.
  cbv iota beta in Hrun.
  assert (JS.member "title" (Examples.object_of [("title", "T"); ("content", "C")])
          = JS.Normal (Some (JS.VStr "T"))) as Ht by (vm_compute; reflexivity).
  assert (JS.member "content" (Examples.object_of [("title", "T"); ("content", "C")])
          = JS.Normal (Some (JS.VStr "C"))) as Hc by (vm_compute; reflexivity).
  assert (Worker.valid_key (NotesController.noteKey Examples.alice "n") = true)
    as Hvalid by (vm_compute; reflexivity).
  rewrite Ht, Hc, !falsy_value_str in Hrun by discriminate.
  cbn [orb from_option id] in Hrun. cbv zeta in Hrun. rewrite Hvalid in Hrun.
  cbn [andb Worker.note_fits Examples.toy_runtime] in Hrun.
  eexists _, _. split; [exact Hrun|]. split; [reflexivity|].
  exact (createNote_then_deleteNote Examples.toy_runtime "n" 1000 1001 create delete
           Examples.bob_world _ Examples.alice _ Hcreate Hdelete Hid
           ltac:(discriminate) Hfresh Hrun eq_refl).
Defined.

(** X12 at a request of bob with a broken body. *)
Lemma malformed_body_is_500_sample :
  NotesController.createNote Examples.toy_runtime "n" 1000 1001 Samples.bob_broken
    Examples.bob_world
  = (Examples.bob_world, JS.Normal (Http.errorResponse "Internal server error" 500)).
Proof.
  destruct (malformed_body_is_500 Examples.toy_runtime Examples.toy_bcrypt
              "salt" "i" "t" "n" 1000 1001 0
              Samples.bob_broken Examples.bob_world JS.SyntaxError eq_refl)
    as (_ & _ & Hnotes & _).
  destruct (Hnotes Examples.bob) as [Hcreate _];
    [vm_compute; reflexivity|exact Hcreate].
Defined.

(** X13 at carol, who registers and logs in. *)
Lemma register_then_login_sample :
  exists w1 user token1 token2,
    AuthController.register Examples.toy_runtime Examples.toy_bcrypt "salt"
      Samples.carol_id "r1" 2000 2003
      (Examples.anonymous "POST" "/api/auth/register" Samples.carol_credentials)
      Examples.bob_world
    = (w1, JS.Normal (Http.jsonResponse (AuthController.auth_json token1 user) 201)) /\
    AuthController.login Examples.toy_runtime Examples.toy_bcrypt "r2" 9000
      (Examples.anonymous "POST" "/api/auth/login" Samples.carol_credentials) w1
    = (w1, JS.Normal (Http.jsonResponse (AuthController.auth_json token2 user) 200)) /\
    Worker.user_id user = Samples.carol_id.
Proof.
  destruct (register_then_login Examples.toy_runtime Examples.toy_bcrypt "salt"
              Samples.carol_id "r1" "r2" 2000 2003 9000
              (Examples.anonymous "POST" "/api/auth/register" Samples.carol_credentials)
              (Examples.anonymous "POST" "/api/auth/login" Samples.carol_credentials)
              Examples.bob_world _ _ "carol" "correct horse"
              eq_refl eq_refl
              ltac:(vm_compute; reflexivity) ltac:(vm_compute; reflexivity)
              ltac:(vm_compute; reflexivity) ltac:(vm_compute; reflexivity)
              ltac:(discriminate) ltac:(simpl; lia)
              ltac:(vm_compute; reflexivity)
              ltac:(apply lookup_singleton_ne; discriminate)
              eq_refl ltac:(vm_compute; reflexivity)
              ltac:(discriminate) ltac:(vm_compute; reflexivity))
    as (w1 & user & token1 & token2 & Hregister & Hlogin & Hid & _).
  by exists w1, user, token1, token2.
Defined.

(** X14 at carol, who registers twice. *)
Lemma register_twice_is_409_sample :
  exists w1 created,
    AuthController.register Examples.toy_runtime Examples.toy_bcrypt "salt"
      Samples.carol_id "r1" 2000 2003
      (Examples.anonymous "POST" "/api/auth/register" Samples.carol_credentials)
      Examples.bob_world
    = (w1, JS.Normal created) /\
    AuthController.register Examples.toy_runtime Examples.toy_bcrypt "pepper"
      Examples.alice "r2" 9000 9004
      (Examples.anonymous "POST" "/api/auth/register"
         [("username", "carol"); ("password", "another one")]) w1
    = (w1, JS.Normal (Http.errorResponse "Username already exists" 409)).
Proof.
  destruct (register_twice_is_409 Examples.toy_runtime Examples.toy_bcrypt "salt"
              Samples.carol_id "r1" "pepper" Examples.alice "r2" 2000 2003 9000 9004
              (Examples.anonymous "POST" "/api/auth/register" Samples.carol_credentials)
              (Examples.anonymous "POST" "/api/auth/register"
                 [("username", "carol"); ("password", "another one")])
              Examples.bob_world _ _ "carol" "correct horse" "another one"
              eq_refl eq_refl
              ltac:(vm_compute; reflexivity) ltac:(vm_compute; reflexivity)
              ltac:(discriminate)
              ltac:(vm_compute; reflexivity) ltac:(simpl; lia)
              ltac:(vm_compute; reflexivity) ltac:(simpl; lia)
              ltac:(vm_compute; reflexivity)
              ltac:(apply lookup_singleton_ne; discriminate) eq_refl)
    as (w1 & created & user & Hfirst & _ & _ & _ & Hsecond).
  by exists w1, created.
Defined.

(** X15 at bob, who logs in with his password. *)
Lemma login_contract_sample :
  exists token,
    snd (AuthController.login Examples.toy_runtime Examples.toy_bcrypt "r" 2000
           (Examples.anonymous "POST" "/api/auth/login"
              [("username", "bob"); ("password", "hunter22")])
           Examples.bob_world)
    = JS.Normal
        (Http.jsonResponse
           (Http.JObj
              [("token", Http.JStr token);
               ("user", Http.JObj [("id", Http.JStr Examples.bob);
                                   ("username", Http.JVal (JS.VStr "bob"));
                                   ("createdAt", Http.JDate 900)])])
           200).
Proof.
  destruct (login_contract Examples.toy_runtime Examples.toy_bcrypt "r" 2000
              (Examples.anonymous "POST" "/api/auth/login"
                 [("username", "bob"); ("password", "hunter22")])
              Examples.bob_world) as (_ & _ & _ & Hsuccess).
  destruct (Hsuccess _ "bob" "hunter22" Examples.bob_user eq_refl
              ltac:(vm_compute; reflexivity) ltac:(discriminate)
              ltac:(vm_compute; reflexivity) ltac:(discriminate)
              ltac:(vm_compute; reflexivity) (lookup_singleton_eq _ _) eq_refl)
    as (token & _ & Hrun & _).
  exists token. exact Hrun.
Defined.

(** X16 at the world after one registration from empty stores. *)
Lemma fetch_keeps_the_key_invariants_sample :
  let w := fst (Index.fetch Examples.toy_runtime Examples.toy_bcrypt Examples.oracle
                  (Examples.anonymous "POST" "/api/auth/register"
                     Samples.carol_credentials)
                  Worker.empty_world) in
  Invariant.wf_world w /\ Accounts.users_keyed Examples.toy_runtime w.
Proof.
  intros w.
  destruct (fetch_keeps_the_key_invariants Examples.toy_runtime Examples.toy_bcrypt
              Examples.oracle
              (Examples.anonymous "POST" "/api/auth/register" Samples.carol_credentials)
              Worker.empty_world) as [Hempty Hkeeps].
  exact (Hkeeps Hempty).
Defined.

(** X17 at the pattern of the notes collection. *)
Lemma matchPath_without_parameters_sample :
  Router.matchPath "/api/notes" "//api/notes/" = true.
Proof.
  apply matchPath_without_parameters; [|reflexivity].
  repeat constructor.
Defined.

(** X18 at bob's PUT: the fifth route takes it, and no other does. *)
Lemma worker_routes_do_not_overlap_sample :
  exists route,
    Index.routes Examples.toy_runtime Examples.toy_bcrypt Examples.oracle !! 4
    = Some route /\
    Router.route_matches Samples.bob_put route = true /\
    forall j other,
      Index.routes Examples.toy_runtime Examples.toy_bcrypt Examples.oracle !! j
      = Some other ->
      Router.route_matches Samples.bob_put other = true ->
      4 = j.
Proof.
  eexists. split; [reflexivity|]. split; [reflexivity|].
  intros j other Hj Hmatch.
  exact (worker_routes_do_not_overlap Examples.toy_runtime Examples.toy_bcrypt
           Examples.oracle Samples.bob_put 4 j _ other eq_refl Hj eq_refl Hmatch).
Defined.

(** X19 at alice and bob. *)
Lemma generateToken_separates_users_sample :
  snd (AuthController.generateToken "r1" 5 Examples.alice Worker.empty_world)
  <> snd (AuthController.generateToken "r2" 7 Examples.bob Worker.empty_world).
Proof.
  apply (generateToken_separates_users Examples.alice Examples.bob);
    [reflexivity|reflexivity|discriminate].
Defined.

(** X20 at the sample routes and one more route. *)
Lemma handle_after_registration_sample :
  Router.handle
    (Router.get Examples.sample_routes "/api/notes" (Examples.answering "late"))
    (Examples.anonymous "GET" "/api/notes" []) tt
  = Router.handle Examples.sample_routes (Examples.anonymous "GET" "/api/notes" []) tt.
Proof.
  pose proof (handle_after_registration Examples.sample_routes "/api/notes"
                (Examples.answering "late") (Examples.anonymous "GET" "/api/notes" []) tt
                ltac:(discriminate)) as Hall.
  apply Forall_cons in Hall as [[Hsame _] _].
  by eapply Hsame.
Defined.
